(** * Synthetic business data generator and bronze/silver/gold pipeline

    A shallow embedding of [demo3/data/generator.py]
    ([BusinessDataGenerator]) and of the [DataPipeline] class of
    [demo3/pages/5_Demo.py], with the properties of the specification
    stated over it.

    Modelling conventions.
    - Python floats are modelled by exact rationals ([Q]); [round(x, 2)]
      is round-half-to-even on [x * 100].  Equalities between computed
      amounts are therefore stated with [==] ([Qeq]).
    - Calendar dates are day numbers ([Z]); pipeline timestamps are
      integers on one common time axis.
    - Every source of randomness ([random], [numpy.random], [uuid], [Faker])
      draws from one explicit stream; a property proved for every stream
      holds for every outcome of the separate generators.
    - Exceptions are values of [Error]; a raising computation returns [Err]. *)

From Stdlib Require Import List ZArith QArith Qround Qabs String Ascii Bool Lia Lqa.
Import ListNotations.

Open Scope Q_scope.

(** ** Exceptions *)

Inductive Error : Type :=
| KeyError (key : string)
| ValueError (msg : string)
| IndexError
| ZeroDivisionError.

Inductive Result (A : Type) : Type :=
| Ok (a : A)
| Err (e : Error).
Arguments Ok {A} a.
Arguments Err {A} e.

(** ** [round(x, 2)] *)

Definition round_half_even (q : Q) : Z :=
  let f := Qfloor q in
  match Qcompare (q - inject_Z f) (1 # 2) with
  | Lt => f
  | Gt => (f + 1)%Z
  | Eq => if Z.even f then f else (f + 1)%Z
  end.

Definition round2 (q : Q) : Q := round_half_even (q * 100) # 100.

Definition Qlt_bool (a b : Q) : bool := negb (Qle_bool b a).

(** ** The random source

    [uniform_src n] is the [n]-th uniform draw of the run, [text_src n] the
    text Faker produces when asked at position [n], and [clock_today] the
    day [datetime.now()] falls on.  A computation of type [Gen A] reads the
    source from a position and returns the next position. *)

Record Source : Type := {
  uniform_src : nat -> Q;
  text_src : nat -> string;
  clock_today : Z
}.

Definition valid_source (s : Source) : Prop :=
  forall n, 0 <= uniform_src s n /\ uniform_src s n < 1.

(** Effectful code reads an environment [E] (a random source, a clock) from
    a position and may raise. *)
Definition Eff (E A : Type) : Type := E -> nat -> Result (A * nat).

Definition ret {E A} (a : A) : Eff E A := fun _ i => Ok (a, i).

Definition bind {E A B} (m : Eff E A) (k : A -> Eff E B) : Eff E B :=
  fun s i => match m s i with
             | Ok (a, j) => k a s j
             | Err e => Err e
             end.

Definition raise {E A} (e : Error) : Eff E A := fun _ _ => Err e.

Definition lift {E A} (r : Result A) : Eff E A :=
  fun _ i => match r with Ok a => Ok (a, i) | Err e => Err e end.

Notation "x <- m ;; k" := (bind m (fun x => k))
  (at level 61, m at next level, right associativity).

(** [for _ in range(n): rows.append(body)] *)
Fixpoint repeat_gen {E A} (n : nat) (body : Eff E A) : Eff E (list A) :=
  match n with
  | O => ret []
  | S n' => x <- body ;; xs <- repeat_gen n' body ;; ret (x :: xs)
  end.

(** [for x in l: ...] where one iteration appends the rows [body x]
    ([continue] appends none). *)
Fixpoint for_each {E A B} (l : list A) (body : A -> Eff E (list B)) : Eff E (list B) :=
  match l with
  | [] => ret []
  | x :: l' => rows <- body x ;; rest <- for_each l' body ;; ret (rows ++ rest)
  end.

(** [for x in l: ...] where the iterations update the state [st]. *)
Fixpoint for_state {E S A} (l : list A) (body : S -> A -> Eff E S) (st : S) : Eff E S :=
  match l with
  | [] => ret st
  | x :: l' => st' <- body st x ;; for_state l' body st'
  end.

Definition Gen (A : Type) : Type := Eff Source A.

(** *** The [random] module *)

Definition random_random : Gen Q := fun s i => Ok (uniform_src s i, S i).

Definition random_uniform (a b : Q) : Gen Q :=
  r <- random_random ;; ret (a + (b - a) * r).

Definition random_randint (a b : Z) : Gen Z :=
  if (b <? a)%Z then raise (ValueError "empty range for randrange()")
  else r <- random_random ;; ret (a + Qfloor (r * inject_Z (b - a + 1)))%Z.

Definition pick {A} (x : A) (xs : list A) (r : Q) : A :=
  nth (Z.to_nat (Qfloor (r * inject_Z (Z.of_nat (List.length (x :: xs)))))) (x :: xs) x.

Definition random_choice {A} (l : list A) : Gen A :=
  match l with
  | [] => raise IndexError
  | x :: xs => r <- random_random ;; ret (pick x xs r)
  end.

(** [numpy.random.choice(options, p=weights)]: the first option whose
    cumulative weight exceeds the draw. *)
Fixpoint weighted {A} (d : A) (l : list (A * Q)) (r : Q) : A :=
  match l with
  | [] => d
  | (a, p) :: l' => if Qlt_bool r p then a else weighted a l' (r - p)
  end.

Definition np_random_choice {A} (l : list (A * Q)) : Gen A :=
  match l with
  | [] => raise (ValueError "a must be non-empty")
  | (a, _) :: _ => r <- random_random ;; ret (weighted a l r)
  end.

(** [DataFrame.sample(n)]: [n] distinct rows, drawn one after the other. *)
Fixpoint sample {A} (n : nat) (rows : list A) : Gen (list A) :=
  match n with
  | O => ret []
  | S n' =>
      match rows with
      | [] => raise (ValueError "Cannot take a larger sample than population")
      | x :: _ =>
          r <- random_random ;;
          let k := Z.to_nat (Qfloor (r * inject_Z (Z.of_nat (List.length rows)))) in
          rest <- sample n' (firstn k rows ++ skipn (S k) rows) ;;
          ret (nth k rows x :: rest)
      end
  end.

(** [str(uuid.uuid4())[:8]]: eight hexadecimal digits, 32 random bits. *)
Definition hex_digit (n : Z) : ascii :=
  nth (Z.to_nat n) (list_ascii_of_string "0123456789abcdef") "0"%char.

Fixpoint hex_digits (k : nat) (n : Z) : string :=
  match k with
  | O => EmptyString
  | S k' => (hex_digits k' (n / 16) ++ String (hex_digit (n mod 16)) EmptyString)%string
  end.

Definition uuid4_8 : Gen string :=
  r <- random_random ;; ret (hex_digits 8 (Qfloor (r * inject_Z (2 ^ 32)))).

(** *** Faker *)

Definition fake_text : Gen string := fun s i => Ok (text_src s i, S i).

Definition today : Gen Z := fun s i => Ok (clock_today s, i).

(** [fake.date_between('-5y', 'today')] as a day number. *)
Definition fake_date_between_5y : Gen Z :=
  t <- today ;; k <- random_randint 0 (5 * 365) ;; ret (t - k)%Z.

(** [fake.date_time_between(start, end)]; only the day is ever stored. *)
Definition fake_date_time_between (start_day end_day : Z) : Gen Z :=
  random_randint start_day end_day.

(** A source that replays a finite list of draws (and then [1/2]). *)
Definition tape (draws : list Q) (day : Z) : Source :=
  {| uniform_src := fun n => nth n draws (1 # 2);
     text_src := fun _ => "text"%string;
     clock_today := day |}.

(** ** Tables of the generator

    One record per dictionary the generator appends.  A cell that holds
    [None] in some row is an [option]; so are the two cells an order copies
    from a row of the customer frame. *)

Module Product.
Record t : Type := {
  product_id : string;
  name : string;
  category : string;
  unit_price : Q;
  min_stock : option Z;
  max_stock : option Z;
  supplier_id : option string;
  lead_time_days : Z
}.
End Product.

Module Customer.
Record t : Type := {
  customer_id : string;
  company_name : string;
  contact_name : string;
  email : option string;
  phone : option string;
  address : string;
  city : string;
  postal_code : string;
  country : string;
  customer_since : Z;
  credit_limit : option Z;
  payment_terms : option string;
  department : option string
}.
End Customer.

Module SalesOrder.
Record t : Type := {
  order_id : string;
  customer_id : option string;
  order_date : Z;
  status : string;
  shipping_method : string;
  payment_terms : option string;
  department : option string;
  shipping_address : option string;
  shipping_city : option string;
  shipping_postal_code : option string;
  expected_delivery : Z
}.
End SalesOrder.

Module OrderItem.
Record t : Type := {
  order_id : string;
  product_id : string;
  quantity : Z;
  unit_price : Q;
  discount : Q;
  line_total : Q
}.
End OrderItem.

Module FinancialTransaction.
Record t : Type := {
  transaction_id : string;
  order_id : string;
  customer_id : option string;
  invoice_date : Z;
  due_date : Z;
  amount : option Q;
  payment_date : Z;
  payment_method : string;
  status : string;
  department : option string;
  currency : string
}.
End FinancialTransaction.

(** The generator object: the attributes [__init__] sets. *)
Record BusinessDataGenerator : Type := {
  start_date : Z;
  end_date : Z;
  error_rate : Q;
  products : list Product.t;
  customers : list Customer.t
}.

(** The constant lists [__init__] sets. *)
Definition product_categories : list string :=
  ["Elektronik"; "Bürobedarf"; "Möbel"; "IT-Equipment"; "Verbrauchsmaterial"]%string.
Definition payment_terms : list string :=
  ["Net30"; "Net60"; "Immediate"; "Net45"]%string.
Definition departments : list string :=
  ["Vertrieb"; "IT"; "HR"; "Finanzen"; "Einkauf"; "Produktion"]%string.
Definition status_options : list string :=
  ["Neu"; "In Bearbeitung"; "Abgeschlossen"; "Storniert"]%string.
Definition shipping_methods : list string :=
  ["Standard"; "Express"; "Economy"; "Premium"]%string.

(** ** [BusinessDataGenerator] *)

(** The category-specific name vocabulary and price range. *)
Definition category_properties (category : string) : list string * (Q * Q) :=
  if (category =? "Elektronik")%string then
    (["ThinkPad"; "ProBook"; "Latitude"; "Monitor"; "Drucker"]%string, (500, 2000))
  else if (category =? "Bürobedarf")%string then
    (["Papier"; "Ordner"; "Stifte"; "Marker"; "Notizblöcke"]%string, (5, 50))
  else if (category =? "Möbel")%string then
    (["Schreibtisch"; "Bürostuhl"; "Schrank"; "Regal"; "Lampe"]%string, (100, 1000))
  else if (category =? "IT-Equipment")%string then
    (["Router"; "Switch"; "Kabel"; "Dockingstation"; "Webcam"]%string, (50, 500))
  else
    (["Toner"; "Druckerpatrone"; "Batterien"; "USB-Sticks"; "Reinigungsmittel"]%string,
     (10, 200)).

Definition generate_product (rate : Q) : Gen Product.t :=
  category <- random_choice product_categories ;;
  let '(name_parts, (lo, hi)) := category_properties category in
  r <- random_random ;;
  stock <- (if Qlt_bool r rate then ret (None, None, None)
            else
              min_stock <- random_randint 10 50 ;;
              max_stock <- random_randint 100 500 ;;
              sid <- uuid4_8 ;;
              ret (Some min_stock, Some max_stock, Some ("S" ++ sid)%string)) ;;
  let '(min_stock, max_stock, supplier_id) := stock in
  pid <- uuid4_8 ;;
  part <- random_choice name_parts ;;
  number <- fake_text ;;
  price <- random_uniform lo hi ;;
  lead <- random_randint 1 30 ;;
  ret {| Product.product_id := ("P" ++ pid)%string;
         Product.name := (part ++ " " ++ number)%string;
         Product.category := category;
         Product.unit_price := round2 price;
         Product.min_stock := min_stock;
         Product.max_stock := max_stock;
         Product.supplier_id := supplier_id;
         Product.lead_time_days := lead |}.

Definition _generate_product_master_data (rate : Q) (num_products : nat)
  : Gen (list Product.t) :=
  repeat_gen num_products (generate_product rate).

Definition generate_customer (rate : Q) : Gen Customer.t :=
  r <- random_random ;;
  contact <- (if Qlt_bool r rate then ret (None, None, None)
              else
                email <- fake_text ;;
                phone <- fake_text ;;
                limit <- random_choice [5000; 10000; 25000; 50000; 100000]%Z ;;
                ret (Some email, Some phone, Some limit)) ;;
  let '(email, phone, credit_limit) := contact in
  cid <- uuid4_8 ;;
  company <- fake_text ;;
  contact_name <- fake_text ;;
  address <- fake_text ;;
  city <- fake_text ;;
  postcode <- fake_text ;;
  since <- fake_date_between_5y ;;
  terms <- random_choice payment_terms ;;
  dept <- random_choice departments ;;
  ret {| Customer.customer_id := ("C" ++ cid)%string;
         Customer.company_name := company;
         Customer.contact_name := contact_name;
         Customer.email := email;
         Customer.phone := phone;
         Customer.address := address;
         Customer.city := city;
         Customer.postal_code := postcode;
         Customer.country := "Deutschland";
         Customer.customer_since := since;
         Customer.credit_limit := credit_limit;
         Customer.payment_terms := Some terms;
         Customer.department := Some dept |}.

Definition _generate_customer_master_data (rate : Q) (num_customers : nat)
  : Gen (list Customer.t) :=
  repeat_gen num_customers (generate_customer rate).

(** [__init__]; the sizes of the two master tables (100 and 200 in the
    source) are the default arguments of the two methods above. *)
Definition init (start_day end_day : Z) (rate : Q) (num_products num_customers : nat)
  : Gen BusinessDataGenerator :=
  ps <- _generate_product_master_data rate num_products ;;
  cs <- _generate_customer_master_data rate num_customers ;;
  ret {| start_date := start_day; end_date := end_day; error_rate := rate;
         products := ps; customers := cs |}.

Definition generate_sales_order (self : BusinessDataGenerator) : Gen SalesOrder.t :=
  order_date <- fake_date_time_between (start_date self) (end_date self) ;;
  sampled <- sample 1 (customers self) ;;
  match sampled with
  | [] => raise IndexError
  | customer :: _ =>
      r <- random_random ;;
      let '(customer_id, shipping_address, shipping_city, shipping_postal_code) :=
        if Qlt_bool r (error_rate self * (1 # 2)) then (None, None, None, None)
        else (Some (Customer.customer_id customer), Some (Customer.address customer),
              Some (Customer.city customer), Some (Customer.postal_code customer)) in
      oid <- uuid4_8 ;;
      status <- np_random_choice
                  (combine status_options [1 # 10; 2 # 10; 6 # 10; 1 # 10]) ;;
      shipping <- random_choice shipping_methods ;;
      days <- random_randint 3 14 ;;
      ret {| SalesOrder.order_id := ("SO" ++ oid)%string;
             SalesOrder.customer_id := customer_id;
             SalesOrder.order_date := order_date;
             SalesOrder.status := status;
             SalesOrder.shipping_method := shipping;
             SalesOrder.payment_terms := Customer.payment_terms customer;
             SalesOrder.department := Customer.department customer;
             SalesOrder.shipping_address := shipping_address;
             SalesOrder.shipping_city := shipping_city;
             SalesOrder.shipping_postal_code := shipping_postal_code;
             SalesOrder.expected_delivery := (order_date + days)%Z |}
  end.

Definition generate_sales_orders (self : BusinessDataGenerator) (num_orders : nat)
  : Gen (list SalesOrder.t) :=
  repeat_gen num_orders (generate_sales_order self).

(** One candidate position of an order (the inner loop body of
    [generate_order_items]). *)
Definition generate_order_item (self : BusinessDataGenerator)
    (order : SalesOrder.t) (product : Product.t) : Gen (list OrderItem.t) :=
  r <- random_random ;;
  if Qlt_bool r (error_rate self * (1 # 10)) then ret []
  else
    quantity <- random_randint 1 10 ;;
    discount <- random_choice [0; 0; 0; 5 # 100; 1 # 10] ;;
    r' <- random_random ;;
    unit_price <- (if Qlt_bool r' (error_rate self)
                   then
                     u <- random_uniform (- (1 # 10)) (1 # 10) ;;
                     ret (Product.unit_price product * (1 + u))
                   else ret (Product.unit_price product)) ;;
    ret [ {| OrderItem.order_id := SalesOrder.order_id order;
             OrderItem.product_id := Product.product_id product;
             OrderItem.quantity := quantity;
             OrderItem.unit_price := round2 unit_price;
             OrderItem.discount := discount;
             OrderItem.line_total :=
               round2 (inject_Z quantity * unit_price * (1 - discount)) |} ].

Definition generate_items_of_order (self : BusinessDataGenerator)
    (items_per_order : Z * Z) (order : SalesOrder.t) : Gen (list OrderItem.t) :=
  r <- random_random ;;
  if Qlt_bool r (error_rate self * (3 # 10)) then ret []
  else
    num_items <- random_randint (fst items_per_order) (snd items_per_order) ;;
    if (num_items <? 0)%Z then raise (ValueError "A negative number of rows requested")
    else
      selected_products <- sample (Z.to_nat num_items) (products self) ;;
      for_each selected_products (generate_order_item self order).

Definition generate_order_items (self : BusinessDataGenerator)
    (sales_orders : list SalesOrder.t) (items_per_order : Z * Z)
  : Gen (list OrderItem.t) :=
  for_each sales_orders (generate_items_of_order self items_per_order).

(** *** Financial transactions *)

Definition sumQ (l : list Q) : Q := fold_right Qplus 0 l.

(** [order_items.groupby('order_id')['line_total'].sum()] merged onto the
    orders with [how='left']: the grouped frame has one row per order id, so
    every order receives the sum of its own items, or NaN when it has none. *)
Definition order_total (order_items : list OrderItem.t) (oid : string) : option Q :=
  match filter (fun it => (OrderItem.order_id it =? oid)%string) order_items with
  | [] => None
  | l => Some (sumQ (map OrderItem.line_total l))
  end.

Fixpoint dict_get {V} (d : list (string * V)) (k : string) : option V :=
  match d with
  | [] => None
  | (k', v) :: d' => if (k' =? k)%string then Some v else dict_get d' k
  end.

Definition term_days : list (string * Z) :=
  [("Net30", 30); ("Net45", 45); ("Net60", 60); ("Immediate", 0)]%string%Z.

(** [{...}[order['payment_terms']]] *)
Definition lookup_term_days (terms : option string) : Result Z :=
  match terms with
  | None => Err (KeyError "None")
  | Some k => match dict_get term_days k with
              | Some d => Ok d
              | None => Err (KeyError k)
              end
  end.

(** NaN-propagating arithmetic on a possibly missing amount. *)
Definition nan_mul (amount : option Q) (x : Q) : option Q :=
  option_map (fun a => a * x) amount.
Definition nan_round2 (amount : option Q) : option Q := option_map round2 amount.
Definition nan_gt (amount : option Q) (x : Q) : bool :=
  match amount with Some a => Qlt_bool x a | None => false end.

Definition payment_methods : list string :=
  ["Überweisung"; "Lastschrift"; "Kreditkarte"]%string.

(** The record written for one (possibly partial) payment. *)
Definition make_transaction (order : SalesOrder.t) (invoice_date due_date : Z)
    (amount : option Q) (payment_date : Z) : Gen FinancialTransaction.t :=
  tid <- uuid4_8 ;;
  method <- random_choice payment_methods ;;
  now <- today ;;
  ret {| FinancialTransaction.transaction_id := ("FT" ++ tid)%string;
         FinancialTransaction.order_id := SalesOrder.order_id order;
         FinancialTransaction.customer_id := SalesOrder.customer_id order;
         FinancialTransaction.invoice_date := invoice_date;
         FinancialTransaction.due_date := due_date;
         FinancialTransaction.amount := nan_round2 amount;
         FinancialTransaction.payment_date := payment_date;
         FinancialTransaction.payment_method := method;
         FinancialTransaction.status :=
           if (payment_date <=? now)%Z then "Bezahlt" else "Ausstehend";
         FinancialTransaction.department := SalesOrder.department order;
         FinancialTransaction.currency := "EUR" |}.

(** The split decision and the records it writes (lines 225-261), for an
    order whose dates and amount have been settled. *)
Definition book_transactions (order : SalesOrder.t) (invoice_date due_date : Z)
    (actual_payment_date : Z) (amount : option Q)
  : Gen (list FinancialTransaction.t) :=
  r <- random_random ;;
  if Qlt_bool r (1 # 10) && nan_gt amount 1000 then
    split_ratio <- random_uniform (3 # 10) (7 # 10) ;;
    let amounts := [nan_mul amount split_ratio; nan_mul amount (1 - split_ratio)] in
    later <- random_randint 1 10 ;;
    let dates := [actual_payment_date; (actual_payment_date + later)%Z] in
    for_each (combine amounts dates)
      (fun '(split_amount, split_date) =>
         t <- make_transaction order invoice_date due_date split_amount split_date ;;
         ret [t])
  else
    t <- make_transaction order invoice_date due_date amount actual_payment_date ;;
    ret [t].

(** One iteration of the loop of [generate_financial_transactions]. *)
Definition generate_transactions_of_order (self : BusinessDataGenerator)
    (order_items : list OrderItem.t) (order : SalesOrder.t)
  : Gen (list FinancialTransaction.t) :=
  r <- random_random ;;
  if Qlt_bool r (error_rate self * (2 # 10)) then ret []
  else
    let invoice_date := SalesOrder.order_date order in
    term <- lift (lookup_term_days (SalesOrder.payment_terms order)) ;;
    let due_date := (invoice_date + term)%Z in
    r_shift <- random_random ;;
    invoice_date <- (if Qlt_bool r_shift (3 # 10)
                     then shift <- random_randint 1 5 ;; ret (invoice_date + shift)%Z
                     else ret invoice_date) ;;
    payment_delay <- random_choice [0; 0; 0; 5; 10; 15; 30]%Z ;;
    let actual_payment_date := (due_date + payment_delay)%Z in
    let amount := order_total order_items (SalesOrder.order_id order) in
    r_amount <- random_random ;;
    amount <- (if Qlt_bool r_amount (error_rate self)
               then
                 u <- random_uniform (- (5 # 100)) (5 # 100) ;;
                 ret (nan_mul amount (1 + u))
               else ret amount) ;;
    book_transactions order invoice_date due_date actual_payment_date amount.

(** An empty list of rows is a [DataFrame] without columns: grouping or
    merging it on ['order_id'] raises [KeyError]. *)
Definition generate_financial_transactions (self : BusinessDataGenerator)
    (sales_orders : list SalesOrder.t) (order_items : list OrderItem.t)
  : Gen (list FinancialTransaction.t) :=
  match order_items, sales_orders with
  | [], _ => raise (KeyError "order_id")
  | _, [] => raise (KeyError "order_id")
  | _, _ => for_each sales_orders (generate_transactions_of_order self order_items)
  end.


(** ** Tables of the pipeline

    The frames [load_data] reads back: any cell but a key may be missing
    (NaN, NaT), dates are timestamps. *)

Module SalesOrdersRow.
Record t : Type := {
  order_id : string;
  customer_id : option string;
  order_date : option Z;
  status : option string;
  payment_terms : option string;
  department : option string
}.
End SalesOrdersRow.

Module OrderItemsRow.
Record t : Type := {
  order_id : string;
  product_id : option string;
  quantity : option Z;
  unit_price : option Q;
  discount : option Q;
  line_total : option Q
}.
End OrderItemsRow.

Module FinancialRow.
Record t : Type := {
  transaction_id : string;
  order_id : option string;
  invoice_date : option Z;
  due_date : option Z;
  amount : option Q;
  payment_date : option Z;
  department : option string
}.
End FinancialRow.

Module InventoryRow.
Record t : Type := {
  transaction_id : string;
  product_id : option string;
  quantity : option Z;
  transaction_date : option Z
}.
End InventoryRow.

Module ProductsRow.
Record t : Type := {
  product_id : string;
  name : option string;
  category : option string
}.
End ProductsRow.

Module CustomersRow.
Record t : Type := {
  customer_id : string;
  company_name : option string
}.
End CustomersRow.

Inductive DataFrame : Type :=
| SalesOrders (rows : list SalesOrdersRow.t)
| OrderItems (rows : list OrderItemsRow.t)
| FinancialTransactions (rows : list FinancialRow.t)
| InventoryTransactions (rows : list InventoryRow.t)
| Products (rows : list ProductsRow.t)
| Customers (rows : list CustomersRow.t).

Definition len (df : DataFrame) : nat :=
  match df with
  | SalesOrders rows => List.length rows
  | OrderItems rows => List.length rows
  | FinancialTransactions rows => List.length rows
  | InventoryTransactions rows => List.length rows
  | Products rows => List.length rows
  | Customers rows => List.length rows
  end.

Definition columns (df : DataFrame) : list string :=
  match df with
  | SalesOrders _ =>
      ["order_id"; "customer_id"; "order_date"; "status"; "payment_terms"; "department"]
  | OrderItems _ =>
      ["order_id"; "product_id"; "quantity"; "unit_price"; "discount"; "line_total"]
  | FinancialTransactions _ =>
      ["transaction_id"; "order_id"; "invoice_date"; "due_date"; "amount";
       "payment_date"; "department"]
  | InventoryTransactions _ =>
      ["transaction_id"; "product_id"; "quantity"; "transaction_date"]
  | Products _ => ["product_id"; "name"; "category"]
  | Customers _ => ["customer_id"; "company_name"]
  end%string.

(** [invalid_records] starts as the Python list [[]] and becomes a frame
    only for the two validated sources. *)
Inductive InvalidRecords : Type :=
| EmptyList
| Rows (df : DataFrame).

Definition len_invalid (r : InvalidRecords) : nat :=
  match r with EmptyList => O | Rows df => len df end.

(** Python dictionaries, in insertion order. *)
Definition dict (V : Type) : Type := list (string * V).

Fixpoint dict_set {V} (d : dict V) (k : string) (v : V) : dict V :=
  match d with
  | [] => [(k, v)]
  | (k', v') :: d' =>
      if (k' =? k)%string then (k', v) :: d' else (k', v') :: dict_set d' k v
  end.

Definition dict_in {V} (k : string) (d : dict V) : bool :=
  match dict_get d k with Some _ => true | None => false end.

Definition keys {V} (d : dict V) : list string := map fst d.

Module Bronze.
Module Metadata.
Record t : Type := {
  ingestion_time : Z;
  record_count : nat;
  columns : list string;
  source_system : string
}.
End Metadata.
Record t : Type := { data : DataFrame; metadata : Metadata.t }.
End Bronze.

Module Silver.
Module Metadata.
Record t : Type := {
  processing_time : Z;
  valid_records : nat;
  invalid_records : nat;
  validation_rate : Q
}.
End Metadata.
Record t : Type := {
  data : DataFrame;
  invalid_records : InvalidRecords;
  metadata : Metadata.t
}.
End Silver.

Module SalesMetricsRow.
Record t : Type := {
  department : string;
  order_count : nat;
  total_sales : Q
}.
End SalesMetricsRow.

Module InventoryStatusRow.
Record t : Type := {
  product_id : string;
  quantity : Z;
  transaction_date : option Z;
  name : option string;
  category : option string
}.
End InventoryStatusRow.

Inductive GoldView : Type :=
| SalesMetrics (rows : list SalesMetricsRow.t)
| InventoryStatus (rows : list InventoryStatusRow.t).

Inductive Step : Type :=
| BronzeStep (source : string) (records : nat) (processing_time : Z)
| SilverStep (source : string) (valid_records invalid_records : nat) (processing_time : Z)
| GoldStep (views : list string) (processing_time : Z).

(** The attributes of a [DataPipeline] object ([processing_steps] is the
    list inside [processing_metrics]). *)
Record DataPipeline : Type := {
  bronze_layer : dict Bronze.t;
  silver_layer : dict Silver.t;
  gold_layer : dict GoldView;
  processing_steps : list Step
}.

Definition new_pipeline : DataPipeline :=
  {| bronze_layer := []; silver_layer := []; gold_layer := []; processing_steps := [] |}.

(** ** The wall clock

    [time.time()], [datetime.now()] and [pd.Timestamp.now()] all read the
    same clock; [clock n] is its [n]-th reading during a run. *)
Definition Clock : Type := nat -> Z.
Definition Run (A : Type) : Type := Eff Clock A.

Definition clock_now : Run Z := fun clock i => Ok (clock i, S i).

(** ** [DataPipeline.process_to_bronze] *)

Definition ingest (self : DataPipeline) (item : string * DataFrame) : Run DataPipeline :=
  let '(source, df) := item in
  start_time <- clock_now ;;
  ingestion_time <- clock_now ;;
  let entry :=
    {| Bronze.data := df;
       Bronze.metadata :=
         {| Bronze.Metadata.ingestion_time := ingestion_time;
            Bronze.Metadata.record_count := len df;
            Bronze.Metadata.columns := columns df;
            Bronze.Metadata.source_system := source |} |} in
  end_time <- clock_now ;;
  ret {| bronze_layer := dict_set (bronze_layer self) source entry;
         silver_layer := silver_layer self;
         gold_layer := gold_layer self;
         processing_steps :=
           processing_steps self ++ [BronzeStep source (len df) (end_time - start_time)] |}.

Definition process_to_bronze (self : DataPipeline) (data : dict DataFrame)
  : Run DataPipeline :=
  for_state data ingest self.

(** ** [DataPipeline.process_to_silver] *)

Definition isna {A} (x : option A) : bool :=
  match x with None => true | Some _ => false end.

(** Comparisons with a missing value are false. *)
Definition date_gt (x : option Z) (t : Z) : bool :=
  match x with Some d => (t <? d)%Z | None => false end.
Definition date_lt (x y : option Z) : bool :=
  match x, y with Some a, Some b => (a <? b)%Z | _, _ => false end.
Definition amount_le (x : option Q) (y : Q) : bool :=
  match x with Some a => Qle_bool a y | None => false end.

Definition sales_orders_invalid_mask (now : Z) (r : SalesOrdersRow.t) : bool :=
  isna (SalesOrdersRow.order_date r)
  || isna (SalesOrdersRow.customer_id r)
  || date_gt (SalesOrdersRow.order_date r) now.

Definition financial_invalid_mask (r : FinancialRow.t) : bool :=
  date_lt (FinancialRow.payment_date r) (FinancialRow.invoice_date r)
  || isna (FinancialRow.amount r)
  || amount_le (FinancialRow.amount r) 0.

Definition complement {A} (mask : A -> bool) : A -> bool := fun r => negb (mask r).

(** The validation rules of a source: the valid rows and the invalid
    records.  A frame without the column a rule reads raises [KeyError]. *)
Definition validate (source : string) (df : DataFrame)
  : Run (DataFrame * InvalidRecords) :=
  if (source =? "sales_orders")%string then
    match df with
    | SalesOrders rows =>
        now <- clock_now ;;
        let invalid_mask := sales_orders_invalid_mask now in
        ret (SalesOrders (filter (complement invalid_mask) rows),
             Rows (SalesOrders (filter invalid_mask rows)))
    | _ => raise (KeyError "order_date")
    end
  else if (source =? "financial_transactions")%string then
    match df with
    | FinancialTransactions rows =>
        let invalid_mask := financial_invalid_mask in
        ret (FinancialTransactions (filter (complement invalid_mask) rows),
             Rows (FinancialTransactions (filter invalid_mask rows)))
    | _ => raise (KeyError "payment_date")
    end
  else ret (df, EmptyList).

(** [len(df) / len(bronze_data['data']) * 100] *)
Definition validation_rate_of (valid total : nat) : Result Q :=
  if (total =? 0)%nat then Err ZeroDivisionError
  else Ok (inject_Z (Z.of_nat valid) / inject_Z (Z.of_nat total) * 100).

(** The entry [self.silver_layer[source]] receives. *)
Definition silver_entry (source : string) (bronze_data : Bronze.t) : Run Silver.t :=
  validated <- validate source (Bronze.data bronze_data) ;;
  let '(df, invalid_records) := validated in
  processing_time <- clock_now ;;
  rate <- lift (validation_rate_of (len df) (len (Bronze.data bronze_data))) ;;
  ret {| Silver.data := df;
         Silver.invalid_records := invalid_records;
         Silver.metadata :=
           {| Silver.Metadata.processing_time := processing_time;
              Silver.Metadata.valid_records := len df;
              Silver.Metadata.invalid_records := len_invalid invalid_records;
              Silver.Metadata.validation_rate := rate |} |}.

Definition refine (self : DataPipeline) (item : string * Bronze.t) : Run DataPipeline :=
  let '(source, bronze_data) := item in
  start_time <- clock_now ;;
  entry <- silver_entry source bronze_data ;;
  end_time <- clock_now ;;
  ret {| bronze_layer := bronze_layer self;
         silver_layer := dict_set (silver_layer self) source entry;
         gold_layer := gold_layer self;
         processing_steps :=
           processing_steps self
           ++ [SilverStep source (len (Silver.data entry))
                 (len_invalid (Silver.invalid_records entry)) (end_time - start_time)] |}.

Definition process_to_silver (self : DataPipeline) : Run DataPipeline :=
  for_state (bronze_layer self) refine self.

(** ** [DataPipeline.process_to_gold] *)

(** [sales_orders.merge(order_items, on='order_id', how='left')]: every
    order row, once per matching item, or once with missing item columns. *)
Definition merge_order_items (sales_orders : list SalesOrdersRow.t)
    (order_items : list OrderItemsRow.t)
  : list (SalesOrdersRow.t * option OrderItemsRow.t) :=
  flat_map
    (fun o =>
       match filter (fun it => (OrderItemsRow.order_id it =? SalesOrdersRow.order_id o)%string)
               order_items with
       | [] => [(o, None)]
       | matches => map (fun it => (o, Some it)) matches
       end)
    sales_orders.

Definition joined_line_total (item : option OrderItemsRow.t) : option Q :=
  match item with Some it => OrderItemsRow.line_total it | None => None end.

(** ['sum'] skips missing values. *)
Definition nan_to_zero (x : option Q) : Q :=
  match x with Some q => q | None => 0 end.

(** One joined row enters the group of its department; groups are kept in
    key order. *)
Fixpoint add_to_group (department : string) (line_total : option Q)
    (groups : list SalesMetricsRow.t) : list SalesMetricsRow.t :=
  let fresh := {| SalesMetricsRow.department := department;
                  SalesMetricsRow.order_count := 1;
                  SalesMetricsRow.total_sales := nan_to_zero line_total |} in
  match groups with
  | [] => [fresh]
  | g :: groups' =>
      match String.compare department (SalesMetricsRow.department g) with
      | Eq => {| SalesMetricsRow.department := department;
                 SalesMetricsRow.order_count := S (SalesMetricsRow.order_count g);
                 SalesMetricsRow.total_sales :=
                   SalesMetricsRow.total_sales g + nan_to_zero line_total |} :: groups'
      | Lt => fresh :: g :: groups'
      | Gt => g :: add_to_group department line_total groups'
      end
  end.

(** Rows whose department is missing belong to no group. *)
Definition group_step (groups : list SalesMetricsRow.t)
    (row : SalesOrdersRow.t * option OrderItemsRow.t) : list SalesMetricsRow.t :=
  match SalesOrdersRow.department (fst row) with
  | Some d => add_to_group d (joined_line_total (snd row)) groups
  | None => groups
  end.

(** [groupby('department').agg({'order_id': 'count', 'line_total': 'sum'})] *)
Definition group_by_department
    (sales_analysis : list (SalesOrdersRow.t * option OrderItemsRow.t))
  : list SalesMetricsRow.t :=
  fold_left group_step sales_analysis [].

Definition sales_metrics_view (sales_orders : list SalesOrdersRow.t)
    (order_items : list OrderItemsRow.t) : list SalesMetricsRow.t :=
  group_by_department (merge_order_items sales_orders order_items).

Definition nan_to_zeroZ (x : option Z) : Z :=
  match x with Some z => z | None => 0%Z end.

Definition nan_max (x y : option Z) : option Z :=
  match x, y with
  | Some a, Some b => Some (Z.max a b)
  | Some a, None => Some a
  | None, _ => y
  end.

Fixpoint add_to_product (product_id : string) (quantity transaction_date : option Z)
    (groups : list (string * (Z * option Z))) : list (string * (Z * option Z)) :=
  match groups with
  | [] => [(product_id, (nan_to_zeroZ quantity, transaction_date))]
  | (k, (q, d)) :: groups' =>
      match String.compare product_id k with
      | Eq => (k, ((q + nan_to_zeroZ quantity)%Z, nan_max d transaction_date)) :: groups'
      | Lt => (product_id, (nan_to_zeroZ quantity, transaction_date)) :: (k, (q, d)) :: groups'
      | Gt => (k, (q, d)) :: add_to_product product_id quantity transaction_date groups'
      end
  end.

(** [groupby('product_id').agg({'quantity': 'sum', 'transaction_date': 'max'})] *)
Definition group_by_product (inventory : list InventoryRow.t)
  : list (string * (Z * option Z)) :=
  fold_left
    (fun groups r =>
       match InventoryRow.product_id r with
       | Some k => add_to_product k (InventoryRow.quantity r)
                     (InventoryRow.transaction_date r) groups
       | None => groups
       end)
    inventory [].

Definition inventory_status_view (inventory : list InventoryRow.t)
    (products : list ProductsRow.t) : list InventoryStatusRow.t :=
  flat_map
    (fun g =>
       let '(k, (q, d)) := g in
       let row name category :=
         {| InventoryStatusRow.product_id := k;
            InventoryStatusRow.quantity := q;
            InventoryStatusRow.transaction_date := d;
            InventoryStatusRow.name := name;
            InventoryStatusRow.category := category |} in
       match filter (fun p => (ProductsRow.product_id p =? k)%string) products with
       | [] => [row None None]
       | matches => map (fun p => row (ProductsRow.name p) (ProductsRow.category p)) matches
       end)
    (group_by_product inventory).

(** [all(x in self.silver_layer for x in names)] *)
Definition all_in {V} (names : list string) (d : dict V) : bool :=
  forallb (fun x => dict_in x d) names.

Definition silver_data (self : DataPipeline) (source : string) : option DataFrame :=
  option_map Silver.data (dict_get (silver_layer self) source).

(** "1. Sales Analysis View" *)
Definition sales_analysis (self : DataPipeline) (gold : dict GoldView)
  : Result (dict GoldView) :=
  if all_in ["sales_orders"; "order_items"; "financial_transactions"]%string
       (silver_layer self)
  then
    match silver_data self "sales_orders", silver_data self "order_items" with
    | Some (SalesOrders sales_orders), Some (OrderItems order_items) =>
        Ok (dict_set gold "sales_metrics"
              (SalesMetrics (sales_metrics_view sales_orders order_items)))
    | _, _ => Err (KeyError "order_id")
    end
  else Ok gold.

(** "2. Inventory Analysis" *)
Definition inventory_analysis (self : DataPipeline) (gold : dict GoldView)
  : Result (dict GoldView) :=
  if all_in ["inventory_transactions"; "products"]%string (silver_layer self)
  then
    match silver_data self "inventory_transactions", silver_data self "products" with
    | Some (InventoryTransactions inventory), Some (Products products) =>
        Ok (dict_set gold "inventory_status"
              (InventoryStatus (inventory_status_view inventory products)))
    | _, _ => Err (KeyError "product_id")
    end
  else Ok gold.

Definition process_to_gold (self : DataPipeline) : Run DataPipeline :=
  start_time <- clock_now ;;
  gold <- lift (sales_analysis self (gold_layer self)) ;;
  gold <- lift (inventory_analysis self gold) ;;
  end_time <- clock_now ;;
  ret {| bronze_layer := bronze_layer self;
         silver_layer := silver_layer self;
         gold_layer := gold;
         processing_steps :=
           processing_steps self ++ [GoldStep (keys gold) (end_time - start_time)] |}.

(** ** [run_pipeline] *)

Definition run_pipeline (data : dict DataFrame) : Run DataPipeline :=
  pipeline <- for_state data (fun p item => process_to_bronze p [item]) new_pipeline ;;
  pipeline <- process_to_silver pipeline ;;
  process_to_gold pipeline.

(** ** From the generator to the pipeline: [to_csv] and [load_data] *)

(** The texts [pd.read_csv] reads as a missing value. *)
Definition na_values : list string :=
  [""; "#N/A"; "#N/A N/A"; "#NA"; "-1.#IND"; "-1.#QNAN"; "-NaN"; "-nan"; "1.#IND";
   "1.#QNAN"; "<NA>"; "N/A"; "NA"; "NULL"; "NaN"; "None"; "n/a"; "nan"; "null"]%string.

Definition read_csv_text (cell : option string) : option string :=
  match cell with
  | None => None
  | Some v => if existsb (String.eqb v) na_values then None else Some v
  end.

(** [pd.to_datetime] of a ['%Y-%m-%d'] text: midnight of that day, in
    seconds. *)
Definition to_datetime (day : Z) : Z := (day * 86400)%Z.


Definition load_financial_transaction (t : FinancialTransaction.t) : FinancialRow.t :=
  {| FinancialRow.transaction_id := FinancialTransaction.transaction_id t;
     FinancialRow.order_id := read_csv_text (Some (FinancialTransaction.order_id t));
     FinancialRow.invoice_date := Some (to_datetime (FinancialTransaction.invoice_date t));
     FinancialRow.due_date := Some (to_datetime (FinancialTransaction.due_date t));
     FinancialRow.amount := FinancialTransaction.amount t;
     FinancialRow.payment_date := Some (to_datetime (FinancialTransaction.payment_date t));
     FinancialRow.department := read_csv_text (FinancialTransaction.department t) |}.

(** ** Properties of the generated tables *)

(** The line total recomputed from the stored fields of an item. *)
Definition recomputed_line_total (it : OrderItem.t) : Q :=
  round2 (inject_Z (OrderItem.quantity it) * OrderItem.unit_price it
          * (1 - OrderItem.discount it)).

Definition two_decimals (q : Q) : Prop := round2 q = q.

(** What [generate_order_items] guarantees of an item: both stored amounts
    are roundings of one price, the master price of the product or that
    price with up to 10% noise. *)
Definition item_priced (self : BusinessDataGenerator) (it : OrderItem.t) : Prop :=
  exists product price,
    In product (products self) /\
    OrderItem.product_id it = Product.product_id product /\
    (price = Product.unit_price product \/
     exists u, - (1 # 10) <= u /\ u <= 1 # 10 /\
               price = Product.unit_price product * (1 + u)) /\
    OrderItem.unit_price it = round2 price /\
    OrderItem.line_total it =
      round2 (inject_Z (OrderItem.quantity it) * price * (1 - OrderItem.discount it)) /\
    (price = Product.unit_price product ->
     OrderItem.line_total it = recomputed_line_total it) /\
    Qabs (OrderItem.line_total it - recomputed_line_total it) <= 6 # 100.

(** How [generate_financial_transactions] dates a transaction of [order]:
    the due date counts the term days from the order date, the invoice date
    may have been booked [shift] days late, and the payment follows the due
    date by the drawn delay, plus [extra] days for the second part of a
    split. *)
Definition transaction_dated (sales_orders : list SalesOrder.t)
    (t : FinancialTransaction.t) : Prop :=
  exists order term shift delay extra,
    In order sales_orders /\
    FinancialTransaction.order_id t = SalesOrder.order_id order /\
    lookup_term_days (SalesOrder.payment_terms order) = Ok term /\
    (0 <= shift <= 5)%Z /\
    In delay [0; 0; 0; 5; 10; 15; 30]%Z /\
    (0 <= extra <= 10)%Z /\
    FinancialTransaction.invoice_date t = (SalesOrder.order_date order + shift)%Z /\
    FinancialTransaction.due_date t = (SalesOrder.order_date order + term)%Z /\
    FinancialTransaction.payment_date t =
      (FinancialTransaction.due_date t + delay + extra)%Z.

(** C2 as amended: the term days separate the due date from the order date;
    the invoice date lies [shift] days after the order date. *)
Definition due_date_from_terms (sales_orders : list SalesOrder.t)
    (t : FinancialTransaction.t) : Prop :=
  exists order term shift,
    In order sales_orders /\
    FinancialTransaction.order_id t = SalesOrder.order_id order /\
    lookup_term_days (SalesOrder.payment_terms order) = Ok term /\
    (0 <= shift <= 5)%Z /\
    FinancialTransaction.invoice_date t = (SalesOrder.order_date order + shift)%Z /\
    (FinancialTransaction.due_date t - SalesOrder.order_date order = term)%Z /\
    (FinancialTransaction.due_date t - FinancialTransaction.invoice_date t
     = term - shift)%Z.

(** The silver test [payment_date < invoice_date] on the transaction as
    the pipeline loads it. *)
Definition paid_before_invoice (t : FinancialTransaction.t) : bool :=
  date_lt (FinancialRow.payment_date (load_financial_transaction t))
          (FinancialRow.invoice_date (load_financial_transaction t)).

(** C9: never paid before the due date; the silver test fires only if the
    invoice was booked after the order date. *)
Definition paid_not_early (sales_orders : list SalesOrder.t)
    (t : FinancialTransaction.t) : Prop :=
  (FinancialTransaction.due_date t <= FinancialTransaction.payment_date t)%Z /\
  (exists delay extra,
      In delay [0; 5; 10; 15; 30]%Z /\ (0 <= extra <= 10)%Z /\
      FinancialTransaction.payment_date t
      = (FinancialTransaction.due_date t + delay + extra)%Z) /\
  (paid_before_invoice t = true ->
   exists order,
     In order sales_orders /\
     FinancialTransaction.order_id t = SalesOrder.order_id order /\
     (SalesOrder.order_date order < FinancialTransaction.invoice_date t)%Z).




(** The sales mass of the view, over all departments. *)
Definition sum_total_sales (groups : list SalesMetricsRow.t) : Q :=
  sumQ (map SalesMetricsRow.total_sales groups).

(** A computation that returns from every position of every environment. *)
Definition total {E A} (m : Eff E A) : Prop :=
  forall s i, exists a j, m s i = Ok (a, j).

Definition has_department (row : SalesOrdersRow.t * option OrderItemsRow.t) : bool :=
  negb (isna (SalesOrdersRow.department (fst row))).

Definition joined_value (row : SalesOrdersRow.t * option OrderItemsRow.t) : Q :=
  nan_to_zero (joined_line_total (snd row)).

Definition item_value (it : OrderItemsRow.t) : Q :=
  nan_to_zero (OrderItemsRow.line_total it).

(** The item's order id is the id of one of the orders. *)
Definition item_matches (sales_orders : list SalesOrdersRow.t) (it : OrderItemsRow.t)
  : bool :=
  existsb (fun o => (OrderItemsRow.order_id it =? SalesOrdersRow.order_id o)%string)
    sales_orders.

(** The [line_total] mass of the items joined to an order. *)
Definition matched_sales (sales_orders : list SalesOrdersRow.t)
    (order_items : list OrderItemsRow.t) : Q :=
  sumQ (map item_value (filter (item_matches sales_orders) order_items)).

(** ** Properties of the pipeline *)

(** The frame a known source name stands for. *)
Definition schema_ok (source : string) (df : DataFrame) : bool :=
  if (source =? "sales_orders")%string then
    match df with SalesOrders _ => true | _ => false end
  else if (source =? "order_items")%string then
    match df with OrderItems _ => true | _ => false end
  else if (source =? "financial_transactions")%string then
    match df with FinancialTransactions _ => true | _ => false end
  else if (source =? "inventory_transactions")%string then
    match df with InventoryTransactions _ => true | _ => false end
  else if (source =? "products")%string then
    match df with Products _ => true | _ => false end
  else if (source =? "customers")%string then
    match df with Customers _ => true | _ => false end
  else true.

Definition well_formed_silver (self : DataPipeline) : Prop :=
  forallb (fun item => schema_ok (fst item) (Silver.data (snd item))) (silver_layer self)
  = true.

(** A bronze layer the silver stage can process: a dictionary (no key
    twice) of frames of the right schema, none of them empty. *)
Definition bronze_ready (self : DataPipeline) : Prop :=
  NoDup (keys (bronze_layer self)) /\
  forall source e,
    In (source, e) (bronze_layer self) ->
    schema_ok source (Bronze.data e) = true /\ (0 < len (Bronze.data e))%nat.

(** One year, in the seconds of the pipeline's time axis. *)
Definition one_year : Z := (365 * 86400)%Z.

(** C7, sales orders: the invalid partition holds exactly the rows of the
    rule, the valid partition the others. *)
Definition sales_orders_partition (now : Z)
    (rows valid invalid : list SalesOrdersRow.t) : Prop :=
  (forall r, In r rows ->
     (In r invalid <->
      SalesOrdersRow.order_date r = None \/
      SalesOrdersRow.customer_id r = None \/
      exists d, SalesOrdersRow.order_date r = Some d /\ (now < d)%Z) /\
     (In r valid <-> ~ In r invalid)) /\
  (forall r, In r rows ->
     SalesOrdersRow.order_date r = Some (now + one_year)%Z -> In r invalid) /\
  (List.length valid + List.length invalid = List.length rows)%nat.

(** C7, financial transactions. *)
Definition financial_partition (rows valid invalid : list FinancialRow.t) : Prop :=
  (forall r, In r rows ->
     (In r invalid <->
      (exists p v, FinancialRow.payment_date r = Some p /\
                   FinancialRow.invoice_date r = Some v /\ (p < v)%Z) \/
      FinancialRow.amount r = None \/
      exists a, FinancialRow.amount r = Some a /\ a <= 0) /\
     (In r valid <-> ~ In r invalid)) /\
  (forall r, In r rows -> FinancialRow.amount r = Some (- (5)) -> In r invalid) /\
  (List.length valid + List.length invalid = List.length rows)%nat.

(** What the silver entry of a source holds, given its bronze entry. *)
Definition entry_partitioned (clock : Clock) (source : string)
    (bronze_data : Bronze.t) (entry : Silver.t) : Prop :=
  (forall rows,
      source = "sales_orders"%string ->
      Bronze.data bronze_data = SalesOrders rows ->
      exists n valid invalid,
        Silver.data entry = SalesOrders valid /\
        Silver.invalid_records entry = Rows (SalesOrders invalid) /\
        sales_orders_partition (clock n) rows valid invalid) /\
  (forall rows,
      source = "financial_transactions"%string ->
      Bronze.data bronze_data = FinancialTransactions rows ->
      exists valid invalid,
        Silver.data entry = FinancialTransactions valid /\
        Silver.invalid_records entry = Rows (FinancialTransactions invalid) /\
        financial_partition rows valid invalid).

(** *** Two runs of the pipeline *)

(** The values of a silver entry: the partitions, their sizes and the
    rate, without the timestamp. *)
Definition entry_values (e : Silver.t)
  : DataFrame * InvalidRecords * (nat * nat * Q) :=
  (Silver.data e, Silver.invalid_records e,
   (Silver.Metadata.valid_records (Silver.metadata e),
    Silver.Metadata.invalid_records (Silver.metadata e),
    Silver.Metadata.validation_rate (Silver.metadata e))).

Definition map_values {V W} (f : V -> W) (d : dict V) : dict W :=
  map (fun item => (fst item, f (snd item))) d.

Definition silver_values (self : DataPipeline)
  : dict (DataFrame * InvalidRecords * (nat * nat * Q)) :=
  map_values entry_values (silver_layer self).

Definition bronze_frames (self : DataPipeline) : dict DataFrame :=
  map_values Bronze.data (bronze_layer self).

(** What a run leaves to compare: the silver partitions and the gold
    views, or the exception. *)
Definition output_values (r : Result (DataPipeline * nat))
  : Result (dict (DataFrame * InvalidRecords * (nat * nat * Q)) * dict GoldView) :=
  match r with
  | Ok (p, _) => Ok (silver_values p, gold_layer p)
  | Err e => Err e
  end.

(** No order date of the frame lies between a reading of one clock and a
    reading of the other. *)
Definition clocks_agree (clock1 clock2 : Clock) (df : DataFrame) : Prop :=
  match df with
  | SalesOrders rows =>
      forall r n m, In r rows ->
                    date_gt (SalesOrdersRow.order_date r) (clock1 n)
                    = date_gt (SalesOrdersRow.order_date r) (clock2 m)
  | _ => True
  end.

(** Two results that are both values, related by [R], or the same
    exception. *)
Definition res_rel {A} (R : A -> A -> Prop) (r1 r2 : Result (A * nat)) : Prop :=
  match r1, r2 with
  | Ok (a, _), Ok (b, _) => R a b
  | Err e1, Err e2 => e1 = e2
  | _, _ => False
  end.

(** Two pipeline states with the same values, built under agreeing clocks. *)
Definition same_values (clock1 clock2 : Clock) (p1 p2 : DataPipeline) : Prop :=
  bronze_frames p1 = bronze_frames p2 /\
  Forall (fun item => clocks_agree clock1 clock2 (snd item)) (bronze_frames p1) /\
  silver_values p1 = silver_values p2 /\
  gold_layer p1 = gold_layer p2.

(** ** Concrete tables used in the examples *)

Definition example_product : Product.t :=
  {| Product.product_id := "P0a1b2c3d";
     Product.name := "Papier 123";
     Product.category := "Bürobedarf";
     Product.unit_price := 1000 # 100;
     Product.min_stock := Some 20%Z;
     Product.max_stock := Some 200%Z;
     Product.supplier_id := Some "S11111111"%string;
     Product.lead_time_days := 7 |}.

Definition example_customer : Customer.t :=
  {| Customer.customer_id := "C0000beef";
     Customer.company_name := "Muster GmbH";
     Customer.contact_name := "Erika Mustermann";
     Customer.email := None;
     Customer.phone := None;
     Customer.address := "Hauptstr. 1";
     Customer.city := "Berlin";
     Customer.postal_code := "10115";
     Customer.country := "Deutschland";
     Customer.customer_since := 19000;
     Customer.credit_limit := None;
     Customer.payment_terms := Some "Net30"%string;
     Customer.department := Some "IT"%string |}.

Definition example_generator : BusinessDataGenerator :=
  {| start_date := 19358; end_date := 20088; error_rate := 15 # 100;
     products := [example_product]; customers := [example_customer] |}.

Definition example_order : SalesOrder.t :=
  {| SalesOrder.order_id := "SO12345678";
     SalesOrder.customer_id := Some "C0000beef"%string;
     SalesOrder.order_date := 19400;
     SalesOrder.status := "Neu";
     SalesOrder.shipping_method := "Standard";
     SalesOrder.payment_terms := Some "Net30"%string;
     SalesOrder.department := Some "IT"%string;
     SalesOrder.shipping_address := Some "Hauptstr. 1"%string;
     SalesOrder.shipping_city := Some "Berlin"%string;
     SalesOrder.shipping_postal_code := Some "10115"%string;
     SalesOrder.expected_delivery := 19405 |}.

(** Draws under which the one position of [example_order] is kept, ordered
    ten times, undiscounted, with a price noise of +0.04%. *)
Definition noisy_item_draws : list Q :=
  [1 # 2; 0; 0; 1 # 2; 95 # 100; 0; 1 # 10; 251 # 500].

Definition noisy_item : OrderItem.t :=
  {| OrderItem.order_id := "SO12345678";
     OrderItem.product_id := "P0a1b2c3d";
     OrderItem.quantity := 10;
     OrderItem.unit_price := 1000 # 100;
     OrderItem.discount := 0;
     OrderItem.line_total := 10004 # 100 |}.

(** Draws under which the invoice of [example_order] is booked three days
    late, paid on the due date and not split. *)
Definition shifted_invoice_draws : list Q :=
  [1 # 2; 1 # 10; 1 # 2; 0; 1 # 2; 1 # 2; 1 # 2; 0].

Definition late_booked_transaction : FinancialTransaction.t :=
  {| FinancialTransaction.transaction_id := "FT80000000";
     FinancialTransaction.order_id := "SO12345678";
     FinancialTransaction.customer_id := Some "C0000beef"%string;
     FinancialTransaction.invoice_date := 19403;
     FinancialTransaction.due_date := 19430;
     FinancialTransaction.amount := Some (10004 # 100);
     FinancialTransaction.payment_date := 19430;
     FinancialTransaction.payment_method := "Überweisung";
     FinancialTransaction.status := "Bezahlt";
     FinancialTransaction.department := Some "IT"%string;
     FinancialTransaction.currency := "EUR" |}.

(** An order on immediate payment terms. *)
Definition immediate_order : SalesOrder.t :=
  {| SalesOrder.order_id := "SO0000cafe";
     SalesOrder.customer_id := None;
     SalesOrder.order_date := 19500;
     SalesOrder.status := "Abgeschlossen";
     SalesOrder.shipping_method := "Express";
     SalesOrder.payment_terms := Some "Immediate"%string;
     SalesOrder.department := Some "HR"%string;
     SalesOrder.shipping_address := None;
     SalesOrder.shipping_city := None;
     SalesOrder.shipping_postal_code := None;
     SalesOrder.expected_delivery := 19510 |}.

Definition immediate_transaction : FinancialTransaction.t :=
  {| FinancialTransaction.transaction_id := "FT80000000";
     FinancialTransaction.order_id := "SO0000cafe";
     FinancialTransaction.customer_id := None;
     FinancialTransaction.invoice_date := 19503;
     FinancialTransaction.due_date := 19500;
     FinancialTransaction.amount := None;
     FinancialTransaction.payment_date := 19500;
     FinancialTransaction.payment_method := "Überweisung";
     FinancialTransaction.status := "Bezahlt";
     FinancialTransaction.department := Some "HR"%string;
     FinancialTransaction.currency := "EUR" |}.

(** Draws under which an amount of 1234.57 is split 13:17. *)
Definition split_draws : list Q := [1 # 20; 1 # 3; 1 # 2; 1 # 4; 0; 3 # 4; 1 # 2].

Definition split_first : FinancialTransaction.t :=
  {| FinancialTransaction.transaction_id := "FT40000000";
     FinancialTransaction.order_id := "SO12345678";
     FinancialTransaction.customer_id := Some "C0000beef"%string;
     FinancialTransaction.invoice_date := 19400;
     FinancialTransaction.due_date := 19430;
     FinancialTransaction.amount := Some (53498 # 100);
     FinancialTransaction.payment_date := 19430;
     FinancialTransaction.payment_method := "Überweisung";
     FinancialTransaction.status := "Bezahlt";
     FinancialTransaction.department := Some "IT"%string;
     FinancialTransaction.currency := "EUR" |}.

Definition split_second : FinancialTransaction.t :=
  {| FinancialTransaction.transaction_id := "FTc0000000";
     FinancialTransaction.order_id := "SO12345678";
     FinancialTransaction.customer_id := Some "C0000beef"%string;
     FinancialTransaction.invoice_date := 19400;
     FinancialTransaction.due_date := 19430;
     FinancialTransaction.amount := Some (69959 # 100);
     FinancialTransaction.payment_date := 19436;
     FinancialTransaction.payment_method := "Lastschrift";
     FinancialTransaction.status := "Bezahlt";
     FinancialTransaction.department := Some "IT"%string;
     FinancialTransaction.currency := "EUR" |}.

(** A generator with one product and one customer, and one order of that
    customer whose customer id and shipping fields are left out. *)
Definition small_generator : BusinessDataGenerator :=
  Eval vm_compute in
    match init 19358 20088 (15 # 100) 1 1 (tape [] 20000) 0%nat with
    | Ok (self, _) => self
    | Err _ => example_generator
    end.



(** *** Pipeline inputs *)

(** A clock that stands at 2024-01-01 00:00:00 UTC. *)
Definition new_year_2024 : Z := 1704067200.
Definition standing_clock : Clock := fun _ => new_year_2024.

Definition order_row (id : string) (day : Z) (dept : option string) : SalesOrdersRow.t :=
  {| SalesOrdersRow.order_id := id;
     SalesOrdersRow.customer_id := Some "C0000beef"%string;
     SalesOrdersRow.order_date := Some (to_datetime day);
     SalesOrdersRow.status := Some "Neu"%string;
     SalesOrdersRow.payment_terms := Some "Net30"%string;
     SalesOrdersRow.department := dept |}.

Definition item_row (id : string) (total : Q) : OrderItemsRow.t :=
  {| OrderItemsRow.order_id := id;
     OrderItemsRow.product_id := Some "P0a1b2c3d"%string;
     OrderItemsRow.quantity := Some 1%Z;
     OrderItemsRow.unit_price := Some total;
     OrderItemsRow.discount := Some 0;
     OrderItemsRow.line_total := Some total |}.

Definition financial_row (id : string) (amount : option Q) (invoice payment : Z)
  : FinancialRow.t :=
  {| FinancialRow.transaction_id := "FT00000001";
     FinancialRow.order_id := Some id;
     FinancialRow.invoice_date := Some (to_datetime invoice);
     FinancialRow.due_date := Some (to_datetime (invoice + 30));
     FinancialRow.amount := amount;
     FinancialRow.payment_date := Some (to_datetime payment);
     FinancialRow.department := Some "IT"%string |}.

(** Orders and items without the financial table. *)
Definition data_without_financial : dict DataFrame :=
  [("sales_orders", SalesOrders [order_row "SO00000001" 19400 (Some "IT")]);
   ("order_items", OrderItems [item_row "SO00000001" 10])]%string.

(** The three sources of the sales view, all tables valid. *)
Definition data_sales : dict DataFrame :=
  [("sales_orders", SalesOrders [order_row "SO00000001" 19400 (Some "IT");
                                 order_row "SO00000002" 19401 (Some "HR")]);
   ("order_items", OrderItems [item_row "SO00000001" 10; item_row "SO00000002" (5 # 2);
                               item_row "SO00000001" (1 # 4); item_row "SO00000009" 99]);
   ("financial_transactions",
    FinancialTransactions [financial_row "SO00000001" (Some 10) 19400 19430])]%string.

(** An order whose department cell is empty. *)
Definition data_missing_department : dict DataFrame :=
  [("sales_orders", SalesOrders [order_row "SO00000001" 19400 None]);
   ("order_items", OrderItems [item_row "SO00000001" 10]);
   ("financial_transactions",
    FinancialTransactions [financial_row "SO00000001" (Some 10) 19400 19430])]%string.

(** Two order rows under one order id. *)
Definition data_repeated_order : dict DataFrame :=
  [("sales_orders", SalesOrders [order_row "SO00000001" 19400 (Some "IT");
                                 order_row "SO00000001" 19400 (Some "IT")]);
   ("order_items", OrderItems [item_row "SO00000001" 10]);
   ("financial_transactions",
    FinancialTransactions [financial_row "SO00000001" (Some 10) 19400 19430])]%string.

(** The pipeline state a run leaves behind ([new_pipeline] if it raised). *)
Definition pipeline_after (data : dict DataFrame) (clock : Clock) : DataPipeline :=
  match run_pipeline data clock 0%nat with
  | Ok (p, _) => p
  | Err _ => new_pipeline
  end.

(** The pipeline state before the gold stage. *)
Definition silver_after (data : dict DataFrame) (clock : Clock) : DataPipeline :=
  match (pipeline <- for_state data (fun p item => process_to_bronze p [item]) new_pipeline ;;
         process_to_silver pipeline) clock 0%nat with
  | Ok (p, _) => p
  | Err _ => new_pipeline
  end.

(** An order dated one year after the clock's reading, and a payment of -5. *)
Definition future_order : SalesOrdersRow.t :=
  {| SalesOrdersRow.order_id := "SO000000ff";
     SalesOrdersRow.customer_id := Some "C0000beef"%string;
     SalesOrdersRow.order_date := Some (new_year_2024 + one_year)%Z;
     SalesOrdersRow.status := Some "Neu"%string;
     SalesOrdersRow.payment_terms := Some "Net30"%string;
     SalesOrdersRow.department := Some "IT"%string |}.

Definition data_with_invalid_rows : dict DataFrame :=
  [("sales_orders", SalesOrders [order_row "SO00000001" 19400 (Some "IT"); future_order]);
   ("order_items", OrderItems [item_row "SO00000001" 10]);
   ("financial_transactions",
    FinancialTransactions [financial_row "SO00000001" (Some 10) 19400 19430;
                           financial_row "SO00000001" (Some (- (5))) 19400 19430])]%string.

(** The pipeline state after the bronze stage. *)
Definition bronze_after (data : dict DataFrame) (clock : Clock) : DataPipeline :=
  match for_state data (fun p item => process_to_bronze p [item]) new_pipeline clock 0%nat with
  | Ok (p, _) => p
  | Err _ => new_pipeline
  end.

(** The order items arrive as a table without rows. *)
Definition data_empty_items : dict DataFrame :=
  [("sales_orders", SalesOrders [order_row "SO00000001" 19400 (Some "IT")]);
   ("order_items", OrderItems [])]%string.

(** A clock that stands one month later, and tables with an order dated
    between the two clocks (2024-01-02). *)
Definition later_clock : Clock := fun _ => 1706745600%Z.

Definition data_dated_between : dict DataFrame :=
  [("sales_orders", SalesOrders [order_row "SO00000001" 19400 (Some "IT");
                                 order_row "SO00000002" 19724 (Some "HR")]);
   ("order_items", OrderItems [item_row "SO00000001" 10; item_row "SO00000002" (5 # 2)]);
   ("financial_transactions",
    FinancialTransactions [financial_row "SO00000001" (Some 10) 19400 19430])]%string.

(** ** Further parts of the generator *)

Module InventoryTransaction.
Record t : Type := {
  transaction_id : string;
  product_id : option string;
  transaction_type : string;
  quantity : Z;
  transaction_date : Z;
  unit_cost : option Q;
  location : string;
  reference_document : string;
  status : string
}.
End InventoryTransaction.

Definition transaction_types : list string :=
  ["Eingang"; "Ausgang"; "Bestandskorrektur"; "Retoure"]%string.

Definition locations : list string :=
  ["Hauptlager"; "Außenlager"; "Versand"; "Retouren"]%string.

Definition inventory_status_options : list string :=
  ["Abgeschlossen"; "In Bearbeitung"; "Geplant"]%string.

(** [fake.date_time_between(start, end)] kept to the second, as the
    inventory table stores it (['%Y-%m-%d %H:%M:%S']). *)
Definition fake_date_time_between_seconds (start_day end_day : Z) : Gen Z :=
  random_randint (start_day * 86400) (end_day * 86400).

(** The quantity drawn for a transaction type. *)
Definition draw_quantity (trans_type : string) : Gen Z :=
  if (trans_type =? "Eingang")%string then random_randint 10 100
  else if (trans_type =? "Ausgang")%string then
    q <- random_randint 1 20 ;; ret (- q)%Z
  else if (trans_type =? "Bestandskorrektur")%string then random_randint (-5) 5
  else random_randint 1 5.

(** One iteration of the loop of [generate_inventory_transactions].  The
    reference number is Faker text; that Faker keeps such numbers unused, and
    raises when it finds none, is not modelled. *)
Definition generate_inventory_transaction (self : BusinessDataGenerator)
  : Gen InventoryTransaction.t :=
  sampled <- sample 1 (products self) ;;
  match sampled with
  | [] => raise IndexError
  | product :: _ =>
      trans_type <- random_choice transaction_types ;;
      r <- random_random ;;
      let '(product_id, unit_cost) :=
        if Qlt_bool r (error_rate self) then (None, None)
        else (Some (Product.product_id product),
              Some (Product.unit_price product * (7 # 10))) in
      quantity <- draw_quantity trans_type ;;
      tid <- uuid4_8 ;;
      date <- fake_date_time_between_seconds (start_date self) (end_date self) ;;
      location <- random_choice locations ;;
      reference <- fake_text ;;
      status <- random_choice inventory_status_options ;;
      ret {| InventoryTransaction.transaction_id := ("T" ++ tid)%string;
             InventoryTransaction.product_id := product_id;
             InventoryTransaction.transaction_type := trans_type;
             InventoryTransaction.quantity := quantity;
             InventoryTransaction.transaction_date := date;
             InventoryTransaction.unit_cost := unit_cost;
             InventoryTransaction.location := location;
             InventoryTransaction.reference_document := ("REF" ++ reference)%string;
             InventoryTransaction.status := status |}
  end.

Definition generate_inventory_transactions (self : BusinessDataGenerator)
    (num_transactions : nat) : Gen (list InventoryTransaction.t) :=
  repeat_gen num_transactions (generate_inventory_transaction self).

(** The mapping [generate_all_data] returns. *)
Record Dataset : Type := {
  data_products : list Product.t;
  data_customers : list Customer.t;
  data_sales_orders : list SalesOrder.t;
  data_order_items : list OrderItem.t;
  data_inventory_transactions : list InventoryTransaction.t;
  data_financial_transactions : list FinancialTransaction.t
}.

(** [generate_all_data]; the sizes (1000 orders, 2000 inventory
    transactions in the source) are the default arguments of the methods it
    calls. *)
Definition generate_all_data (self : BusinessDataGenerator)
    (num_orders num_transactions : nat) : Gen Dataset :=
  sales_orders <- generate_sales_orders self num_orders ;;
  order_items <- generate_order_items self sales_orders (1, 5)%Z ;;
  inventory_transactions <- generate_inventory_transactions self num_transactions ;;
  financial_transactions <-
    generate_financial_transactions self sales_orders order_items ;;
  ret {| data_products := products self;
         data_customers := customers self;
         data_sales_orders := sales_orders;
         data_order_items := order_items;
         data_inventory_transactions := inventory_transactions;
         data_financial_transactions := financial_transactions |}.

(** ** Further parts of the pipeline page *)

(** The three totals of [display_pipeline_metrics]. *)
Definition total_bronze (pipeline : DataPipeline) : nat :=
  fold_right (fun item n => (len (Bronze.data (snd item)) + n)%nat) O
    (bronze_layer pipeline).

Definition total_silver (pipeline : DataPipeline) : nat :=
  fold_right (fun item n => (len (Silver.data (snd item)) + n)%nat) O
    (silver_layer pipeline).

Definition total_invalid (pipeline : DataPipeline) : nat :=
  fold_right (fun item n => (len_invalid (Silver.invalid_records (snd item)) + n)%nat) O
    (silver_layer pipeline).

(** ** Further properties of the generated tables *)

(** The quantity range of each transaction type. *)
Definition quantity_in_range (trans_type : string) (q : Z) : Prop :=
  (trans_type = "Eingang"%string /\ (10 <= q <= 100)%Z) \/
  (trans_type = "Ausgang"%string /\ (-20 <= q <= -1)%Z) \/
  (trans_type = "Bestandskorrektur"%string /\ (-5 <= q <= 5)%Z) \/
  (trans_type = "Retoure"%string /\ (1 <= q <= 5)%Z).

Definition inventory_row_ok (self : BusinessDataGenerator)
    (t : InventoryTransaction.t) : Prop :=
  quantity_in_range (InventoryTransaction.transaction_type t)
    (InventoryTransaction.quantity t) /\
  ((InventoryTransaction.product_id t = None /\ InventoryTransaction.unit_cost t = None) \/
   exists product,
     In product (products self) /\
     InventoryTransaction.product_id t = Some (Product.product_id product) /\
     InventoryTransaction.unit_cost t = Some (Product.unit_price product * (7 # 10))) /\
  (start_date self * 86400 <= InventoryTransaction.transaction_date t
   <= end_date self * 86400)%Z /\
  In (InventoryTransaction.location t) locations /\
  In (InventoryTransaction.status t) inventory_status_options.

Definition sample_error : Error :=
  ValueError "Cannot take a larger sample than population".

(** What [generate_sales_orders] guarantees of an order. *)
Definition order_well_formed (self : BusinessDataGenerator) (o : SalesOrder.t) : Prop :=
  (start_date self <= SalesOrder.order_date o <= end_date self)%Z /\
  (3 <= SalesOrder.expected_delivery o - SalesOrder.order_date o <= 14)%Z /\
  In (SalesOrder.status o) status_options /\
  In (SalesOrder.shipping_method o) shipping_methods /\
  exists customer,
    In customer (customers self) /\
    SalesOrder.payment_terms o = Customer.payment_terms customer /\
    SalesOrder.department o = Customer.department customer /\
    ((SalesOrder.customer_id o = None /\
      SalesOrder.shipping_address o = None /\
      SalesOrder.shipping_city o = None /\
      SalesOrder.shipping_postal_code o = None) \/
     (SalesOrder.customer_id o = Some (Customer.customer_id customer) /\
      SalesOrder.shipping_address o = Some (Customer.address customer) /\
      SalesOrder.shipping_city o = Some (Customer.city customer) /\
      SalesOrder.shipping_postal_code o = Some (Customer.postal_code customer))).

(** What [_generate_product_master_data] guarantees of a product. *)
Definition product_well_formed (p : Product.t) : Prop :=
  In (Product.category p) product_categories /\
  fst (snd (category_properties (Product.category p))) <= Product.unit_price p /\
  Product.unit_price p <= snd (snd (category_properties (Product.category p))) /\
  two_decimals (Product.unit_price p) /\
  ((Product.min_stock p = None /\ Product.max_stock p = None /\
    Product.supplier_id p = None) \/
   (exists lo hi sid,
       Product.min_stock p = Some lo /\ (10 <= lo <= 50)%Z /\
       Product.max_stock p = Some hi /\ (100 <= hi <= 500)%Z /\
       Product.supplier_id p = Some sid /\ String.length sid = 9%nat)) /\
  (1 <= Product.lead_time_days p <= 30)%Z /\
  String.length (Product.product_id p) = 9%nat.


(** What [generate_order_items] guarantees of an item. *)
Definition item_well_formed (self : BusinessDataGenerator)
    (sales_orders : list SalesOrder.t) (it : OrderItem.t) : Prop :=
  (exists order, In order sales_orders /\
                 OrderItem.order_id it = SalesOrder.order_id order) /\
  (exists product, In product (products self) /\
                   OrderItem.product_id it = Product.product_id product) /\
  (1 <= OrderItem.quantity it <= 10)%Z /\
  In (OrderItem.discount it) [0; 5 # 100; 1 # 10] /\
  two_decimals (OrderItem.unit_price it) /\
  two_decimals (OrderItem.line_total it).

(** The cells a financial transaction copies from its order, and the
    constant ones. *)
Definition transaction_well_formed (today_is : Z) (sales_orders : list SalesOrder.t)
    (t : FinancialTransaction.t) : Prop :=
  (exists order,
      In order sales_orders /\
      FinancialTransaction.order_id t = SalesOrder.order_id order /\
      FinancialTransaction.customer_id t = SalesOrder.customer_id order /\
      FinancialTransaction.department t = SalesOrder.department order) /\
  FinancialTransaction.currency t = "EUR"%string /\
  In (FinancialTransaction.payment_method t) payment_methods /\
  FinancialTransaction.status t
  = (if (FinancialTransaction.payment_date t <=? today_is)%Z
     then "Bezahlt" else "Ausstehend")%string /\
  String.length (FinancialTransaction.transaction_id t) = 10%nat /\
  (forall a, FinancialTransaction.amount t = Some a -> two_decimals a).


(** The one or two records written for an order. *)
Definition booked (invoice_date due_date payment_date : Z) (amount : option Q)
    (rows : list FinancialTransaction.t) : Prop :=
  (exists t, rows = [t] /\
             FinancialTransaction.payment_date t = payment_date /\
             FinancialTransaction.amount t = nan_round2 amount) \/
  (exists t1 t2 a,
      rows = [t1; t2] /\ amount = Some a /\ 1000 < a /\
      FinancialTransaction.payment_date t1 = payment_date /\
      (1 <= FinancialTransaction.payment_date t2 - payment_date <= 10)%Z /\
      FinancialTransaction.invoice_date t1 = FinancialTransaction.invoice_date t2 /\
      FinancialTransaction.due_date t1 = FinancialTransaction.due_date t2).

(** Referential integrity of the six tables. *)
Definition dataset_consistent (self : BusinessDataGenerator) (d : Dataset) : Prop :=
  data_products d = products self /\
  data_customers d = customers self /\
  (forall it, In it (data_order_items d) ->
     (exists o, In o (data_sales_orders d) /\
                OrderItem.order_id it = SalesOrder.order_id o) /\
     (exists p, In p (data_products d) /\
                OrderItem.product_id it = Product.product_id p)) /\
  (forall t, In t (data_financial_transactions d) ->
     exists o, In o (data_sales_orders d) /\
               FinancialTransaction.order_id t = SalesOrder.order_id o /\
               FinancialTransaction.customer_id t = SalesOrder.customer_id o) /\
  (forall o, In o (data_sales_orders d) ->
     SalesOrder.customer_id o = None \/
     exists c, In c (data_customers d) /\
               SalesOrder.customer_id o = Some (Customer.customer_id c)) /\
  (forall t, In t (data_inventory_transactions d) ->
     InventoryTransaction.product_id t = None \/
     exists p, In p (data_products d) /\
               InventoryTransaction.product_id t = Some (Product.product_id p)).

(** A computation that, on the source [s], returns from every position a
    value satisfying [P]. *)
Definition returns {A} (s : Source) (m : Gen A) (P : A -> Prop) : Prop :=
  forall i, exists a j, m s i = Ok (a, j) /\ P a.

(** ** Further properties of the pipeline *)

(** The sources the silver stage has a rule for. *)
Definition validated (source : string) : bool :=
  (source =? "sales_orders")%string || (source =? "financial_transactions")%string.

(** What the bronze entry of a source holds. *)
Definition bronze_entry_of (source : string) (df : DataFrame) (e : Bronze.t) : Prop :=
  Bronze.data e = df /\
  Bronze.Metadata.record_count (Bronze.metadata e) = len df /\
  Bronze.Metadata.columns (Bronze.metadata e) = columns df /\
  Bronze.Metadata.source_system (Bronze.metadata e) = source.

Definition bronze_step_of (item : string * DataFrame) (step : Step) : Prop :=
  exists t, step = BronzeStep (fst item) (len (snd item)) t.

(** The books of a silver entry: the metadata counts are the sizes of the
    two partitions, which together are the bronze rows; the rate is the valid
    percentage; a source without a rule passes through unchanged. *)
Definition entry_accounted (source : string) (bronze_data : Bronze.t)
    (entry : Silver.t) : Prop :=
  let m := Silver.metadata entry in
  Silver.Metadata.valid_records m = len (Silver.data entry) /\
  Silver.Metadata.invalid_records m = len_invalid (Silver.invalid_records entry) /\
  (len (Silver.data entry) + len_invalid (Silver.invalid_records entry)
   = len (Bronze.data bronze_data))%nat /\
  Silver.Metadata.validation_rate m
  == 100 * inject_Z (Z.of_nat (len (Silver.data entry)))
     / inject_Z (Z.of_nat (len (Bronze.data bronze_data))) /\
  0 <= Silver.Metadata.validation_rate m /\
  Silver.Metadata.validation_rate m <= 100 /\
  schema_ok source (Silver.data entry) = true /\
  (validated source = false ->
   Silver.data entry = Bronze.data bronze_data /\
   Silver.invalid_records entry = EmptyList /\
   Silver.Metadata.validation_rate m == 100).

(** Keys in strictly ascending order. *)
Fixpoint ascending (l : list string) : Prop :=
  match l with
  | [] => True
  | k :: l' => Forall (fun k' => String.compare k k' = Lt) l' /\ ascending l'
  end.

Definition in_department (d : string) (o : SalesOrdersRow.t) : bool :=
  match SalesOrdersRow.department o with
  | Some d' => (d' =? d)%string
  | None => false
  end.

Definition items_of (order_items : list OrderItemsRow.t) (o : SalesOrdersRow.t)
  : list OrderItemsRow.t :=
  filter (fun it => (OrderItemsRow.order_id it =? SalesOrdersRow.order_id o)%string)
    order_items.

(** The rows the left join gives the orders of a department: one per
    item of the order, one for an order without items. *)
Definition department_count (d : string) (sales_orders : list SalesOrdersRow.t)
    (order_items : list OrderItemsRow.t) : nat :=
  fold_right
    (fun o n => (Nat.max 1 (List.length (items_of order_items o)) + n)%nat) O
    (filter (in_department d) sales_orders).

(** The line totals of the items of the orders of a department. *)
Definition department_sales (d : string) (sales_orders : list SalesOrdersRow.t)
    (order_items : list OrderItemsRow.t) : Q :=
  sumQ (map (fun o => sumQ (map item_value (items_of order_items o)))
          (filter (in_department d) sales_orders)).





(** Input [run_pipeline] completes on: no source twice, every frame of
    the schema of its source and with at least one row. *)
Definition data_ready (data : dict DataFrame) : Prop :=
  NoDup (keys data) /\
  forall source df,
    In (source, df) data -> schema_ok source df = true /\ (0 < len df)%nat.

(** *** Grouping, key by key *)

(** The keys of the groups after one more row of key [k]. *)
Fixpoint insert_key (k : string) (l : list string) : list string :=
  match l with
  | [] => [k]
  | x :: l' =>
      match String.compare k x with
      | Eq => x :: l'
      | Lt => k :: x :: l'
      | Gt => x :: insert_key k l'
      end
  end.

Definition find_department (d : string) (groups : list SalesMetricsRow.t)
  : option SalesMetricsRow.t :=
  find (fun g => (SalesMetricsRow.department g =? d)%string) groups.

Definition row_in (d : string) (row : SalesOrdersRow.t * option OrderItemsRow.t)
  : bool :=
  in_department d (fst row).

(** The group of department [d] after one more joined row. *)
Definition department_state (d : string) (st : option SalesMetricsRow.t)
    (row : SalesOrdersRow.t * option OrderItemsRow.t) : option SalesMetricsRow.t :=
  if row_in d row then
    Some match st with
         | Some g =>
             {| SalesMetricsRow.department := d;
                SalesMetricsRow.order_count := S (SalesMetricsRow.order_count g);
                SalesMetricsRow.total_sales :=
                  SalesMetricsRow.total_sales g + joined_value row |}
         | None =>
             {| SalesMetricsRow.department := d;
                SalesMetricsRow.order_count := 1;
                SalesMetricsRow.total_sales := joined_value row |}
         end
  else st.

(** A group, or its absence, stands for [n] rows of total [q]. *)
Definition summarises (d : string) (n : nat) (q : Q) (st : option SalesMetricsRow.t)
  : Prop :=
  match st with
  | None => n = O /\ q == 0
  | Some g =>
      SalesMetricsRow.department g = d /\ SalesMetricsRow.order_count g = n /\
      (0 < n)%nat /\ SalesMetricsRow.total_sales g == q
  end.





(** ** Further examples *)

(** A generator whose master tables are empty. *)
Definition empty_generator : BusinessDataGenerator :=
  {| start_date := 19358; end_date := 20088; error_rate := 15 # 100;
     products := []; customers := [] |}.




(** A generator that injects no faults. *)
Definition faultless_generator : BusinessDataGenerator :=
  {| start_date := 19358; end_date := 20088; error_rate := 0;
     products := [example_product]; customers := [example_customer] |}.

(** Draws under which the single order of a run takes one item. *)
Definition one_item_draws : list Q :=
  [1 # 2; 1 # 2; 1 # 2; 1 # 2; 1 # 2; 1 # 2; 1 # 2; 1 # 2; 0].

(** The dataset of one order and one inventory row from those draws. *)
Definition example_dataset : Dataset :=
  Eval vm_compute in
    match generate_all_data faultless_generator 1 1
            (tape one_item_draws 20000) 0%nat with
    | Ok (d, _) => d
    | Err _ => {| data_products := []; data_customers := [];
                  data_sales_orders := []; data_order_items := [];
                  data_inventory_transactions := [];
                  data_financial_transactions := [] |}
    end.

(** Stock movements: a receipt and an issue of one product, a return of a
    product the master data does not know, and a row without product id. *)
Definition inventory_row (id : string) (product : option string) (quantity : option Z)
    (day : Z) : InventoryRow.t :=
  {| InventoryRow.transaction_id := id;
     InventoryRow.product_id := product;
     InventoryRow.quantity := quantity;
     InventoryRow.transaction_date := Some (to_datetime day) |}.

Definition example_stock : list InventoryRow.t :=
  [inventory_row "T00000001" (Some "P0a1b2c3d") (Some 50) 19400;
   inventory_row "T00000002" (Some "P99999999") (Some 5) 19405;
   inventory_row "T00000003" (Some "P0a1b2c3d") (Some (-20)) 19410;
   inventory_row "T00000004" None (Some 7) 19420]%string%Z.

Definition example_catalog : list ProductsRow.t :=
  [{| ProductsRow.product_id := "P0a1b2c3d";
      ProductsRow.name := Some "Papier 123";
      ProductsRow.category := Some "Papier" |}]%string.

(** Five sources, with invalid rows among the orders and the payments. *)
Definition data_all_sources : dict DataFrame :=
  data_with_invalid_rows
  ++ [("inventory_transactions", InventoryTransactions example_stock);
      ("products", Products example_catalog)]%string.
(** ** Rounding lemmas *)

Lemma round_half_even_err (q : Q) :
  Qabs (inject_Z (round_half_even q) - q) <= 1 # 2.
Proof.
  unfold round_half_even.
  pose proof (Qfloor_le q) as Hlo.
  pose proof (Qlt_floor q) as Hhi.
  rewrite inject_Z_plus in Hhi.
  change (inject_Z 1) with 1 in Hhi.
  apply Qabs_Qle_condition.
  destruct (q - inject_Z (Qfloor q) ?= 1 # 2) eqn:E.
  - apply Qeq_alt in E.
    destruct (Z.even (Qfloor q)); [| rewrite inject_Z_plus; change (inject_Z 1) with 1];
      split; lra.
  - apply Qlt_alt in E. split; lra.
  - apply Qgt_alt in E. rewrite inject_Z_plus. change (inject_Z 1) with 1.
    split; lra.
Qed.

Lemma Qmake_100 (z : Z) : z # 100 == inject_Z z * (1 # 100).
Proof.
  unfold Qeq, Qmult, inject_Z; simpl. lia.
Qed.

Lemma round2_err (q : Q) : Qabs (round2 q - q) <= 1 # 200.
Proof.
  unfold round2.
  pose proof (round_half_even_err (q * 100)) as H.
  apply Qabs_Qle_condition in H.
  apply Qabs_Qle_condition.
  rewrite Qmake_100.
  split; lra.
Qed.

Lemma round_half_even_comp (p q : Q) :
  p == q -> round_half_even p = round_half_even q.
Proof.
  intros H. unfold round_half_even.
  rewrite (Qfloor_comp _ _ H).
  assert (E : (p - inject_Z (Qfloor q) ?= 1 # 2) = (q - inject_Z (Qfloor q) ?= 1 # 2)).
  { apply Qcompare_comp; [rewrite H|]; reflexivity. }
  rewrite E. reflexivity.
Qed.

Lemma round2_comp (p q : Q) : p == q -> round2 p = round2 q.
Proof.
  intros H. unfold round2. f_equal.
  apply round_half_even_comp. rewrite H. reflexivity.
Qed.

Lemma round_half_even_inject (z : Z) : round_half_even (inject_Z z) = z.
Proof.
  unfold round_half_even. rewrite Qfloor_Z.
  assert (E : (inject_Z z - inject_Z z ?= 1 # 2) = Lt).
  { apply -> Qlt_alt. lra. }
  rewrite E. reflexivity.
Qed.

(** Rounding a value that already has two decimals leaves it unchanged. *)
Lemma round2_cents (z : Z) : round2 (z # 100) = z # 100.
Proof.
  unfold round2. f_equal.
  rewrite <- (round_half_even_inject z) at 2.
  apply round_half_even_comp.
  rewrite Qmake_100. ring.
Qed.

Lemma round2_idem (q : Q) : round2 (round2 q) = round2 q.
Proof. unfold round2 at 2 3. apply round2_cents. Qed.

Lemma Qlt_bool_iff (a b : Q) : Qlt_bool a b = true <-> a < b.
Proof.
  unfold Qlt_bool. rewrite negb_true_iff.
  destruct (Qle_bool b a) eqn:E.
  - apply Qle_bool_iff in E. split; [discriminate | intros; lra].
  - split; [intros _ | reflexivity].
    apply Qnot_le_lt. intros H. apply Qle_bool_iff in H. congruence.
Qed.

(** ** Reasoning about effectful computations *)

Lemma bind_ok {E A B} (m : Eff E A) (k : A -> Eff E B) s i b j :
  bind m k s i = Ok (b, j) ->
  exists a i', m s i = Ok (a, i') /\ k a s i' = Ok (b, j).
Proof.
  unfold bind. destruct (m s i) as [[a i'] | e]; [| discriminate].
  intros H. exists a, i'. split; [reflexivity | exact H].
Qed.

Lemma ret_ok {E A} (a b : A) (s : E) i j : ret a s i = Ok (b, j) -> b = a /\ j = i.
Proof. unfold ret. intros H. injection H as <- <-. split; reflexivity. Qed.

Lemma raise_ok {E A} e (s : E) i (b : A) j : raise e s i = Ok (b, j) -> False.
Proof. discriminate. Qed.

Lemma random_random_ok s i r j :
  random_random s i = Ok (r, j) -> r = uniform_src s i /\ j = S i.
Proof. unfold random_random. intros H. injection H as <- <-. split; reflexivity. Qed.

Lemma random_random_range s i r j :
  valid_source s -> random_random s i = Ok (r, j) -> 0 <= r /\ r < 1.
Proof. intros V H. apply random_random_ok in H as [-> _]. apply V. Qed.

Lemma random_uniform_range a b s i x j :
  valid_source s -> a <= b -> random_uniform a b s i = Ok (x, j) ->
  a <= x /\ x <= b.
Proof.
  intros V Hab H. unfold random_uniform in H.
  apply bind_ok in H as (r & i' & Hr & H).
  apply ret_ok in H as [-> _].
  apply (random_random_range _ _ _ _ V) in Hr as [H0 H1].
  split; nra.
Qed.

Lemma Qfloor_lt (x : Q) (n : Z) : x < inject_Z n -> (Qfloor x < n)%Z.
Proof.
  intros H. pose proof (Qfloor_le x) as Hf.
  rewrite Zlt_Qlt. lra.
Qed.

Lemma random_randint_range a b s i z j :
  valid_source s -> random_randint a b s i = Ok (z, j) -> (a <= z <= b)%Z.
Proof.
  intros V H. unfold random_randint in H.
  destruct (b <? a)%Z eqn:E; [discriminate |].
  apply Z.ltb_ge in E.
  apply bind_ok in H as (r & i' & Hr & H).
  apply ret_ok in H as [-> _].
  apply (random_random_range _ _ _ _ V) in Hr as [H0 H1].
  assert (Hn : 0 < inject_Z (b - a + 1)).
  { change 0 with (inject_Z 0). rewrite <- Zlt_Qlt. lia. }
  assert (Hlo : (0 <= Qfloor (r * inject_Z (b - a + 1)))%Z).
  { change 0%Z with (Qfloor (inject_Z 0)). apply Qfloor_resp_le.
    change (inject_Z 0) with 0. nra. }
  assert (Hhi : (Qfloor (r * inject_Z (b - a + 1)) < b - a + 1)%Z).
  { apply Qfloor_lt. nra. }
  lia.
Qed.

Lemma pick_in {A} (x : A) xs r : In (pick x xs r) (x :: xs).
Proof.
  unfold pick.
  destruct (Nat.lt_ge_cases
              (Z.to_nat (Qfloor (r * inject_Z (Z.of_nat (List.length (x :: xs))))))
              (List.length (x :: xs))) as [H | H].
  - apply nth_In. exact H.
  - rewrite nth_overflow by exact H. left. reflexivity.
Qed.

Lemma random_choice_in {A} (l : list A) s i x j :
  random_choice l s i = Ok (x, j) -> In x l.
Proof.
  destruct l as [| y ys]; simpl; [intros H; discriminate |].
  intros H. apply bind_ok in H as (r & i' & _ & H).
  apply ret_ok in H as [-> _]. apply pick_in.
Qed.

Lemma for_each_Forall {E A B} (P : B -> Prop) (body : A -> Eff E (list B)) s l :
  (forall x i rows j, In x l -> body x s i = Ok (rows, j) -> Forall P rows) ->
  forall i rows j, for_each l body s i = Ok (rows, j) -> Forall P rows.
Proof.
  induction l as [| x l IH]; intros Hbody i rows j H; simpl in H.
  - apply ret_ok in H as [-> _]. constructor.
  - apply bind_ok in H as (rs & i1 & Hx & H).
    apply bind_ok in H as (rest & i2 & Hrest & H).
    apply ret_ok in H as [-> _].
    apply Forall_app. split.
    + eapply Hbody; [left; reflexivity | exact Hx].
    + eapply IH; [| exact Hrest].
      intros y i' rows' j' Hy. apply Hbody. right. exact Hy.
Qed.

Lemma repeat_gen_Forall {E A} (P : A -> Prop) (body : Eff E A) s n :
  (forall i x j, body s i = Ok (x, j) -> P x) ->
  forall i xs j, repeat_gen n body s i = Ok (xs, j) -> Forall P xs.
Proof.
  intros Hbody. induction n as [| n IH]; intros i xs j H; simpl in H.
  - apply ret_ok in H as [-> _]. constructor.
  - apply bind_ok in H as (x & i1 & Hx & H).
    apply bind_ok in H as (rest & i2 & Hrest & H).
    apply ret_ok in H as [-> _].
    constructor; [eapply Hbody; exact Hx | eapply IH; exact Hrest].
Qed.

Lemma sample_incl {A} (n : nat) :
  forall (rows : list A) s i l j, sample n rows s i = Ok (l, j) -> incl l rows.
Proof.
  induction n as [| n IH]; intros rows s i l j H; simpl in H.
  - apply ret_ok in H as [-> _]. intros x [].
  - destruct rows as [| x rows']; [discriminate |].
    apply bind_ok in H as (r & i1 & _ & H).
    apply bind_ok in H as (rest & i2 & Hrest & H).
    apply ret_ok in H as [-> _].
    set (k := Z.to_nat (Qfloor (r * inject_Z (Z.of_nat (List.length (x :: rows')))))) in *.
    intros y [<- | Hy].
    + destruct (Nat.lt_ge_cases k (List.length (x :: rows'))) as [Hk | Hk].
      * apply nth_In. exact Hk.
      * rewrite nth_overflow by exact Hk. left. reflexivity.
    + apply IH in Hrest. apply Hrest in Hy.
      apply in_app_or in Hy as [Hy | Hy].
      * rewrite <- (firstn_skipn k (x :: rows')). apply in_or_app. left. exact Hy.
      * rewrite <- (firstn_skipn (S k) (x :: rows')). apply in_or_app. right. exact Hy.
Qed.

Lemma tape_valid draws day :
  Forall (fun r => 0 <= r /\ r < 1) draws -> valid_source (tape draws day).
Proof.
  intros H n. simpl.
  destruct (Nat.lt_ge_cases n (List.length draws)) as [Hn | Hn].
  - rewrite Forall_forall in H. apply H. apply nth_In. exact Hn.
  - rewrite nth_overflow by exact Hn. split; lra.
Qed.


Lemma lift_ok {E A} (r : Result A) (s : E) i a j :
  lift r s i = Ok (a, j) -> r = Ok a /\ j = i.
Proof.
  unfold lift. destruct r as [a' | e]; [| discriminate].
  intros H. injection H as <- <-. split; reflexivity.
Qed.


(** *** Computations that never raise *)

Lemma total_ret {E A} (a : A) : total (@ret E A a).
Proof. intros s i. exists a, i. reflexivity. Qed.

Lemma total_bind {E A B} (m : Eff E A) (k : A -> Eff E B) :
  total m -> (forall a, total (k a)) -> total (bind m k).
Proof.
  intros Hm Hk s i. destruct (Hm s i) as (a & j & Ha).
  destruct (Hk a s j) as (b & j' & Hb).
  exists b, j'. unfold bind. rewrite Ha. exact Hb.
Qed.

Lemma total_lift {E A} (a : A) : total (@lift E A (Ok a)).
Proof. intros s i. exists a, i. reflexivity. Qed.

Lemma total_random_random : total random_random.
Proof. intros s i. eexists _, _. reflexivity. Qed.

Lemma total_random_uniform a b : total (random_uniform a b).
Proof. intros s i. eexists _, _. reflexivity. Qed.

Lemma total_random_randint a b : (a <= b)%Z -> total (random_randint a b).
Proof.
  intros H s i. unfold random_randint.
  apply Z.ltb_ge in H. rewrite H. eexists _, _. reflexivity.
Qed.

Lemma total_random_choice {A} (x : A) xs : total (random_choice (x :: xs)).
Proof. intros s i. eexists _, _. reflexivity. Qed.

Lemma total_uuid4_8 : total uuid4_8.
Proof. intros s i. eexists _, _. reflexivity. Qed.

Lemma total_today : total today.
Proof. intros s i. eexists _, _. reflexivity. Qed.


Ltac total_step :=
  first
    [ apply total_ret
    | apply total_random_random
    | apply total_random_uniform
    | apply total_random_choice
    | apply total_uuid4_8
    | apply total_today
    | apply total_lift
    | apply total_random_randint; lia
    | apply total_bind; [| intros ?]
    | match goal with
      | |- total (if ?b then _ else _) => destruct b
      | |- total (let '(_, _) := ?p in _) => destruct p
      end ].

(** ** Dictionaries *)

Lemma dict_get_set_same {V} (d : dict V) k v : dict_get (dict_set d k v) k = Some v.
Proof.
  induction d as [| [k' v'] d IH]; simpl.
  - rewrite String.eqb_refl. reflexivity.
  - destruct (k' =? k)%string eqn:E; simpl; rewrite E; [reflexivity | exact IH].
Qed.

Lemma dict_get_set_other {V} (d : dict V) k v k0 :
  k0 <> k -> dict_get (dict_set d k v) k0 = dict_get d k0.
Proof.
  intros Hne. induction d as [| [k' v'] d IH]; simpl.
  - destruct (k =? k0)%string eqn:E; [| reflexivity].
    apply String.eqb_eq in E. congruence.
  - destruct (k' =? k)%string eqn:E; simpl.
    + apply String.eqb_eq in E. subst k'.
      destruct (k =? k0)%string eqn:E0; [| reflexivity].
      apply String.eqb_eq in E0. congruence.
    + rewrite IH. reflexivity.
Qed.

Lemma dict_get_In {V} (d : dict V) k v : dict_get d k = Some v -> In (k, v) d.
Proof.
  induction d as [| [k' v'] d IH]; simpl; [discriminate |].
  destruct (k' =? k)%string eqn:E.
  - apply String.eqb_eq in E. intros H. injection H as <-. left. congruence.
  - intros H. right. apply IH. exact H.
Qed.

Lemma dict_in_set_same {V} (d : dict V) k v : dict_in k (dict_set d k v) = true.
Proof. unfold dict_in. rewrite dict_get_set_same. reflexivity. Qed.

Lemma dict_in_set_other {V} (d : dict V) k v k0 :
  k0 <> k -> dict_in k0 (dict_set d k v) = dict_in k0 d.
Proof. intros H. unfold dict_in. rewrite dict_get_set_other by exact H. reflexivity. Qed.

(** ** Order items: [line_total] against the stored fields *)

Lemma recompute_bound (n : Z) (q d : Q) :
  (1 <= n <= 10)%Z -> 0 <= d -> d <= 1 ->
  Qabs (round2 (inject_Z n * q * (1 - d)) - round2 (inject_Z n * round2 q * (1 - d)))
  <= 6 # 100.
Proof.
  intros [Hn1 Hn2] Hd0 Hd1.
  pose proof (round2_err q) as Eq.
  pose proof (round2_err (inject_Z n * q * (1 - d))) as Ea.
  pose proof (round2_err (inject_Z n * round2 q * (1 - d))) as Eb.
  apply Qabs_Qle_condition in Eq, Ea, Eb.
  assert (N1 : 1 <= inject_Z n) by (change 1 with (inject_Z 1); rewrite <- Zle_Qle; lia).
  assert (N2 : inject_Z n <= 10) by (change 10 with (inject_Z 10); rewrite <- Zle_Qle; lia).
  set (w := inject_Z n * (1 - d)).
  assert (W0 : 0 <= w) by (unfold w; nra).
  assert (W1 : w <= 10) by (unfold w; nra).
  set (e := round2 q - q) in *.
  assert (P1 : w * e <= 10 * (1 # 200)) by nra.
  assert (P2 : - (10 * (1 # 200)) <= w * e) by nra.
  assert (D : inject_Z n * round2 q * (1 - d) - inject_Z n * q * (1 - d) == w * e)
    by (unfold w, e; ring).
  apply Qabs_Qle_condition. split; lra.
Qed.

Lemma generate_order_item_priced self order product s i rows j :
  valid_source s ->
  In product (products self) ->
  two_decimals (Product.unit_price product) ->
  generate_order_item self order product s i = Ok (rows, j) ->
  Forall (item_priced self) rows.
Proof.
  intros V Hin Hcents H. unfold generate_order_item in H.
  apply bind_ok in H as (r & i1 & _ & H).
  destruct (Qlt_bool r (error_rate self * (1 # 10))).
  { apply ret_ok in H as [-> _]. constructor. }
  apply bind_ok in H as (qty & i2 & Hqty & H).
  apply bind_ok in H as (disc & i3 & Hdisc & H).
  apply bind_ok in H as (r' & i4 & _ & H).
  apply bind_ok in H as (price & i5 & Hprice & H).
  apply ret_ok in H as [-> _].
  apply (random_randint_range _ _ _ _ _ _ V) in Hqty.
  apply random_choice_in in Hdisc.
  assert (Hd : 0 <= disc /\ disc <= 1).
  { simpl in Hdisc. destruct Hdisc as [<- | [<- | [<- | [<- | [<- | []]]]]]; split; lra. }
  destruct Hd as [Hd0 Hd1].
  constructor; [| constructor].
  exists product, price. unfold recomputed_line_total. simpl.
  split; [exact Hin |]. split; [reflexivity |].
  assert (Hkind : price = Product.unit_price product \/
                  exists u, - (1 # 10) <= u /\ u <= 1 # 10 /\
                            price = Product.unit_price product * (1 + u)).
  { destruct (Qlt_bool r' (error_rate self)).
    - apply bind_ok in Hprice as (u & i6 & Hu & Hprice).
      apply ret_ok in Hprice as [-> _].
      apply (random_uniform_range _ _ _ _ _ _ V) in Hu; [| lra].
      right. exists u. destruct Hu. split; [assumption |]. split; [assumption | reflexivity].
    - apply ret_ok in Hprice as [-> _]. left. reflexivity. }
  split; [exact Hkind |]. split; [reflexivity |]. split; [reflexivity |].
  split.
  - intros ->. rewrite Hcents. reflexivity.
  - apply recompute_bound; assumption.
Qed.

Lemma generate_items_of_order_priced self items_per_order order s i rows j :
  valid_source s ->
  Forall (fun p => two_decimals (Product.unit_price p)) (products self) ->
  generate_items_of_order self items_per_order order s i = Ok (rows, j) ->
  Forall (item_priced self) rows.
Proof.
  intros V Hcents H. unfold generate_items_of_order in H.
  apply bind_ok in H as (r & i1 & _ & H).
  destruct (Qlt_bool r (error_rate self * (3 # 10))).
  { apply ret_ok in H as [-> _]. constructor. }
  apply bind_ok in H as (num_items & i2 & _ & H).
  destruct (num_items <? 0)%Z; [discriminate |].
  apply bind_ok in H as (selected & i3 & Hsel & H).
  apply sample_incl in Hsel.
  eapply for_each_Forall; [| exact H].
  intros product i' rows' j' Hin Hbody.
  apply Hsel in Hin.
  eapply generate_order_item_priced; try eassumption.
  rewrite Forall_forall in Hcents. apply Hcents. exact Hin.
Qed.

(** C1 (amended).  Every item written by [generate_order_items] stores
    [unit_price = round(p, 2)] and [line_total = round(quantity * p * (1 -
    discount), 2)] for one price [p], the product's master price or that price
    with noise.  Where no noise was applied the line total equals the value
    recomputed from the stored fields; in every case the two differ by at
    most 0.06. *)
Theorem generate_order_items_priced self sales_orders items_per_order s i items j :
  valid_source s ->
  Forall (fun p => two_decimals (Product.unit_price p)) (products self) ->
  generate_order_items self sales_orders items_per_order s i = Ok (items, j) ->
  Forall (item_priced self) items.
Proof.
  intros V Hcents H. unfold generate_order_items in H.
  eapply for_each_Forall; [| exact H].
  intros order i' rows j' _ Hbody.
  eapply generate_items_of_order_priced; eassumption.
Qed.

(** The master prices [init] generates have two decimals. *)
Lemma init_products_two_decimals start_day end_day rate np nc s i self j :
  init start_day end_day rate np nc s i = Ok (self, j) ->
  Forall (fun p => two_decimals (Product.unit_price p)) (products self).
Proof.
  unfold init. intros H.
  apply bind_ok in H as (ps & i1 & Hps & H).
  apply bind_ok in H as (cs & i2 & _ & H).
  apply ret_ok in H as [-> _]. simpl.
  eapply repeat_gen_Forall; [| exact Hps].
  clear. intros i p j H. unfold generate_product in H.
  apply bind_ok in H as (category & i1 & _ & H).
  destruct (category_properties category) as [name_parts [lo hi]].
  apply bind_ok in H as (r & i2 & _ & H).
  apply bind_ok in H as (stock & i3 & _ & H).
  destruct stock as [[min_stock max_stock] supplier_id].
  apply bind_ok in H as (pid & i4 & _ & H).
  apply bind_ok in H as (part & i5 & _ & H).
  apply bind_ok in H as (number & i6 & _ & H).
  apply bind_ok in H as (price & i7 & _ & H).
  apply bind_ok in H as (lead & i8 & _ & H).
  apply ret_ok in H as [-> _]. simpl. apply round2_idem.
Qed.

Lemma noisy_item_draws_valid day : valid_source (tape noisy_item_draws day).
Proof.
  apply tape_valid. unfold noisy_item_draws.
  repeat (constructor; [split; [discriminate | reflexivity] |]). constructor.
Qed.

Lemma generate_order_items_priced_witness :
  Forall (item_priced example_generator) [noisy_item].
Proof.
  apply (generate_order_items_priced example_generator [example_order] (1, 5)%Z
           (tape noisy_item_draws 20000) 0%nat [noisy_item] 8%nat).
  - apply noisy_item_draws_valid.
  - constructor; [vm_compute; reflexivity | constructor].
  - vm_compute. reflexivity.
Defined.

(** C1, as stated, fails for a row that received price noise: the master
    price 10.00 becomes 10.004, the stored unit price is 10.00, and ten units
    are billed 100.04 where the stored fields give 100.00. *)
Lemma line_total_differs_from_stored_fields :
  valid_source (tape noisy_item_draws 20000) /\
  generate_order_items example_generator [example_order] (1, 5)%Z
    (tape noisy_item_draws 20000) 0%nat = Ok ([noisy_item], 8%nat) /\
  OrderItem.line_total noisy_item - recomputed_line_total noisy_item == 4 # 100 /\
  ~ (OrderItem.line_total noisy_item == recomputed_line_total noisy_item).
Proof.
  split; [apply noisy_item_draws_valid |].
  split; [vm_compute; reflexivity |].
  split; [vm_compute; reflexivity |].
  vm_compute. discriminate.
Qed.

(** ** Financial transactions: dates *)

Lemma make_transaction_ok order invoice_date due_date amount payment_date s i t j :
  make_transaction order invoice_date due_date amount payment_date s i = Ok (t, j) ->
  FinancialTransaction.order_id t = SalesOrder.order_id order /\
  FinancialTransaction.invoice_date t = invoice_date /\
  FinancialTransaction.due_date t = due_date /\
  FinancialTransaction.amount t = nan_round2 amount /\
  FinancialTransaction.payment_date t = payment_date /\
  FinancialTransaction.department t = SalesOrder.department order.
Proof.
  unfold make_transaction. intros H.
  apply bind_ok in H as (tid & i1 & _ & H).
  apply bind_ok in H as (method & i2 & _ & H).
  apply bind_ok in H as (now & i3 & _ & H).
  apply ret_ok in H as [-> _]. simpl. repeat split; reflexivity.
Qed.

Lemma term_days_nonneg terms term :
  lookup_term_days terms = Ok term -> (0 <= term)%Z.
Proof.
  unfold lookup_term_days. destruct terms as [k |]; [| discriminate].
  simpl.
  repeat match goal with
         | |- context [if ?b then _ else _] => destruct b
         end;
    intros H; inversion H; lia.
Qed.

(** The records [book_transactions] writes carry the dates it was given;
    only the second part of a split is paid later, by 1 to 10 days. *)
Lemma book_transactions_dates order invoice_date due_date payment_date amount s i rows j :
  valid_source s ->
  book_transactions order invoice_date due_date payment_date amount s i = Ok (rows, j) ->
  Forall (fun t =>
            FinancialTransaction.order_id t = SalesOrder.order_id order /\
            FinancialTransaction.invoice_date t = invoice_date /\
            FinancialTransaction.due_date t = due_date /\
            exists extra, (0 <= extra <= 10)%Z /\
                          FinancialTransaction.payment_date t = (payment_date + extra)%Z)
         rows.
Proof.
  intros V H. unfold book_transactions in H.
  apply bind_ok in H as (r & i1 & _ & H).
  destruct (Qlt_bool r (1 # 10) && nan_gt amount 1000).
  - apply bind_ok in H as (ratio & i2 & _ & H).
    apply bind_ok in H as (later & i3 & Hlater & H).
    apply (random_randint_range _ _ _ _ _ _ V) in Hlater.
    simpl in H.
    apply bind_ok in H as (rows1 & i4 & H1 & H).
    apply bind_ok in H1 as (t1 & i5 & Ht1 & H1). apply ret_ok in H1 as [-> _].
    apply bind_ok in H as (rest & i6 & H2 & H).
    apply ret_ok in H as [-> _].
    apply bind_ok in H2 as (rows2 & i7 & H2 & H3).
    apply bind_ok in H2 as (t2 & i8 & Ht2 & H2). apply ret_ok in H2 as [-> _].
    apply bind_ok in H3 as (nil & i9 & H3 & H4).
    apply ret_ok in H3 as [-> _]. apply ret_ok in H4 as [-> _].
    apply make_transaction_ok in Ht1 as (E1 & E2 & E3 & _ & E5 & _).
    apply make_transaction_ok in Ht2 as (F1 & F2 & F3 & _ & F5 & _).
    simpl. constructor; [| constructor; [| constructor]].
    + repeat (split; [assumption |]). exists 0%Z. split; lia.
    + repeat (split; [assumption |]). exists later. split; lia.
  - apply bind_ok in H as (t & i2 & Ht & H). apply ret_ok in H as [-> _].
    apply make_transaction_ok in Ht as (E1 & E2 & E3 & _ & E5 & _).
    constructor; [| constructor].
    repeat (split; [assumption |]). exists 0%Z. split; lia.
Qed.

Lemma generate_transactions_of_order_dated self order_items sales_orders order s i rows j :
  valid_source s ->
  In order sales_orders ->
  generate_transactions_of_order self order_items order s i = Ok (rows, j) ->
  Forall (transaction_dated sales_orders) rows.
Proof.
  intros V Hin H. unfold generate_transactions_of_order in H.
  apply bind_ok in H as (r & i1 & _ & H).
  destruct (Qlt_bool r (error_rate self * (2 # 10))).
  { apply ret_ok in H as [-> _]. constructor. }
  apply bind_ok in H as (term & i2 & Hterm & H).
  apply lift_ok in Hterm as [Hterm _].
  apply bind_ok in H as (r_shift & i3 & _ & H).
  apply bind_ok in H as (invoice_date & i4 & Hinv & H).
  apply bind_ok in H as (delay & i5 & Hdelay & H).
  apply random_choice_in in Hdelay.
  apply bind_ok in H as (r_amount & i6 & _ & H).
  apply bind_ok in H as (amount & i7 & _ & H).
  assert (Hshift : exists shift, (0 <= shift <= 5)%Z /\
                                 invoice_date = (SalesOrder.order_date order + shift)%Z).
  { destruct (Qlt_bool r_shift (3 # 10)).
    - apply bind_ok in Hinv as (shift & i8 & Hs & Hinv).
      apply ret_ok in Hinv as [-> _].
      apply (random_randint_range _ _ _ _ _ _ V) in Hs.
      exists shift. split; [lia | reflexivity].
    - apply ret_ok in Hinv as [-> _]. exists 0%Z. split; lia. }
  destruct Hshift as (shift & Hshift & ->).
  apply (book_transactions_dates _ _ _ _ _ _ _ _ _ V) in H.
  eapply Forall_impl; [| exact H].
  intros t (E1 & E2 & E3 & extra & Hextra & E4).
  exists order, term, shift, delay, extra.
  repeat (split; [first [assumption | lia] |]). lia.
Qed.

Lemma generate_financial_transactions_dated self sales_orders order_items s i rows j :
  valid_source s ->
  generate_financial_transactions self sales_orders order_items s i = Ok (rows, j) ->
  Forall (transaction_dated sales_orders) rows.
Proof.
  intros V H. unfold generate_financial_transactions in H.
  destruct order_items as [| it items]; [discriminate |].
  destruct sales_orders as [| o orders]; [discriminate |].
  eapply for_each_Forall; [| exact H].
  intros order i' rows' j' Hin Hbody.
  eapply generate_transactions_of_order_dated; eassumption.
Qed.

Lemma valid_draws draws day :
  forallb (fun r => Qle_bool 0 r && Qlt_bool r 1) draws = true ->
  valid_source (tape draws day).
Proof.
  intros H. apply tape_valid. rewrite forallb_forall in H.
  apply Forall_forall. intros r Hr. apply H in Hr.
  apply andb_true_iff in Hr as [H0 H1].
  apply Qle_bool_iff in H0. apply Qlt_bool_iff in H1. split; assumption.
Qed.

(** C2 (amended).  For every transaction written by
    [generate_financial_transactions] the due date lies the term days of the
    order's [payment_terms] after the order date, and the invoice date lies
    0 to 5 days after the order date; hence [due_date - invoice_date] is the
    term days less the days the invoice was booked late. *)
Theorem due_date_follows_order_date self sales_orders order_items s i rows j :
  valid_source s ->
  generate_financial_transactions self sales_orders order_items s i = Ok (rows, j) ->
  Forall (due_date_from_terms sales_orders) rows.
Proof.
  intros V H.
  eapply Forall_impl; [| eapply generate_financial_transactions_dated; eassumption].
  intros t (order & term & shift & delay & extra & Hin & Hid & Hterm & Hshift & _ & _
            & Hinv & Hdue & _).
  exists order, term, shift.
  repeat (split; [first [assumption | lia] |]). lia.
Qed.

Lemma due_date_follows_order_date_witness :
  Forall (due_date_from_terms [example_order]) [late_booked_transaction].
Proof.
  apply (due_date_follows_order_date example_generator [example_order] [noisy_item]
           (tape shifted_invoice_draws 20000) 0%nat [late_booked_transaction] 8%nat).
  - apply valid_draws. vm_compute. reflexivity.
  - vm_compute. reflexivity.
Defined.

(** C2, as stated, fails for a transaction whose invoice was booked late:
    on Net30 terms the due date is 27 days after the invoice date. *)
Lemma due_date_not_term_days_after_invoice :
  valid_source (tape shifted_invoice_draws 20000) /\
  generate_financial_transactions example_generator [example_order] [noisy_item]
    (tape shifted_invoice_draws 20000) 0%nat = Ok ([late_booked_transaction], 8%nat) /\
  lookup_term_days (SalesOrder.payment_terms example_order) = Ok 30%Z /\
  (FinancialTransaction.due_date late_booked_transaction
   - FinancialTransaction.invoice_date late_booked_transaction = 27)%Z.
Proof.
  split; [apply valid_draws; vm_compute; reflexivity |].
  repeat split; vm_compute; reflexivity.
Qed.

(** C9.  Every transaction written by [generate_financial_transactions] is
    paid on or after its due date, a delay of 0, 5, 10, 15 or 30 days plus at
    most 10 further days; where the silver test [payment_date <
    invoice_date] fires on it, the invoice date was shifted past the order
    date. *)
Theorem payment_never_before_due_date self sales_orders order_items s i rows j :
  valid_source s ->
  generate_financial_transactions self sales_orders order_items s i = Ok (rows, j) ->
  Forall (paid_not_early sales_orders) rows.
Proof.
  intros V H.
  eapply Forall_impl; [| eapply generate_financial_transactions_dated; eassumption].
  intros t (order & term & shift & delay & extra & Hin & Hid & Hterm & Hshift & Hdelay
            & Hextra & Hinv & Hdue & Hpay).
  apply term_days_nonneg in Hterm.
  assert (Hd : In delay [0; 5; 10; 15; 30]%Z).
  { simpl in Hdelay |- *. intuition. }
  assert (Hd0 : (0 <= delay)%Z).
  { simpl in Hd. intuition lia. }
  split; [lia |]. split.
  - exists delay, extra. repeat split; try assumption; lia.
  - intros Hearly. unfold paid_before_invoice, load_financial_transaction in Hearly.
    simpl in Hearly. apply Z.ltb_lt in Hearly. unfold to_datetime in Hearly.
    exists order. repeat split; try assumption. lia.
Qed.

Lemma payment_never_before_due_date_witness :
  Forall (paid_not_early [immediate_order]) [immediate_transaction].
Proof.
  apply (payment_never_before_due_date example_generator [immediate_order] [noisy_item]
           (tape shifted_invoice_draws 20000) 0%nat [immediate_transaction] 8%nat).
  - apply valid_draws. vm_compute. reflexivity.
  - vm_compute. reflexivity.
Defined.

(** ** Financial transactions: split amounts *)

Lemma split_amounts_sum (a ratio : Q) :
  Qabs (round2 (a * ratio) + round2 (a * (1 - ratio)) - a) <= 1 # 100.
Proof.
  pose proof (round2_err (a * ratio)) as E1.
  pose proof (round2_err (a * (1 - ratio))) as E2.
  apply Qabs_Qle_condition in E1, E2.
  assert (D : a * ratio + a * (1 - ratio) == a) by ring.
  apply Qabs_Qle_condition. split; lra.
Qed.

(** C8.  When [book_transactions] splits an amount, the two rounded amounts
    it writes sum to the amount before the split to within one cent. *)
Theorem split_amounts_within_one_cent order invoice_date due_date payment_date amount
    s i t1 t2 j :
  book_transactions order invoice_date due_date payment_date amount s i
  = Ok ([t1; t2], j) ->
  exists a a1 a2,
    amount = Some a /\
    FinancialTransaction.amount t1 = Some a1 /\
    FinancialTransaction.amount t2 = Some a2 /\
    Qabs (a1 + a2 - a) <= 1 # 100.
Proof.
  intros H. unfold book_transactions in H.
  apply bind_ok in H as (r & i1 & _ & H).
  destruct (Qlt_bool r (1 # 10) && nan_gt amount 1000) eqn:Hsplit.
  - apply andb_true_iff in Hsplit as [_ Hgt].
    destruct amount as [a |]; [| discriminate].
    apply bind_ok in H as (ratio & i2 & _ & H).
    apply bind_ok in H as (later & i3 & _ & H).
    simpl in H.
    apply bind_ok in H as (rows1 & i4 & H1 & H).
    apply bind_ok in H1 as (u1 & i5 & Hu1 & H1). apply ret_ok in H1 as [-> _].
    apply bind_ok in H as (rest & i6 & H2 & H).
    apply ret_ok in H as [E _].
    apply bind_ok in H2 as (rows2 & i7 & H2 & H3).
    apply bind_ok in H2 as (u2 & i8 & Hu2 & H2). apply ret_ok in H2 as [-> _].
    apply bind_ok in H3 as (nil & i9 & H3 & H4).
    apply ret_ok in H3 as [-> _]. apply ret_ok in H4 as [-> _].
    simpl in E. injection E as -> ->.
    apply make_transaction_ok in Hu1 as (_ & _ & _ & A1 & _).
    apply make_transaction_ok in Hu2 as (_ & _ & _ & A2 & _).
    exists a, (round2 (a * ratio)), (round2 (a * (1 - ratio))).
    split; [reflexivity |]. split; [exact A1 |]. split; [exact A2 |].
    apply split_amounts_sum.
  - apply bind_ok in H as (t & i2 & _ & H). apply ret_ok in H as [E _].
    discriminate.
Qed.

Lemma split_amounts_within_one_cent_witness :
  exists a a1 a2,
    Some (123457 # 100) = Some a /\
    FinancialTransaction.amount split_first = Some a1 /\
    FinancialTransaction.amount split_second = Some a2 /\
    Qabs (a1 + a2 - a) <= 1 # 100.
Proof.
  apply (split_amounts_within_one_cent example_order 19400 19430 19430
           (Some (123457 # 100)) (tape split_draws 20000) 0%nat
           split_first split_second 7%nat).
  vm_compute. reflexivity.
Defined.

(** ** Sales orders: the cells copied from the customer *)





(** *** The financial generator never stops on such orders *)

Lemma make_transaction_total order invoice_date due_date amount payment_date :
  total (make_transaction order invoice_date due_date amount payment_date).
Proof. unfold make_transaction. repeat total_step. Qed.




(** ** Gold: grouping by department *)

Lemma sumQ_app (l1 l2 : list Q) : sumQ (l1 ++ l2) == sumQ l1 + sumQ l2.
Proof.
  induction l1 as [| x l1 IH]; simpl.
  - ring.
  - rewrite IH. ring.
Qed.


Lemma sum_total_sales_add d v groups :
  sum_total_sales (add_to_group d v groups) == sum_total_sales groups + nan_to_zero v.
Proof.
  unfold sum_total_sales.
  induction groups as [| g groups IH]; simpl.
  - ring.
  - destruct (String.compare d (SalesMetricsRow.department g)); simpl.
    + ring.
    + ring.
    + rewrite IH. ring.
Qed.


Lemma group_by_department_sales rows :
  forall groups,
    sum_total_sales (fold_left group_step rows groups)
    == sum_total_sales groups + sumQ (map joined_value (filter has_department rows)).
Proof.
  induction rows as [| row rows IH]; intros groups; simpl.
  - ring.
  - rewrite IH. unfold group_step, has_department.
    destruct (SalesOrdersRow.department (fst row)); simpl.
    + rewrite sum_total_sales_add. unfold joined_value. ring.
    + reflexivity.
Qed.

Lemma merge_order_items_fst sales_orders order_items row :
  In row (merge_order_items sales_orders order_items) -> In (fst row) sales_orders.
Proof.
  unfold merge_order_items. intros H.
  apply in_flat_map in H as (o & Ho & H).
  destruct (filter _ order_items) as [| m ms].
  - destruct H as [<- | []]. exact Ho.
  - apply in_map_iff in H as (it & <- & _). exact Ho.
Qed.

Lemma filter_all {A} (p : A -> bool) (l : list A) :
  (forall x, In x l -> p x = true) -> filter p l = l.
Proof.
  induction l as [| x l IH]; intros H; simpl.
  - reflexivity.
  - rewrite (H x (or_introl eq_refl)). f_equal. apply IH.
    intros y Hy. apply H. right. exact Hy.
Qed.

(** With a department on every order, no joined row is left out of the
    groups. *)
Lemma no_row_dropped sales_orders order_items :
  Forall (fun o => SalesOrdersRow.department o <> None) sales_orders ->
  filter has_department (merge_order_items sales_orders order_items)
  = merge_order_items sales_orders order_items.
Proof.
  intros H. apply filter_all. intros row Hrow.
  apply merge_order_items_fst in Hrow.
  rewrite Forall_forall in H. specialize (H _ Hrow).
  unfold has_department. destruct (SalesOrdersRow.department (fst row)); [reflexivity |].
  contradiction.
Qed.





(** ** Gold: the sales view and its guard *)

Lemma matched_sales_single o order_items :
  matched_sales [o] order_items
  = sumQ (map item_value
            (filter (fun it => (OrderItemsRow.order_id it =? SalesOrdersRow.order_id o)%string)
               order_items)).
Proof.
  unfold matched_sales, item_matches. do 2 f_equal.
  apply filter_ext. intros it. simpl. apply orb_false_r.
Qed.

Lemma joined_rows_value (o : SalesOrdersRow.t) (matches : list OrderItemsRow.t) :
  sumQ (map joined_value
          match matches with
          | [] => [(o, None)]
          | m :: ms => map (fun it => (o, Some it)) (m :: ms)
          end)
  == sumQ (map item_value matches).
Proof.
  destruct matches as [| m ms].
  - unfold joined_value. simpl. ring.
  - rewrite map_map. reflexivity.
Qed.

Lemma merge_order_items_value sales_orders order_items :
  sumQ (map joined_value (merge_order_items sales_orders order_items))
  == sumQ (map (fun o => matched_sales [o] order_items) sales_orders).
Proof.
  unfold merge_order_items.
  induction sales_orders as [| o orders IH]; simpl.
  - reflexivity.
  - rewrite map_app, sumQ_app, IH, matched_sales_single, joined_rows_value.
    reflexivity.
Qed.

Lemma sum_filter_orb {A} (v : A -> Q) (p q : A -> bool) (l : list A) :
  (forall x, In x l -> p x = true -> q x = false) ->
  sumQ (map v (filter (fun x => p x || q x) l))
  == sumQ (map v (filter p l)) + sumQ (map v (filter q l)).
Proof.
  induction l as [| x l IH]; intros H; simpl.
  - ring.
  - assert (IH' := IH (fun y Hy => H y (or_intror Hy))).
    destruct (p x) eqn:Ep; simpl.
    + rewrite (H x (or_introl eq_refl) Ep). simpl. rewrite IH'. ring.
    + destruct (q x); simpl; rewrite IH'; ring.
Qed.

Lemma item_matches_id sales_orders it :
  item_matches sales_orders it = true ->
  In (OrderItemsRow.order_id it) (map SalesOrdersRow.order_id sales_orders).
Proof.
  unfold item_matches. intros H.
  apply existsb_exists in H as (o & Ho & E).
  apply String.eqb_eq in E. rewrite E. apply in_map. exact Ho.
Qed.

(** Without a repeated order id, an item joins at most one order. *)
Lemma matched_sales_unique sales_orders order_items :
  NoDup (map SalesOrdersRow.order_id sales_orders) ->
  sumQ (map (fun o => matched_sales [o] order_items) sales_orders)
  == matched_sales sales_orders order_items.
Proof.
  induction sales_orders as [| o orders IH]; intros Hnd.
  - unfold matched_sales.
    assert (E : filter (item_matches []) order_items = []).
    { induction order_items; simpl; [reflexivity | assumption]. }
    rewrite E. reflexivity.
  - inversion Hnd as [| id ids Hnotin Hnd']; subst.
    simpl. rewrite (IH Hnd').
    unfold matched_sales at 3.
    change (item_matches (o :: orders))
      with (fun it => (OrderItemsRow.order_id it =? SalesOrdersRow.order_id o)%string
                      || item_matches orders it).
    rewrite sum_filter_orb.
    + rewrite matched_sales_single. reflexivity.
    + intros it _ E. apply String.eqb_eq in E.
      destruct (item_matches orders it) eqn:M; [| reflexivity].
      apply item_matches_id in M. rewrite E in M. contradiction.
Qed.

(** The department totals of the view add up to the matched sales. *)
Lemma sales_metrics_view_mass sales_orders order_items :
  NoDup (map SalesOrdersRow.order_id sales_orders) ->
  Forall (fun o => SalesOrdersRow.department o <> None) sales_orders ->
  sum_total_sales (sales_metrics_view sales_orders order_items)
  == matched_sales sales_orders order_items.
Proof.
  intros Hnd Hdept. unfold sales_metrics_view, group_by_department.
  rewrite group_by_department_sales, no_row_dropped by exact Hdept.
  rewrite merge_order_items_value, matched_sales_unique by exact Hnd.
  unfold sum_total_sales, sumQ. simpl. ring.
Qed.

(** *** [process_to_gold] *)

Lemma silver_schema self source e :
  well_formed_silver self ->
  dict_get (silver_layer self) source = Some e ->
  schema_ok source (Silver.data e) = true.
Proof.
  unfold well_formed_silver. intros Hwf Hget.
  rewrite forallb_forall in Hwf.
  apply (Hwf (source, e)). apply dict_get_In. exact Hget.
Qed.

Lemma dict_in_get {V} (d : dict V) k :
  dict_in k d = true -> exists v, dict_get d k = Some v.
Proof.
  unfold dict_in. destruct (dict_get d k) as [v |]; [| discriminate].
  intros _. exists v. reflexivity.
Qed.

Lemma inventory_analysis_ok self gold :
  well_formed_silver self ->
  exists gold',
    inventory_analysis self gold = Ok gold' /\
    dict_get gold' "sales_metrics" = dict_get gold "sales_metrics".
Proof.
  intros Hwf. unfold inventory_analysis.
  destruct (all_in _ (silver_layer self)) eqn:E.
  - simpl in E. apply andb_true_iff in E as [E1 E2].
    apply andb_true_iff in E2 as [E2 _].
    apply dict_in_get in E1 as (e1 & G1). apply dict_in_get in E2 as (e2 & G2).
    pose proof (silver_schema _ _ _ Hwf G1) as S1.
    pose proof (silver_schema _ _ _ Hwf G2) as S2.
    unfold silver_data. rewrite G1, G2. simpl in S1, S2 |- *.
    destruct (Silver.data e1); try discriminate.
    destruct (Silver.data e2); try discriminate.
    eexists. split; [reflexivity |].
    apply dict_get_set_other. discriminate.
  - exists gold. split; reflexivity.
Qed.

Lemma silver_frame_sales_orders self :
  well_formed_silver self ->
  dict_in "sales_orders" (silver_layer self) = true ->
  exists rows, silver_data self "sales_orders" = Some (SalesOrders rows).
Proof.
  intros Hwf H. apply dict_in_get in H as (e & G).
  pose proof (silver_schema _ _ _ Hwf G) as S.
  unfold silver_data. rewrite G. simpl in S |- *.
  destruct (Silver.data e) as [rows | | | | |]; try discriminate.
  exists rows. reflexivity.
Qed.

Lemma silver_frame_order_items self :
  well_formed_silver self ->
  dict_in "order_items" (silver_layer self) = true ->
  exists rows, silver_data self "order_items" = Some (OrderItems rows).
Proof.
  intros Hwf H. apply dict_in_get in H as (e & G).
  pose proof (silver_schema _ _ _ Hwf G) as S.
  unfold silver_data. rewrite G. simpl in S |- *.
  destruct (Silver.data e) as [| rows | | | |]; try discriminate.
  exists rows. reflexivity.
Qed.

Lemma process_to_gold_ok self clock i gold1 gold2 :
  sales_analysis self (gold_layer self) = Ok gold1 ->
  inventory_analysis self gold1 = Ok gold2 ->
  exists self' i',
    process_to_gold self clock i = Ok (self', i') /\ gold_layer self' = gold2.
Proof.
  intros H1 H2. unfold process_to_gold, bind, clock_now, lift, ret.
  rewrite H1, H2. eexists _, _. split; reflexivity.
Qed.

(** C4 (amended).  On a fresh gold layer, [process_to_gold] returns and the
    gold mapping holds [sales_metrics] if and only if [sales_orders],
    [order_items] and [financial_transactions] are all present in the silver
    layer; when one of the three is missing the view is absent and nothing
    is raised. *)
Theorem sales_metrics_guard self clock i :
  well_formed_silver self ->
  gold_layer self = [] ->
  exists self' i',
    process_to_gold self clock i = Ok (self', i') /\
    (dict_in "sales_metrics" (gold_layer self') = true <->
     dict_in "sales_orders" (silver_layer self) = true /\
     dict_in "order_items" (silver_layer self) = true /\
     dict_in "financial_transactions" (silver_layer self) = true).
Proof.
  intros Hwf Hfresh.
  destruct (all_in ["sales_orders"; "order_items"; "financial_transactions"]%string
              (silver_layer self)) eqn:E.
  - pose proof E as E'. simpl in E'.
    apply andb_true_iff in E' as [E1 E2]. apply andb_true_iff in E2 as [E2 E3].
    apply andb_true_iff in E3 as [E3 _].
    destruct (silver_frame_sales_orders _ Hwf E1) as (orders & Ho).
    destruct (silver_frame_order_items _ Hwf E2) as (items & Hi).
    assert (H1 : sales_analysis self (gold_layer self)
                 = Ok (dict_set (gold_layer self) "sales_metrics"
                         (SalesMetrics (sales_metrics_view orders items)))).
    { unfold sales_analysis. rewrite E, Ho, Hi. reflexivity. }
    destruct (inventory_analysis_ok self
                (dict_set (gold_layer self) "sales_metrics"
                   (SalesMetrics (sales_metrics_view orders items))) Hwf)
      as (gold2 & H2 & Hkeep).
    destruct (process_to_gold_ok self clock i _ _ H1 H2) as (self' & i' & Hrun & Hgold).
    exists self', i'. split; [exact Hrun |].
    rewrite Hgold. unfold dict_in at 1. rewrite Hkeep, dict_get_set_same.
    split; [intros _; repeat split; assumption | reflexivity].
  - assert (H1 : sales_analysis self (gold_layer self) = Ok (gold_layer self)).
    { unfold sales_analysis. rewrite E. reflexivity. }
    destruct (inventory_analysis_ok self (gold_layer self) Hwf) as (gold2 & H2 & Hkeep).
    destruct (process_to_gold_ok self clock i _ _ H1 H2) as (self' & i' & Hrun & Hgold).
    exists self', i'. split; [exact Hrun |].
    rewrite Hgold. unfold dict_in at 1. rewrite Hkeep, Hfresh. simpl.
    split; [discriminate |].
    intros (E1 & E2 & E3). simpl in E. rewrite E1, E2, E3 in E. discriminate.
Qed.

Lemma sales_metrics_guard_witness :
  exists self' i',
    process_to_gold (silver_after data_sales standing_clock) standing_clock 0%nat
    = Ok (self', i') /\
    (dict_in "sales_metrics" (gold_layer self') = true <->
     dict_in "sales_orders" (silver_layer (silver_after data_sales standing_clock)) = true /\
     dict_in "order_items" (silver_layer (silver_after data_sales standing_clock)) = true /\
     dict_in "financial_transactions"
       (silver_layer (silver_after data_sales standing_clock)) = true).
Proof.
  apply (sales_metrics_guard (silver_after data_sales standing_clock) standing_clock 0%nat).
  - vm_compute. reflexivity.
  - vm_compute. reflexivity.
Defined.

(** C4, as stated, fails when [financial_transactions] is missing: both
    inputs of the join are in the silver layer, the run returns, and the
    gold layer holds no [sales_metrics]. *)
Lemma sales_metrics_absent_without_financial :
  exists p j,
    run_pipeline data_without_financial standing_clock 0%nat = Ok (p, j) /\
    dict_in "sales_orders" (silver_layer p) = true /\
    dict_in "order_items" (silver_layer p) = true /\
    dict_in "sales_metrics" (gold_layer p) = false /\
    gold_layer p = [].
Proof.
  eexists _, _. split; [vm_compute; reflexivity |].
  repeat split; vm_compute; reflexivity.
Qed.

(** C6 (amended).  When no order id occurs twice among the valid sales
    orders and each of them has a department, the [total_sales] of the
    [sales_metrics] view, summed over all departments, equals the sum of
    [line_total] over the valid order items whose order id is that of a
    valid sales order. *)
Theorem sales_total_preserved self clock i sales_orders order_items :
  well_formed_silver self ->
  silver_data self "sales_orders" = Some (SalesOrders sales_orders) ->
  silver_data self "order_items" = Some (OrderItems order_items) ->
  dict_in "financial_transactions" (silver_layer self) = true ->
  NoDup (map SalesOrdersRow.order_id sales_orders) ->
  Forall (fun o => SalesOrdersRow.department o <> None) sales_orders ->
  exists self' i' rows,
    process_to_gold self clock i = Ok (self', i') /\
    dict_get (gold_layer self') "sales_metrics" = Some (SalesMetrics rows) /\
    sum_total_sales rows == matched_sales sales_orders order_items.
Proof.
  intros Hwf Ho Hi Hfin Hnd Hdept.
  assert (E : all_in ["sales_orders"; "order_items"; "financial_transactions"]%string
                (silver_layer self) = true).
  { simpl. rewrite Hfin.
    unfold silver_data in Ho, Hi. unfold dict_in.
    destruct (dict_get (silver_layer self) "sales_orders"); [| discriminate].
    destruct (dict_get (silver_layer self) "order_items"); [| discriminate].
    reflexivity. }
  assert (H1 : sales_analysis self (gold_layer self)
               = Ok (dict_set (gold_layer self) "sales_metrics"
                       (SalesMetrics (sales_metrics_view sales_orders order_items)))).
  { unfold sales_analysis. rewrite E, Ho, Hi. reflexivity. }
  destruct (inventory_analysis_ok self
              (dict_set (gold_layer self) "sales_metrics"
                 (SalesMetrics (sales_metrics_view sales_orders order_items))) Hwf)
    as (gold2 & H2 & Hkeep).
  destruct (process_to_gold_ok self clock i _ _ H1 H2) as (self' & i' & Hrun & Hgold).
  exists self', i', (sales_metrics_view sales_orders order_items).
  split; [exact Hrun |]. split.
  - rewrite Hgold, Hkeep. apply dict_get_set_same.
  - apply sales_metrics_view_mass; assumption.
Qed.

Lemma sales_total_preserved_witness :
  exists self' i' rows,
    process_to_gold (silver_after data_sales standing_clock) standing_clock 0%nat
    = Ok (self', i') /\
    dict_get (gold_layer self') "sales_metrics" = Some (SalesMetrics rows) /\
    sum_total_sales rows
    == matched_sales [order_row "SO00000001" 19400 (Some "IT"%string);
                      order_row "SO00000002" 19401 (Some "HR"%string)]
         [item_row "SO00000001" 10; item_row "SO00000002" (5 # 2);
          item_row "SO00000001" (1 # 4); item_row "SO00000009" 99].
Proof.
  apply (sales_total_preserved (silver_after data_sales standing_clock) standing_clock 0%nat).
  - vm_compute. reflexivity.
  - vm_compute. reflexivity.
  - vm_compute. reflexivity.
  - vm_compute. reflexivity.
  - simpl. repeat constructor; simpl; intuition discriminate.
  - repeat constructor; discriminate.
Defined.

(** C6, as stated, fails in two ways.  An order row without a department
    is in no group, so its items are missing from the view; two order rows
    under one order id take the same item twice. *)
Lemma sales_total_not_preserved :
  (exists p j,
      run_pipeline data_missing_department standing_clock 0%nat = Ok (p, j) /\
      silver_data p "sales_orders"
      = Some (SalesOrders [order_row "SO00000001" 19400 None]) /\
      silver_data p "order_items" = Some (OrderItems [item_row "SO00000001" 10]) /\
      dict_get (gold_layer p) "sales_metrics" = Some (SalesMetrics []) /\
      sum_total_sales [] == 0 /\
      matched_sales [order_row "SO00000001" 19400 None] [item_row "SO00000001" 10] == 10) /\
  (exists p j rows,
      run_pipeline data_repeated_order standing_clock 0%nat = Ok (p, j) /\
      silver_data p "sales_orders"
      = Some (SalesOrders [order_row "SO00000001" 19400 (Some "IT"%string);
                           order_row "SO00000001" 19400 (Some "IT"%string)]) /\
      silver_data p "order_items" = Some (OrderItems [item_row "SO00000001" 10]) /\
      dict_get (gold_layer p) "sales_metrics" = Some (SalesMetrics rows) /\
      sum_total_sales rows == 20 /\
      matched_sales [order_row "SO00000001" 19400 (Some "IT"%string);
                     order_row "SO00000001" 19400 (Some "IT"%string)]
        [item_row "SO00000001" 10] == 10).
Proof.
  split.
  - eexists _, _. split; [vm_compute; reflexivity |].
    repeat split; vm_compute; reflexivity.
  - eexists _, _, _. split; [vm_compute; reflexivity |].
    repeat split; vm_compute; reflexivity.
Qed.

(** ** Silver: validation *)

Lemma filter_partition {A} (mask : A -> bool) (rows : list A) :
  (forall r, In r rows ->
     (In r (filter mask rows) <-> mask r = true) /\
     (In r (filter (complement mask) rows) <-> ~ In r (filter mask rows))) /\
  (List.length (filter (complement mask) rows) + List.length (filter mask rows)
   = List.length rows)%nat.
Proof.
  split.
  - intros r Hr. rewrite !filter_In. unfold complement. split.
    + tauto.
    + destruct (mask r); simpl; split.
      * intros [_ H]. discriminate.
      * intros H. exfalso. apply H. split; [exact Hr | reflexivity].
      * intros _ [_ H]. discriminate.
      * intros _. split; [exact Hr | reflexivity].
  - unfold complement. induction rows as [| r rows IH]; simpl; [reflexivity |].
    destruct (mask r); simpl; lia.
Qed.

Lemma sales_orders_invalid_mask_iff now r :
  sales_orders_invalid_mask now r = true <->
  SalesOrdersRow.order_date r = None \/
  SalesOrdersRow.customer_id r = None \/
  exists d, SalesOrdersRow.order_date r = Some d /\ (now < d)%Z.
Proof.
  unfold sales_orders_invalid_mask, isna, date_gt.
  destruct (SalesOrdersRow.order_date r) as [d |],
           (SalesOrdersRow.customer_id r) as [c |]; simpl.
  - rewrite Z.ltb_lt. split.
    + intros H. right. right. exists d. split; [reflexivity | exact H].
    + intros [H | [H | (d' & H & Hlt)]]; try discriminate.
      injection H as <-. exact Hlt.
  - split; [intros _; right; left; reflexivity | reflexivity].
  - split; [intros _; left; reflexivity | reflexivity].
  - split; [intros _; left; reflexivity | reflexivity].
Qed.

Lemma financial_invalid_mask_iff r :
  financial_invalid_mask r = true <->
  (exists p v, FinancialRow.payment_date r = Some p /\
               FinancialRow.invoice_date r = Some v /\ (p < v)%Z) \/
  FinancialRow.amount r = None \/
  exists a, FinancialRow.amount r = Some a /\ a <= 0.
Proof.
  unfold financial_invalid_mask. rewrite !orb_true_iff. split.
  - intros [[H | H] | H].
    + left. unfold date_lt in H.
      destruct (FinancialRow.payment_date r) as [p |]; [| discriminate].
      destruct (FinancialRow.invoice_date r) as [v |]; [| discriminate].
      apply Z.ltb_lt in H. exists p, v. repeat split. exact H.
    + right. left. destruct (FinancialRow.amount r); [discriminate | reflexivity].
    + right. right. unfold amount_le in H.
      destruct (FinancialRow.amount r) as [a |]; [| discriminate].
      apply Qle_bool_iff in H. exists a. split; [reflexivity | exact H].
  - intros [(p & v & Hp & Hv & Hlt) | [H | (a & Ha & Hle)]].
    + left. left. unfold date_lt. rewrite Hp, Hv. apply Z.ltb_lt. exact Hlt.
    + left. right. rewrite H. reflexivity.
    + right. unfold amount_le. rewrite Ha. apply Qle_bool_iff. exact Hle.
Qed.

Lemma sales_orders_filter_partition now rows :
  sales_orders_partition now rows
    (filter (complement (sales_orders_invalid_mask now)) rows)
    (filter (sales_orders_invalid_mask now) rows).
Proof.
  destruct (filter_partition (sales_orders_invalid_mask now) rows) as [Hin Hlen].
  split; [| split; [| exact Hlen]].
  - intros r Hr. destruct (Hin r Hr) as [H1 H2].
    rewrite <- sales_orders_invalid_mask_iff. split; assumption.
  - intros r Hr Hdate. apply (Hin r Hr).
    apply sales_orders_invalid_mask_iff. right. right.
    exists (now + one_year)%Z. split; [exact Hdate |]. unfold one_year. lia.
Qed.

Lemma financial_filter_partition rows :
  financial_partition rows
    (filter (complement financial_invalid_mask) rows)
    (filter financial_invalid_mask rows).
Proof.
  destruct (filter_partition financial_invalid_mask rows) as [Hin Hlen].
  split; [| split; [| exact Hlen]].
  - intros r Hr. destruct (Hin r Hr) as [H1 H2].
    rewrite <- financial_invalid_mask_iff. split; assumption.
  - intros r Hr Hamount. apply (Hin r Hr).
    apply financial_invalid_mask_iff. right. right.
    exists (- (5)). split; [exact Hamount | discriminate].
Qed.

(** The rules themselves never raise, also on a frame without rows. *)
Lemma validate_sales_orders rows clock i :
  validate "sales_orders" (SalesOrders rows) clock i
  = Ok ((SalesOrders (filter (complement (sales_orders_invalid_mask (clock i))) rows),
         Rows (SalesOrders (filter (sales_orders_invalid_mask (clock i)) rows))), S i) /\
  sales_orders_partition (clock i) rows
    (filter (complement (sales_orders_invalid_mask (clock i))) rows)
    (filter (sales_orders_invalid_mask (clock i)) rows).
Proof. split; [reflexivity | apply sales_orders_filter_partition]. Qed.

Lemma validate_financial_transactions rows clock i :
  validate "financial_transactions" (FinancialTransactions rows) clock i
  = Ok ((FinancialTransactions (filter (complement financial_invalid_mask) rows),
         Rows (FinancialTransactions (filter financial_invalid_mask rows))), i) /\
  financial_partition rows
    (filter (complement financial_invalid_mask) rows)
    (filter financial_invalid_mask rows).
Proof. split; [reflexivity | apply financial_filter_partition]. Qed.

Lemma validation_rate_of_positive valid total :
  (0 < total)%nat ->
  validation_rate_of valid total
  = Ok (inject_Z (Z.of_nat valid) / inject_Z (Z.of_nat total) * 100).
Proof.
  intros H. unfold validation_rate_of.
  destruct (total =? 0)%nat eqn:E; [| reflexivity].
  apply Nat.eqb_eq in E. lia.
Qed.

(** On a frame of the right schema with at least one row the silver entry
    is computed, and it partitions the rows by the rule of the source. *)
Lemma silver_entry_ready source bronze_data clock i :
  schema_ok source (Bronze.data bronze_data) = true ->
  (0 < len (Bronze.data bronze_data))%nat ->
  exists entry j,
    silver_entry source bronze_data clock i = Ok (entry, j) /\
    entry_partitioned clock source bronze_data entry.
Proof.
  intros Hschema Hlen. unfold silver_entry, validate.
  destruct (String.eqb_spec source "sales_orders") as [-> | N1].
  - destruct (Bronze.data bronze_data) as [rows | | | | |] eqn:D; try discriminate.
    cbv [bind clock_now ret lift].
    rewrite validation_rate_of_positive by exact Hlen.
    eexists _, _. split; [reflexivity |]. split.
    + intros rows' _ E. rewrite D in E. injection E as <-. simpl.
      exists i, (filter (complement (sales_orders_invalid_mask (clock i))) rows),
        (filter (sales_orders_invalid_mask (clock i)) rows).
      split; [reflexivity |]. split; [reflexivity |].
      apply sales_orders_filter_partition.
    + intros rows' E _. discriminate.
  - destruct (String.eqb_spec source "financial_transactions") as [-> | N2].
    + destruct (Bronze.data bronze_data) as [| | rows | | |] eqn:D; try discriminate.
      cbv [bind clock_now ret lift].
      rewrite validation_rate_of_positive by exact Hlen.
      eexists _, _. split; [reflexivity |]. split.
      * intros rows' E _. discriminate.
      * intros rows' _ E. rewrite D in E. injection E as <-. simpl.
        exists (filter (complement financial_invalid_mask) rows),
          (filter financial_invalid_mask rows).
        split; [reflexivity |]. split; [reflexivity |].
        apply financial_filter_partition.
    + cbv [bind clock_now ret lift].
      rewrite validation_rate_of_positive by exact Hlen.
      eexists _, _. split; [reflexivity |]. split.
      * intros rows' Hs _. contradiction.
      * intros rows' Hs _. contradiction.
Qed.

Lemma refine_ok self source bronze_data clock i entry j :
  silver_entry source bronze_data clock (S i) = Ok (entry, j) ->
  exists self',
    refine self (source, bronze_data) clock i = Ok (self', S j) /\
    bronze_layer self' = bronze_layer self /\
    silver_layer self' = dict_set (silver_layer self) source entry /\
    gold_layer self' = gold_layer self.
Proof.
  intros H. unfold refine. cbv [bind clock_now ret]. rewrite H.
  eexists. split; [reflexivity |]. repeat split; reflexivity.
Qed.

Lemma refine_loop clock (l : list (string * Bronze.t)) :
  NoDup (map fst l) ->
  (forall k e, In (k, e) l ->
               schema_ok k (Bronze.data e) = true /\ (0 < len (Bronze.data e))%nat) ->
  forall self i,
  exists self' i',
    for_state l refine self clock i = Ok (self', i') /\
    gold_layer self' = gold_layer self /\
    (forall k e, In (k, e) l ->
                 exists entry, dict_get (silver_layer self') k = Some entry /\
                               entry_partitioned clock k e entry) /\
    (forall k, ~ In k (map fst l) ->
               dict_get (silver_layer self') k = dict_get (silver_layer self) k).
Proof.
  induction l as [| [k e] l IH]; intros Hnd Hready self i.
  - exists self, i. simpl.
    split; [reflexivity |]. split; [reflexivity |].
    split; [intros k e [] | intros; reflexivity].
  - inversion Hnd as [| k' ks Hnotin Hnd']; subst.
    destruct (Hready k e (or_introl eq_refl)) as [Hschema Hlen].
    destruct (silver_entry_ready k e clock (S i) Hschema Hlen) as (entry & j & Hentry & Hpart).
    destruct (refine_ok self k e clock i entry j Hentry) as (self1 & Hstep & _ & Hsilver & Hgold).
    destruct (IH Hnd' (fun k0 e0 H0 => Hready k0 e0 (or_intror H0)) self1 (S j))
      as (self' & i' & Hloop & Hgold' & Hin & Hout).
    exists self', i'. cbn [for_state]. unfold bind at 1. rewrite Hstep.
    split; [exact Hloop |]. split; [congruence |]. split.
    + intros k0 e0 [E | H0].
      * injection E as <- <-. exists entry. split; [| exact Hpart].
        rewrite (Hout k Hnotin), Hsilver. apply dict_get_set_same.
      * apply Hin. exact H0.
    + intros k0 Hk0. simpl in Hk0.
      rewrite (Hout k0) by tauto. rewrite Hsilver.
      apply dict_get_set_other. intros ->. apply Hk0. left. reflexivity.
Qed.

(** C7.  On a bronze layer of non-empty, well-typed frames the silver
    stage returns.  Its [sales_orders] entry puts a bronze row into the
    invalid records if and only if the order date is missing, the customer id
    is missing or the order date is after the clock reading taken as
    processing time; its [financial_transactions] entry does so if and only
    if the payment date is before the invoice date, the amount is missing or
    the amount is at most 0.  A row is valid exactly when it is not invalid,
    an order dated one year past the processing time and a transaction of
    amount -5 are invalid, and the two partitions together have as many rows
    as the bronze frame. *)
Theorem silver_partitions self clock i :
  bronze_ready self ->
  exists self' i',
    process_to_silver self clock i = Ok (self', i') /\
    (forall e rows,
        dict_get (bronze_layer self) "sales_orders" = Some e ->
        Bronze.data e = SalesOrders rows ->
        exists entry n valid invalid,
          dict_get (silver_layer self') "sales_orders" = Some entry /\
          Silver.data entry = SalesOrders valid /\
          Silver.invalid_records entry = Rows (SalesOrders invalid) /\
          sales_orders_partition (clock n) rows valid invalid) /\
    (forall e rows,
        dict_get (bronze_layer self) "financial_transactions" = Some e ->
        Bronze.data e = FinancialTransactions rows ->
        exists entry valid invalid,
          dict_get (silver_layer self') "financial_transactions" = Some entry /\
          Silver.data entry = FinancialTransactions valid /\
          Silver.invalid_records entry = Rows (FinancialTransactions invalid) /\
          financial_partition rows valid invalid).
Proof.
  intros [Hnd Hready]. unfold process_to_silver.
  destruct (refine_loop clock (bronze_layer self) Hnd Hready self i)
    as (self' & i' & Hloop & _ & Hin & _).
  exists self', i'. split; [exact Hloop |]. split.
  - intros e rows Hget Hdata. apply dict_get_In in Hget.
    destruct (Hin _ _ Hget) as (entry & Hentry & Hsales & _).
    destruct (Hsales rows eq_refl Hdata) as (n & valid & invalid & H1 & H2 & H3).
    exists entry, n, valid, invalid.
    split; [exact Hentry |]. split; [exact H1 |]. split; [exact H2 | exact H3].
  - intros e rows Hget Hdata. apply dict_get_In in Hget.
    destruct (Hin _ _ Hget) as (entry & Hentry & _ & Hfin).
    destruct (Hfin rows eq_refl Hdata) as (valid & invalid & H1 & H2 & H3).
    exists entry, valid, invalid.
    split; [exact Hentry |]. split; [exact H1 |]. split; [exact H2 | exact H3].
Qed.

Lemma bronze_ready_example :
  bronze_ready (bronze_after data_with_invalid_rows standing_clock).
Proof.
  split.
  - vm_compute. repeat constructor; simpl; intuition discriminate.
  - intros source e H. vm_compute in H.
    destruct H as [H | [H | [H | []]]]; injection H as <- <-;
      split; vm_compute; reflexivity || lia.
Defined.

Lemma silver_partitions_witness :
  exists self' i',
    process_to_silver (bronze_after data_with_invalid_rows standing_clock)
      standing_clock 0%nat = Ok (self', i') /\
    (forall e rows,
        dict_get (bronze_layer (bronze_after data_with_invalid_rows standing_clock))
          "sales_orders" = Some e ->
        Bronze.data e = SalesOrders rows ->
        exists entry n valid invalid,
          dict_get (silver_layer self') "sales_orders" = Some entry /\
          Silver.data entry = SalesOrders valid /\
          Silver.invalid_records entry = Rows (SalesOrders invalid) /\
          sales_orders_partition (standing_clock n) rows valid invalid) /\
    (forall e rows,
        dict_get (bronze_layer (bronze_after data_with_invalid_rows standing_clock))
          "financial_transactions" = Some e ->
        Bronze.data e = FinancialTransactions rows ->
        exists entry valid invalid,
          dict_get (silver_layer self') "financial_transactions" = Some entry /\
          Silver.data entry = FinancialTransactions valid /\
          Silver.invalid_records entry = Rows (FinancialTransactions invalid) /\
          financial_partition rows valid invalid).
Proof.
  apply (silver_partitions (bronze_after data_with_invalid_rows standing_clock)
           standing_clock 0%nat).
  apply bronze_ready_example.
Defined.

(** *** The validation rate *)

(** For a source with rows the rate is [100 * valid / total] and lies
    between 0 and 100. *)
Lemma validation_rate_bounds valid total :
  (0 < total)%nat -> (valid <= total)%nat ->
  exists rate,
    validation_rate_of valid total = Ok rate /\
    rate == 100 * inject_Z (Z.of_nat valid) / inject_Z (Z.of_nat total) /\
    0 <= rate /\ rate <= 100.
Proof.
  intros Ht Hv. rewrite validation_rate_of_positive by exact Ht.
  eexists. split; [reflexivity |].
  assert (T : 0 < inject_Z (Z.of_nat total)).
  { change 0 with (inject_Z 0). rewrite <- Zlt_Qlt. lia. }
  assert (V0 : 0 <= inject_Z (Z.of_nat valid)).
  { change 0 with (inject_Z 0). rewrite <- Zle_Qle. lia. }
  assert (V1 : inject_Z (Z.of_nat valid) <= inject_Z (Z.of_nat total)).
  { rewrite <- Zle_Qle. lia. }
  split; [field; lra |].
  split.
  - apply Qmult_le_0_compat; [| lra].
    apply Qle_shift_div_l; [exact T | lra].
  - assert (E : inject_Z (Z.of_nat valid) / inject_Z (Z.of_nat total) <= 1).
    { apply Qle_shift_div_r; [exact T | lra]. }
    lra.
Qed.

Lemma silver_entry_empty source bronze_data clock i :
  schema_ok source (Bronze.data bronze_data) = true ->
  len (Bronze.data bronze_data) = O ->
  silver_entry source bronze_data clock i = Err ZeroDivisionError.
Proof.
  intros Hschema Hlen. unfold silver_entry, validate.
  destruct (String.eqb_spec source "sales_orders") as [-> | N1].
  - destruct (Bronze.data bronze_data) as [rows | | | | |]; try discriminate.
    cbv [bind clock_now ret lift]. rewrite Hlen. reflexivity.
  - destruct (String.eqb_spec source "financial_transactions") as [-> | N2].
    + destruct (Bronze.data bronze_data) as [| | rows | | |]; try discriminate.
      cbv [bind clock_now ret lift]. rewrite Hlen. reflexivity.
    + cbv [bind clock_now ret lift]. rewrite Hlen. reflexivity.
Qed.

(** Whatever else the bronze layer holds, one well-typed frame without rows
    stops the silver stage with [ZeroDivisionError]. *)
Lemma empty_frame_stops_silver clock (l : list (string * Bronze.t)) :
  (forall k e, In (k, e) l -> schema_ok k (Bronze.data e) = true) ->
  (exists k e, In (k, e) l /\ len (Bronze.data e) = O) ->
  forall self i, for_state l refine self clock i = Err ZeroDivisionError.
Proof.
  induction l as [| [k e] l IH]; intros Hschema (k0 & e0 & Hin & Hempty) self i.
  - destruct Hin.
  - cbn [for_state]. unfold bind at 1.
    destruct (Nat.eq_dec (len (Bronze.data e)) 0) as [Hz | Hnz].
    + unfold refine. cbv [bind clock_now].
      rewrite (silver_entry_empty k e clock (S i)
                 (Hschema k e (or_introl eq_refl)) Hz).
      reflexivity.
    + destruct (silver_entry_ready k e clock (S i) (Hschema k e (or_introl eq_refl)))
        as (entry & j & Hentry & _); [lia |].
      destruct (refine_ok self k e clock i entry j Hentry) as (self1 & Hstep & _).
      rewrite Hstep. apply IH.
      * intros k1 e1 H1. apply Hschema. right. exact H1.
      * destruct Hin as [E | Hin].
        -- injection E as <- <-. contradiction.
        -- exists k0, e0. split; assumption.
Qed.

(** C3 (the defect).  A source whose table has no rows makes the rate a
    division by zero: the run stops with [ZeroDivisionError], whatever the
    clock reads. *)
Theorem empty_source_stops_pipeline clock i :
  run_pipeline data_empty_items clock i = Err ZeroDivisionError.
Proof. reflexivity. Qed.

(** ** Two runs on the same tables *)

Lemma dict_set_map_values {V W} (f : V -> W) (d : dict V) k v :
  map_values f (dict_set d k v) = dict_set (map_values f d) k (f v).
Proof.
  unfold map_values. induction d as [| [k' v'] d IH]; simpl.
  - reflexivity.
  - destruct (k' =? k)%string; simpl; [reflexivity | rewrite IH; reflexivity].
Qed.

Lemma dict_get_map_values {V W} (f : V -> W) (d : dict V) k :
  dict_get (map_values f d) k = option_map f (dict_get d k).
Proof.
  unfold map_values. induction d as [| [k' v'] d IH]; simpl.
  - reflexivity.
  - destruct (k' =? k)%string; [reflexivity | exact IH].
Qed.

Lemma dict_in_map_values {V W} (f : V -> W) (d : dict V) k :
  dict_in k (map_values f d) = dict_in k d.
Proof.
  unfold dict_in. rewrite dict_get_map_values.
  destruct (dict_get d k); reflexivity.
Qed.

Lemma dict_set_Forall {V} (P : string * V -> Prop) (d : dict V) k v :
  Forall P d -> P (k, v) -> Forall P (dict_set d k v).
Proof.
  intros Hd Hv. induction Hd as [| [k' v'] d Hx Hd IH]; simpl.
  - constructor; [exact Hv | constructor].
  - destruct (k' =? k)%string eqn:E.
    + apply String.eqb_eq in E. subst k'. constructor; assumption.
    + constructor; assumption.
Qed.

Lemma bind_rel {A B} (RA : A -> A -> Prop) (RB : B -> B -> Prop)
    (m1 m2 : Run A) (k1 k2 : A -> Run B) c1 c2 i1 i2 :
  res_rel RA (m1 c1 i1) (m2 c2 i2) ->
  (forall a b j1 j2, RA a b -> res_rel RB (k1 a c1 j1) (k2 b c2 j2)) ->
  res_rel RB (bind m1 k1 c1 i1) (bind m2 k2 c2 i2).
Proof.
  intros Hm Hk. unfold bind.
  destruct (m1 c1 i1) as [[a j1] | e1], (m2 c2 i2) as [[b j2] | e2]; simpl in Hm.
  - apply Hk. exact Hm.
  - contradiction.
  - contradiction.
  - exact Hm.
Qed.

Lemma for_state_rel {S A} (R : S -> S -> Prop) (Q : A -> A -> Prop)
    (body : S -> A -> Run S) c1 c2 :
  (forall st1 st2 x1 x2 i1 i2,
      R st1 st2 -> Q x1 x2 -> res_rel R (body st1 x1 c1 i1) (body st2 x2 c2 i2)) ->
  forall l1 l2, Forall2 Q l1 l2 ->
  forall st1 st2 i1 i2,
    R st1 st2 -> res_rel R (for_state l1 body st1 c1 i1) (for_state l2 body st2 c2 i2).
Proof.
  intros Hbody l1 l2 Hl. induction Hl as [| x1 x2 l1 l2 Hx Hl IH]; intros st1 st2 i1 i2 HR.
  - exact HR.
  - cbn [for_state]. eapply bind_rel.
    + apply Hbody; eassumption.
    + intros a b j1 j2 Hab. apply IH. exact Hab.
Qed.

(** *** Bronze *)

Lemma ingest_rel c1 c2 p1 p2 source df i1 i2 :
  same_values c1 c2 p1 p2 -> clocks_agree c1 c2 df ->
  res_rel (same_values c1 c2) (ingest p1 (source, df) c1 i1) (ingest p2 (source, df) c2 i2).
Proof.
  intros (Hb & Ha & Hs & Hg) Hdf. unfold ingest. cbv [bind clock_now ret res_rel].
  unfold same_values, bronze_frames, silver_values in *. simpl.
  rewrite !dict_set_map_values. simpl. rewrite Hb.
  split; [reflexivity |]. split; [| split; assumption].
  rewrite <- Hb. apply dict_set_Forall; assumption.
Qed.

Lemma process_to_bronze_rel c1 c2 p1 p2 item i1 i2 :
  same_values c1 c2 p1 p2 -> clocks_agree c1 c2 (snd item) ->
  res_rel (same_values c1 c2)
    (process_to_bronze p1 [item] c1 i1) (process_to_bronze p2 [item] c2 i2).
Proof.
  intros HR Hdf. unfold process_to_bronze. cbn [for_state].
  destruct item as [source df].
  eapply bind_rel.
  - apply ingest_rel; eassumption.
  - intros a b j1 j2 Hab. exact Hab.
Qed.

(** *** Silver *)

Lemma sales_orders_mask_agree c1 c2 rows n m :
  clocks_agree c1 c2 (SalesOrders rows) ->
  filter (sales_orders_invalid_mask (c1 n)) rows
  = filter (sales_orders_invalid_mask (c2 m)) rows /\
  filter (complement (sales_orders_invalid_mask (c1 n))) rows
  = filter (complement (sales_orders_invalid_mask (c2 m))) rows.
Proof.
  intros H. simpl in H.
  split; apply filter_ext_in; intros r Hr;
    unfold complement, sales_orders_invalid_mask; rewrite (H r n m Hr); reflexivity.
Qed.

Lemma silver_entry_rel c1 c2 source e1 e2 i1 i2 :
  Bronze.data e1 = Bronze.data e2 ->
  clocks_agree c1 c2 (Bronze.data e1) ->
  res_rel (fun s1 s2 => entry_values s1 = entry_values s2)
    (silver_entry source e1 c1 i1) (silver_entry source e2 c2 i2).
Proof.
  intros Hd Ha. unfold silver_entry, validate. rewrite <- Hd.
  destruct (source =? "sales_orders")%string.
  - destruct (Bronze.data e1) as [rows | | | | |]; try reflexivity.
    destruct (sales_orders_mask_agree c1 c2 rows i1 i2 Ha) as [E1 E2].
    cbv [bind clock_now ret lift res_rel]. rewrite E1, E2.
    destruct (validation_rate_of _ _); reflexivity.
  - destruct (source =? "financial_transactions")%string.
    + destruct (Bronze.data e1) as [| | rows | | |]; try reflexivity.
      cbv [bind clock_now ret lift res_rel].
      destruct (validation_rate_of _ _); reflexivity.
    + cbv [bind clock_now ret lift res_rel].
      destruct (validation_rate_of _ _); reflexivity.
Qed.

Lemma refine_rel c1 c2 p1 p2 source e1 e2 i1 i2 :
  same_values c1 c2 p1 p2 ->
  Bronze.data e1 = Bronze.data e2 ->
  clocks_agree c1 c2 (Bronze.data e1) ->
  res_rel (same_values c1 c2) (refine p1 (source, e1) c1 i1) (refine p2 (source, e2) c2 i2).
Proof.
  intros (Hb & Ha & Hs & Hg) Hd Hagree. unfold refine.
  eapply bind_rel with (RA := fun _ _ => True); [exact I |].
  intros t1 t2 j1 j2 _.
  eapply bind_rel; [apply silver_entry_rel; eassumption |].
  intros s1 s2 k1 k2 Hentry. cbv [bind clock_now ret res_rel].
  unfold same_values, bronze_frames, silver_values in *. simpl.
  rewrite !dict_set_map_values, Hs, Hentry.
  repeat split; assumption.
Qed.

Lemma bronze_items_related c1 c2 (l1 l2 : dict Bronze.t) :
  map_values Bronze.data l1 = map_values Bronze.data l2 ->
  Forall (fun item => clocks_agree c1 c2 (snd item)) (map_values Bronze.data l1) ->
  Forall2 (fun x y => fst x = fst y /\ Bronze.data (snd x) = Bronze.data (snd y) /\
                      clocks_agree c1 c2 (Bronze.data (snd x))) l1 l2.
Proof.
  unfold map_values. revert l2.
  induction l1 as [| x l1 IH]; intros [| y l2] Heq Hall; simpl in *; try discriminate.
  - constructor.
  - injection Heq as Hk Hd Hrest. apply Forall_cons_iff in Hall as [Hx Hall'].
    constructor; [repeat split; assumption | apply IH; assumption].
Qed.

Lemma process_to_silver_rel c1 c2 p1 p2 i1 i2 :
  same_values c1 c2 p1 p2 ->
  res_rel (same_values c1 c2) (process_to_silver p1 c1 i1) (process_to_silver p2 c2 i2).
Proof.
  intros HR. unfold process_to_silver.
  eapply for_state_rel with
    (Q := fun x y => fst x = fst y /\ Bronze.data (snd x) = Bronze.data (snd y) /\
                     clocks_agree c1 c2 (Bronze.data (snd x))).
  - intros st1 st2 [k1 e1] [k2 e2] j1 j2 Hst (Hk & Hd & Ha). simpl in Hk, Hd, Ha.
    subst k2. apply refine_rel; assumption.
  - destruct HR as (Hb & Ha & _). apply bronze_items_related; assumption.
  - exact HR.
Qed.

(** *** Gold *)

Lemma silver_data_values p source :
  silver_data p source
  = option_map (fun v => fst (fst v)) (dict_get (silver_values p) source).
Proof.
  unfold silver_data, silver_values. rewrite dict_get_map_values.
  destruct (dict_get (silver_layer p) source); reflexivity.
Qed.

Lemma all_in_values p names :
  all_in names (silver_layer p) = all_in names (silver_values p).
Proof.
  unfold all_in, silver_values.
  induction names as [| k names IH]; simpl; [reflexivity |].
  rewrite IH, dict_in_map_values. reflexivity.
Qed.

Lemma sales_analysis_values p1 p2 gold :
  silver_values p1 = silver_values p2 ->
  sales_analysis p1 gold = sales_analysis p2 gold.
Proof.
  intros H. unfold sales_analysis.
  rewrite !all_in_values, !silver_data_values, H. reflexivity.
Qed.

Lemma inventory_analysis_values p1 p2 gold :
  silver_values p1 = silver_values p2 ->
  inventory_analysis p1 gold = inventory_analysis p2 gold.
Proof.
  intros H. unfold inventory_analysis.
  rewrite !all_in_values, !silver_data_values, H. reflexivity.
Qed.

Lemma process_to_gold_rel c1 c2 p1 p2 i1 i2 :
  same_values c1 c2 p1 p2 ->
  res_rel (same_values c1 c2) (process_to_gold p1 c1 i1) (process_to_gold p2 c2 i2).
Proof.
  intros (Hb & Ha & Hs & Hg). unfold process_to_gold.
  cbv [bind clock_now ret lift].
  rewrite (sales_analysis_values p1 p2 _ Hs), Hg.
  destruct (sales_analysis p2 (gold_layer p2)) as [gold1 | e]; [| reflexivity].
  rewrite (inventory_analysis_values p1 p2 _ Hs).
  destruct (inventory_analysis p2 gold1) as [gold2 | e]; [| reflexivity].
  simpl. unfold same_values, bronze_frames, silver_values in *. simpl.
  repeat split; assumption.
Qed.

Lemma run_pipeline_rel c1 c2 data i1 i2 :
  (forall source df, In (source, df) data -> clocks_agree c1 c2 df) ->
  res_rel (same_values c1 c2) (run_pipeline data c1 i1) (run_pipeline data c2 i2).
Proof.
  intros Hagree. unfold run_pipeline.
  eapply bind_rel.
  - eapply for_state_rel with (Q := fun x y => x = y /\ clocks_agree c1 c2 (snd x)).
    + intros st1 st2 x1 x2 j1 j2 Hst [<- Hx]. apply process_to_bronze_rel; assumption.
    + clear i1 i2. induction data as [| [source df] data IH]; constructor.
      * split; [reflexivity |]. apply (Hagree source df). left. reflexivity.
      * apply IH. intros s d Hin. apply (Hagree s d). right. exact Hin.
    + repeat split. constructor.
  - intros p1 p2 j1 j2 Hp. eapply bind_rel.
    + apply process_to_silver_rel. exact Hp.
    + intros q1 q2 k1 k2 Hq. apply process_to_gold_rel. exact Hq.
Qed.

(** C5 (amended).  Two runs of the pipeline on the same tables leave the
    same valid and invalid partitions, counts and rates for every source and
    the same gold views, or stop with the same exception, provided that no
    order date of the [sales_orders] table lies between a clock reading of
    one run and a clock reading of the other.  The clock enters the values
    only through the future-date rule of [sales_orders]. *)
Theorem pipeline_repeatable data clock1 clock2 i1 i2 :
  (forall source df, In (source, df) data -> clocks_agree clock1 clock2 df) ->
  output_values (run_pipeline data clock1 i1) = output_values (run_pipeline data clock2 i2).
Proof.
  intros Hagree.
  pose proof (run_pipeline_rel clock1 clock2 data i1 i2 Hagree) as H.
  unfold res_rel in H. unfold output_values.
  destruct (run_pipeline data clock1 i1) as [[p1 j1] | e1],
           (run_pipeline data clock2 i2) as [[p2 j2] | e2]; try contradiction.
  - destruct H as (_ & _ & Hs & Hg). rewrite Hs, Hg. reflexivity.
  - rewrite H. reflexivity.
Qed.

Lemma clocks_agree_example source df :
  In (source, df) data_sales -> clocks_agree standing_clock later_clock df.
Proof.
  intros H. unfold data_sales in H.
  destruct H as [H | [H | [H | []]]]; injection H as <- <-; simpl; [| exact I | exact I].
  intros r n m [<- | [<- | []]]; reflexivity.
Defined.

Lemma pipeline_repeatable_witness :
  output_values (run_pipeline data_sales standing_clock 0%nat)
  = output_values (run_pipeline data_sales later_clock 0%nat).
Proof.
  apply (pipeline_repeatable data_sales standing_clock later_clock 0%nat 0%nat).
  apply clocks_agree_example.
Defined.

(** C5, as stated, fails: an order dated 2024-01-02 is invalid for a run on
    2024-01-01 and valid for a run on 2024-02-01, and the sales view of the
    second run has a department the first has not. *)
Lemma pipeline_depends_on_clock :
  exists p1 j1 p2 j2,
    run_pipeline data_dated_between standing_clock 0%nat = Ok (p1, j1) /\
    run_pipeline data_dated_between later_clock 0%nat = Ok (p2, j2) /\
    option_map Silver.invalid_records (dict_get (silver_layer p1) "sales_orders")
    = Some (Rows (SalesOrders [order_row "SO00000002" 19724 (Some "HR"%string)])) /\
    option_map Silver.invalid_records (dict_get (silver_layer p2) "sales_orders")
    = Some (Rows (SalesOrders [])) /\
    option_map (fun v => match v with SalesMetrics rows => List.length rows | _ => O end)
      (dict_get (gold_layer p1) "sales_metrics") = Some 1%nat /\
    option_map (fun v => match v with SalesMetrics rows => List.length rows | _ => O end)
      (dict_get (gold_layer p2) "sales_metrics") = Some 2%nat.
Proof.
  eexists _, _, _, _.
  split; [vm_compute; reflexivity |]. split; [vm_compute; reflexivity |].
  repeat split; vm_compute; reflexivity.
Qed.

(** ** Further lemmas on the random source *)

Lemma string_length_append (a b : string) :
  String.length (a ++ b) = (String.length a + String.length b)%nat.
Proof.
  induction a as [| c a IH]; simpl; [reflexivity | rewrite IH; reflexivity].
Qed.

Lemma hex_digits_length k n : String.length (hex_digits k n) = k.
Proof.
  revert n. induction k as [| k IH]; intros n; simpl.
  - reflexivity.
  - rewrite string_length_append, IH. simpl. lia.
Qed.

Lemma uuid4_8_length s i id j :
  uuid4_8 s i = Ok (id, j) -> String.length id = 8%nat.
Proof.
  unfold uuid4_8. intros H. apply bind_ok in H as (r & i1 & _ & H).
  apply ret_ok in H as [-> _]. apply hex_digits_length.
Qed.

Lemma round_half_even_bounds (q : Q) (a b : Z) :
  inject_Z a <= q -> q <= inject_Z b ->
  (a <= round_half_even q <= b)%Z.
Proof.
  intros Ha Hb. unfold round_half_even.
  assert (Hfa : (a <= Qfloor q)%Z).
  { rewrite <- (Qfloor_Z a). apply Qfloor_resp_le. exact Ha. }
  assert (Hfb : (Qfloor q <= b)%Z).
  { rewrite <- (Qfloor_Z b). apply Qfloor_resp_le. exact Hb. }
  pose proof (Qfloor_le q) as Hf.
  destruct (q - inject_Z (Qfloor q) ?= 1 # 2) eqn:E.
  - apply Qeq_alt in E.
    destruct (Z.even (Qfloor q)); [lia |].
    assert (Hlt : (Qfloor q < b)%Z).
    { rewrite Zlt_Qlt. lra. }
    lia.
  - lia.
  - apply Qgt_alt in E.
    assert (Hlt : (Qfloor q < b)%Z).
    { rewrite Zlt_Qlt. lra. }
    lia.
Qed.

(** Rounding to cents keeps a value between two whole bounds. *)
Lemma round2_bounds (q : Q) (a b : Z) :
  inject_Z a <= q -> q <= inject_Z b ->
  inject_Z a <= round2 q /\ round2 q <= inject_Z b.
Proof.
  intros Ha Hb.
  destruct (round_half_even_bounds (q * 100) (a * 100) (b * 100)) as [H1 H2].
  - rewrite inject_Z_mult. change (inject_Z 100) with 100. lra.
  - rewrite inject_Z_mult. change (inject_Z 100) with 100. lra.
  - unfold round2. rewrite Qmake_100.
    rewrite Zle_Qle in H1, H2. rewrite inject_Z_mult in H1, H2.
    change (inject_Z 100) with 100 in H1, H2. split; lra.
Qed.

Lemma repeat_gen_length {E A} (body : Eff E A) (s : E) n :
  forall i xs j, repeat_gen n body s i = Ok (xs, j) -> List.length xs = n.
Proof.
  induction n as [| n IH]; intros i xs j H; simpl in H.
  - apply ret_ok in H as [-> _]. reflexivity.
  - apply bind_ok in H as (x & i1 & _ & H).
    apply bind_ok in H as (rest & i2 & Hrest & H).
    apply ret_ok in H as [-> _]. simpl. f_equal. eapply IH. exact Hrest.
Qed.

Lemma total_repeat_gen {E A} (body : Eff E A) n : total body -> total (repeat_gen n body).
Proof.
  intros Hbody. induction n as [| n IH]; simpl.
  - apply total_ret.
  - apply total_bind; [exact Hbody | intros x].
    apply total_bind; [exact IH | intros xs]. apply total_ret.
Qed.

Lemma sample_length {A} (n : nat) :
  forall (rows : list A) s i l j, sample n rows s i = Ok (l, j) -> List.length l = n.
Proof.
  induction n as [| n IH]; intros rows s i l j H; simpl in H.
  - apply ret_ok in H as [-> _]. reflexivity.
  - destruct rows as [| x rows']; [discriminate |].
    apply bind_ok in H as (r & i1 & _ & H).
    apply bind_ok in H as (rest & i2 & Hrest & H).
    apply ret_ok in H as [-> _]. simpl. f_equal. eapply IH. exact Hrest.
Qed.

Lemma sample_empty {A} n s i :
  @sample A (S n) [] s i = Err sample_error.
Proof. reflexivity. Qed.

(** A valid draw selects a position of the list. *)
Lemma draw_index (r : Q) (n : nat) :
  0 <= r -> r < 1 -> (0 < n)%nat ->
  (Z.to_nat (Qfloor (r * inject_Z (Z.of_nat n))) < n)%nat.
Proof.
  intros H0 H1 Hn.
  assert (Hq : 0 < inject_Z (Z.of_nat n)).
  { change 0 with (inject_Z 0). rewrite <- Zlt_Qlt. lia. }
  assert (Hlo : (0 <= Qfloor (r * inject_Z (Z.of_nat n)))%Z).
  { change 0%Z with (Qfloor (inject_Z 0)). apply Qfloor_resp_le.
    change (inject_Z 0) with 0. nra. }
  assert (Hhi : (Qfloor (r * inject_Z (Z.of_nat n)) < Z.of_nat n)%Z).
  { apply Qfloor_lt. nra. }
  lia.
Qed.

Lemma length_remove_nth {A} (k : nat) (rows : list A) :
  (k < List.length rows)%nat ->
  List.length (firstn k rows ++ skipn (S k) rows) = pred (List.length rows).
Proof.
  intros H. rewrite length_app, length_firstn, length_skipn. lia.
Qed.

(** With valid draws, a sample no larger than the frame is delivered. *)
Lemma sample_ok {A} (n : nat) s :
  valid_source s ->
  forall (rows : list A) i,
    (n <= List.length rows)%nat -> exists l j, sample n rows s i = Ok (l, j).
Proof.
  intros V. induction n as [| n IH]; intros rows i Hn; cbn [sample].
  - eexists _, _. reflexivity.
  - destruct rows as [| x rows']; [simpl in Hn; lia |].
    unfold bind, random_random, ret. cbv beta iota zeta.
    set (k := Z.to_nat (Qfloor (uniform_src s i * inject_Z (Z.of_nat (List.length (x :: rows')))))).
    assert (Hk : (k < List.length (x :: rows'))%nat).
    { apply draw_index; [apply V | apply V | simpl; lia]. }
    destruct (IH (firstn k (x :: rows') ++ skipn (S k) (x :: rows')) (S i))
      as (l & j & Hl).
    { rewrite length_remove_nth by exact Hk. simpl in *. lia. }
    rewrite Hl. eexists _, _. reflexivity.
Qed.

Lemma weighted_in {A} (l : list (A * Q)) :
  forall (d : A) r, In (weighted d l r) (d :: map fst l).
Proof.
  induction l as [| [a p] l IH]; intros d r; simpl.
  - left. reflexivity.
  - destruct (Qlt_bool r p).
    + right. left. reflexivity.
    + right. apply IH.
Qed.

Lemma np_random_choice_in {A} (l : list (A * Q)) s i x j :
  np_random_choice l s i = Ok (x, j) -> In x (map fst l).
Proof.
  destruct l as [| [a p] l]; simpl; [discriminate |].
  intros H. apply bind_ok in H as (r & i1 & _ & H).
  apply ret_ok in H as [-> _].
  destruct (Qlt_bool r p); [left; reflexivity |].
  apply (weighted_in l a (r - p)).
Qed.



Lemma total_post {E A B} (m : Eff E A) (k : A -> Eff E B) (P : A -> Prop) :
  (forall s i, exists a j, m s i = Ok (a, j) /\ P a) ->
  (forall a, P a -> total (k a)) ->
  total (bind m k).
Proof.
  intros Hm Hk s i. destruct (Hm s i) as (a & j & Ha & HP).
  destruct (Hk a HP s j) as (b & j' & Hb).
  exists b, j'. unfold bind. rewrite Ha. exact Hb.
Qed.

(** *** Computations that return a value with a property *)

Lemma returns_ret {A} s (a : A) (P : A -> Prop) : P a -> returns s (ret a) P.
Proof. intros H i. exists a, i. split; [reflexivity | exact H]. Qed.

Lemma returns_bind {A B} s (m : Gen A) (k : A -> Gen B) (Q : A -> Prop) (P : B -> Prop) :
  returns s m Q -> (forall a, Q a -> returns s (k a) P) -> returns s (bind m k) P.
Proof.
  intros Hm Hk i. destruct (Hm i) as (a & j & Ha & HQ).
  destruct (Hk a HQ j) as (b & j' & Hb & HP).
  exists b, j'. unfold bind. rewrite Ha. split; assumption.
Qed.

Lemma returns_random s :
  valid_source s -> returns s random_random (fun r => 0 <= r /\ r < 1).
Proof. intros V i. eexists _, _. split; [reflexivity | apply V]. Qed.

Lemma returns_randint s a b :
  valid_source s -> (a <= b)%Z ->
  returns s (random_randint a b) (fun z => (a <= z <= b)%Z).
Proof.
  intros V Hab i.
  destruct (total_random_randint a b Hab s i) as (z & j & H).
  exists z, j. split; [exact H |].
  eapply random_randint_range; eassumption.
Qed.

Lemma returns_choice {A} s (x : A) xs :
  returns s (random_choice (x :: xs)) (fun y => In y (x :: xs)).
Proof.
  intros i. destruct (total_random_choice x xs s i) as (y & j & H).
  exists y, j. split; [exact H |]. eapply random_choice_in. exact H.
Qed.

Lemma returns_total {A} s (m : Gen A) : total m -> returns s m (fun _ => True).
Proof.
  intros H i. destruct (H s i) as (a & j & Ha). exists a, j. split; [exact Ha | exact I].
Qed.

Lemma returns_sample {A} s n (rows : list A) :
  valid_source s -> (n <= List.length rows)%nat ->
  returns s (sample n rows) (fun l => List.length l = n /\ incl l rows).
Proof.
  intros V Hn i. destruct (sample_ok n s V rows i Hn) as (l & j & H).
  exists l, j. split; [exact H |]. split.
  - eapply sample_length. exact H.
  - eapply sample_incl. exact H.
Qed.

Lemma returns_for_each_singletons {A B} s (body : A -> Gen (list B)) (P : B -> Prop) l :
  (forall x, In x l -> returns s (body x) (fun rows => exists y, rows = [y] /\ P y)) ->
  returns s (for_each l body)
    (fun rows => List.length rows = List.length l /\ Forall P rows).
Proof.
  induction l as [| x l IH]; intros Hbody; cbn [for_each].
  - apply returns_ret. split; [reflexivity | constructor].
  - eapply returns_bind; [apply Hbody; left; reflexivity |].
    intros rows (y & -> & Hy).
    eapply returns_bind; [apply IH; intros z Hz; apply Hbody; right; exact Hz |].
    intros rest [Hlen Hall]. apply returns_ret. simpl.
    split; [lia | constructor; assumption].
Qed.

(** ** Inventory transactions *)

Lemma sample_one {A} (x : A) (xs : list A) s i :
  exists y, In y (x :: xs) /\ sample 1 (x :: xs) s i = Ok ([y], S i).
Proof.
  cbn [sample]. unfold bind, random_random, ret. cbv beta iota zeta.
  eexists. split; [| reflexivity].
  set (k := Z.to_nat _).
  destruct (Nat.lt_ge_cases k (List.length (x :: xs))) as [Hk | Hk].
  - apply nth_In. exact Hk.
  - rewrite nth_overflow by exact Hk. left. reflexivity.
Qed.

Lemma draw_quantity_range trans_type s i q j :
  valid_source s ->
  In trans_type transaction_types ->
  draw_quantity trans_type s i = Ok (q, j) ->
  quantity_in_range trans_type q.
Proof.
  intros V Hin H. unfold quantity_in_range.
  simpl in Hin. destruct Hin as [<- | [<- | [<- | [<- | []]]]];
    unfold draw_quantity in H; simpl in H.
  - apply (random_randint_range _ _ _ _ _ _ V) in H. left. split; [reflexivity | lia].
  - apply bind_ok in H as (x & i1 & Hx & H). apply ret_ok in H as [-> _].
    apply (random_randint_range _ _ _ _ _ _ V) in Hx.
    right. left. split; [reflexivity | lia].
  - apply (random_randint_range _ _ _ _ _ _ V) in H.
    right. right. left. split; [reflexivity | lia].
  - apply (random_randint_range _ _ _ _ _ _ V) in H.
    right. right. right. split; [reflexivity | lia].
Qed.

Lemma generate_inventory_transaction_ok self s i t j :
  valid_source s ->
  generate_inventory_transaction self s i = Ok (t, j) ->
  inventory_row_ok self t.
Proof.
  intros V H. unfold generate_inventory_transaction in H.
  apply bind_ok in H as (sampled & i1 & Hsample & H).
  apply sample_incl in Hsample.
  destruct sampled as [| product rest]; [discriminate |].
  assert (Hp : In product (products self)) by (apply Hsample; left; reflexivity).
  apply bind_ok in H as (trans_type & i2 & Htype & H).
  apply random_choice_in in Htype.
  apply bind_ok in H as (r & i3 & _ & H).
  destruct (if Qlt_bool r (error_rate self) then (None, None)
            else (Some (Product.product_id product),
                  Some (Product.unit_price product * (7 # 10))))
    as [product_id unit_cost] eqn:Epair.
  apply bind_ok in H as (quantity & i4 & Hq & H).
  apply (draw_quantity_range _ _ _ _ _ V Htype) in Hq.
  apply bind_ok in H as (tid & i5 & _ & H).
  apply bind_ok in H as (date & i6 & Hdate & H).
  apply (random_randint_range _ _ _ _ _ _ V) in Hdate.
  apply bind_ok in H as (location & i7 & Hloc & H).
  apply random_choice_in in Hloc.
  apply bind_ok in H as (reference & i8 & _ & H).
  apply bind_ok in H as (status & i9 & Hstatus & H).
  apply random_choice_in in Hstatus.
  apply ret_ok in H as [-> _].
  unfold inventory_row_ok. simpl.
  split; [exact Hq |]. split.
  - destruct (Qlt_bool r (error_rate self)); injection Epair as <- <-.
    + left. split; reflexivity.
    + right. exists product. repeat split. exact Hp.
  - repeat split; try assumption; lia.
Qed.


(** X2.  Without a product row [generate_inventory_transactions] stops at
    its first iteration: sampling the empty product frame raises
    [ValueError]. *)
Theorem inventory_needs_products self n s i :
  products self = [] ->
  generate_inventory_transactions self (S n) s i = Err sample_error.
Proof.
  intros H. unfold generate_inventory_transactions. cbn [repeat_gen].
  unfold bind at 1, generate_inventory_transaction. rewrite H. reflexivity.
Qed.


Lemma inventory_needs_products_witness :
  generate_inventory_transactions empty_generator 1 (tape [] 20000) 0%nat
  = Err sample_error.
Proof.
  apply (inventory_needs_products empty_generator 0 (tape [] 20000) 0%nat).
  reflexivity.
Defined.

(** ** Sales orders *)

Lemma generate_sales_order_well_formed self s i o j :
  valid_source s ->
  generate_sales_order self s i = Ok (o, j) -> order_well_formed self o.
Proof.
  intros V H. unfold generate_sales_order in H.
  apply bind_ok in H as (order_date & i1 & Hdate & H).
  apply (random_randint_range _ _ _ _ _ _ V) in Hdate.
  apply bind_ok in H as (sampled & i2 & Hsample & H).
  apply sample_incl in Hsample.
  destruct sampled as [| customer rest]; [discriminate |].
  assert (Hc : In customer (customers self)) by (apply Hsample; left; reflexivity).
  apply bind_ok in H as (r & i3 & _ & H).
  destruct (if Qlt_bool r (error_rate self * (1 # 2))
            then (None, None, None, None)
            else (Some (Customer.customer_id customer), Some (Customer.address customer),
                  Some (Customer.city customer), Some (Customer.postal_code customer)))
    as [[[customer_id shipping_address] shipping_city] shipping_postal_code] eqn:Egroup.
  apply bind_ok in H as (oid & i4 & _ & H).
  apply bind_ok in H as (status & i5 & Hstatus & H).
  apply np_random_choice_in in Hstatus.
  apply bind_ok in H as (shipping & i6 & Hship & H).
  apply random_choice_in in Hship.
  apply bind_ok in H as (days & i7 & Hdays & H).
  apply (random_randint_range _ _ _ _ _ _ V) in Hdays.
  apply ret_ok in H as [-> _].
  unfold order_well_formed. simpl.
  split; [exact Hdate |]. split; [lia |].
  split; [exact Hstatus |]. split; [exact Hship |].
  exists customer. split; [exact Hc |]. split; [reflexivity |]. split; [reflexivity |].
  destruct (Qlt_bool r (error_rate self * (1 # 2)));
    injection Egroup as <- <- <- <-; [left | right]; repeat split.
Qed.





Lemma generate_sales_order_total self :
  customers self <> [] ->
  (start_date self <= end_date self)%Z ->
  total (generate_sales_order self).
Proof.
  intros Hc Hdates. unfold generate_sales_order.
  destruct (customers self) as [| c cs]; [contradiction |].
  apply total_bind.
  { unfold fake_date_time_between. apply total_random_randint. exact Hdates. }
  intros order_date.
  apply total_post with (P := fun l => exists y, l = [y]).
  - intros s i. destruct (sample_one c cs s i) as (y & _ & Hy).
    exists [y], (S i). split; [exact Hy | exists y; reflexivity].
  - intros l [y ->].
    apply total_bind; [apply total_random_random | intros r].
    destruct (if Qlt_bool r (error_rate self * (1 # 2))
              then (None, None, None, None)
              else (Some (Customer.customer_id y), Some (Customer.address y),
                    Some (Customer.city y), Some (Customer.postal_code y)))
      as [[[customer_id shipping_address] shipping_city] shipping_postal_code].
    apply total_bind; [apply total_uuid4_8 | intros oid].
    apply total_bind.
    { intros s i. eexists _, _. reflexivity. }
    intros status. repeat total_step.
Qed.

(** X5.  With at least one customer and a date range that is not empty,
    [generate_sales_orders] returns, for every random source, exactly
    [num_orders] orders. *)
Theorem sales_orders_returned self n s i :
  customers self <> [] ->
  (start_date self <= end_date self)%Z ->
  exists orders j,
    generate_sales_orders self n s i = Ok (orders, j) /\ List.length orders = n.
Proof.
  intros Hc Hdates.
  destruct (total_repeat_gen _ n (generate_sales_order_total self Hc Hdates) s i)
    as (orders & j & H).
  exists orders, j. split; [exact H |].
  eapply repeat_gen_length. exact H.
Qed.

Lemma sales_orders_returned_witness :
  exists orders j,
    generate_sales_orders example_generator 4 (tape [] 20000) 0%nat = Ok (orders, j) /\
    List.length orders = 4%nat.
Proof.
  apply (sales_orders_returned example_generator 4 (tape [] 20000) 0%nat).
  - discriminate.
  - vm_compute. discriminate.
Defined.

(** ** Master data *)

Lemma category_price_range category :
  In category product_categories ->
  exists lo hi : Z,
    snd (category_properties category) = (inject_Z lo, inject_Z hi) /\ (lo <= hi)%Z.
Proof.
  intros H. simpl in H.
  destruct H as [<- | [<- | [<- | [<- | [<- | []]]]]].
  - exists 500%Z, 2000%Z. split; [reflexivity | lia].
  - exists 5%Z, 50%Z. split; [reflexivity | lia].
  - exists 100%Z, 1000%Z. split; [reflexivity | lia].
  - exists 50%Z, 500%Z. split; [reflexivity | lia].
  - exists 10%Z, 200%Z. split; [reflexivity | lia].
Qed.

Lemma generate_product_well_formed rate s i p j :
  valid_source s ->
  generate_product rate s i = Ok (p, j) -> product_well_formed p.
Proof.
  intros V H. unfold generate_product in H.
  apply bind_ok in H as (category & i1 & Hcat & H).
  apply random_choice_in in Hcat.
  destruct (category_price_range category Hcat) as (zlo & zhi & Hrange & Hle).
  destruct (category_properties category) as [name_parts [lo hi]] eqn:Eprops.
  simpl in Hrange. injection Hrange as -> ->.
  apply bind_ok in H as (r & i2 & _ & H).
  apply bind_ok in H as (stock & i3 & Hstock & H).
  destruct stock as [[min_stock max_stock] supplier_id].
  apply bind_ok in H as (pid & i4 & Hpid & H).
  apply uuid4_8_length in Hpid.
  apply bind_ok in H as (part & i5 & _ & H).
  apply bind_ok in H as (number & i6 & _ & H).
  apply bind_ok in H as (price & i7 & Hprice & H).
  apply (random_uniform_range _ _ _ _ _ _ V) in Hprice;
    [| rewrite <- Zle_Qle; exact Hle].
  apply bind_ok in H as (lead & i8 & Hlead & H).
  apply (random_randint_range _ _ _ _ _ _ V) in Hlead.
  apply ret_ok in H as [-> _].
  destruct (round2_bounds price zlo zhi) as [Hlo Hhi]; [tauto | tauto |].
  unfold product_well_formed. simpl. rewrite Eprops. simpl.
  split; [exact Hcat |]. split; [exact Hlo |]. split; [exact Hhi |].
  split; [apply round2_idem |]. split.
  - destruct (Qlt_bool r rate).
    + apply ret_ok in Hstock as [E _]. injection E as -> -> ->.
      left. repeat split.
    + apply bind_ok in Hstock as (a & k1 & Ha & Hstock).
      apply bind_ok in Hstock as (b & k2 & Hb & Hstock).
      apply bind_ok in Hstock as (sid & k3 & Hsid & Hstock).
      apply ret_ok in Hstock as [E _]. injection E as -> -> ->.
      apply (random_randint_range _ _ _ _ _ _ V) in Ha, Hb.
      apply uuid4_8_length in Hsid.
      right. exists a, b, ("S" ++ sid)%string.
      repeat split; try lia. simpl. rewrite Hsid. reflexivity.
  - split; [exact Hlead |]. simpl. rewrite Hpid. reflexivity.
Qed.

(** X6.  Each product returned by [_generate_product_master_data] has
    one of the five categories, a price with two decimals inside the price
    range of its category, the three stock cells either all missing or all
    present (minimum 10 to 50, maximum 100 to 500, a supplier id of nine
    characters), a lead time of 1 to 30 days and an id of nine characters;
    there are exactly [num_products] of them.  (Faker's check that product
    numbers are unused, and the exception it raises when it finds none, are
    outside the model: the statement is about the runs that return.) *)
Theorem products_well_formed rate n s i ps j :
  valid_source s ->
  _generate_product_master_data rate n s i = Ok (ps, j) ->
  List.length ps = n /\ Forall product_well_formed ps.
Proof.
  intros V H. unfold _generate_product_master_data in H. split.
  - eapply repeat_gen_length. exact H.
  - eapply repeat_gen_Forall; [| exact H].
    intros. eapply generate_product_well_formed; eassumption.
Qed.

Lemma products_well_formed_witness :
  List.length (products small_generator) = 1%nat /\
  Forall product_well_formed (products small_generator).
Proof.
  apply (products_well_formed (15 # 100) 1 (tape [] 20000) 0%nat
           (products small_generator) 10%nat).
  - apply valid_draws. reflexivity.
  - vm_compute. reflexivity.
Defined.





(** ** Order items *)

Lemma generate_order_item_well_formed self sales_orders order product s i rows j :
  valid_source s ->
  In order sales_orders ->
  In product (products self) ->
  generate_order_item self order product s i = Ok (rows, j) ->
  Forall (item_well_formed self sales_orders) rows /\ (List.length rows <= 1)%nat.
Proof.
  intros V Ho Hp H. unfold generate_order_item in H.
  apply bind_ok in H as (r & i1 & _ & H).
  destruct (Qlt_bool r (error_rate self * (1 # 10))).
  { apply ret_ok in H as [-> _]. split; [constructor | simpl; lia]. }
  apply bind_ok in H as (qty & i2 & Hqty & H).
  apply bind_ok in H as (disc & i3 & Hdisc & H).
  apply bind_ok in H as (r' & i4 & _ & H).
  apply bind_ok in H as (price & i5 & _ & H).
  apply ret_ok in H as [-> _].
  apply (random_randint_range _ _ _ _ _ _ V) in Hqty.
  apply random_choice_in in Hdisc.
  split; [| simpl; lia].
  constructor; [| constructor].
  unfold item_well_formed. simpl.
  split; [exists order; split; [exact Ho | reflexivity] |].
  split; [exists product; split; [exact Hp | reflexivity] |].
  split; [exact Hqty |]. split.
  - simpl in Hdisc. simpl. tauto.
  - split; apply round2_idem.
Qed.

Lemma generate_items_of_order_well_formed self sales_orders items_per_order order
    s i rows j :
  valid_source s ->
  In order sales_orders ->
  generate_items_of_order self items_per_order order s i = Ok (rows, j) ->
  Forall (item_well_formed self sales_orders) rows.
Proof.
  intros V Ho Hbody. unfold generate_items_of_order in Hbody.
  apply bind_ok in Hbody as (r & i2 & _ & Hbody).
  destruct (Qlt_bool r (error_rate self * (3 # 10))).
  { apply ret_ok in Hbody as [-> _]. constructor. }
  apply bind_ok in Hbody as (num_items & i3 & _ & Hbody).
  destruct (num_items <? 0)%Z; [discriminate |].
  apply bind_ok in Hbody as (selected & i4 & Hsel & Hbody).
  apply sample_incl in Hsel.
  eapply for_each_Forall; [| exact Hbody].
  intros product i5 rows' j5 Hp Hitem.
  eapply generate_order_item_well_formed; try eassumption.
  apply Hsel. exact Hp.
Qed.

(** X8.  Every item written by [generate_order_items] carries the order
    id of one of the given orders and the product id of one of the
    generator's products, a quantity of 1 to 10, a discount of 0, 5 or 10 per
    cent, and a unit price and a line total with two decimals. *)
Theorem order_items_well_formed self sales_orders items_per_order s i items j :
  valid_source s ->
  generate_order_items self sales_orders items_per_order s i = Ok (items, j) ->
  Forall (item_well_formed self sales_orders) items.
Proof.
  intros V H. unfold generate_order_items in H.
  eapply for_each_Forall; [| exact H].
  intros order i1 rows j1 Ho Hbody.
  eapply generate_items_of_order_well_formed; eassumption.
Qed.

Lemma order_items_well_formed_witness :
  Forall (item_well_formed example_generator [example_order]) [noisy_item].
Proof.
  apply (order_items_well_formed example_generator [example_order] (1, 5)%Z
           (tape noisy_item_draws 20000) 0%nat [noisy_item] 8%nat).
  - apply valid_draws. reflexivity.
  - vm_compute. reflexivity.
Defined.

Lemma never_below_zero_rate (rate c r : Q) :
  rate == 0 -> 0 <= r -> Qlt_bool r (rate * c) = false.
Proof.
  intros Hrate Hr. destruct (Qlt_bool r (rate * c)) eqn:E; [| reflexivity].
  apply Qlt_bool_iff in E. rewrite Hrate in E. lra.
Qed.

Lemma never_below_zero (rate r : Q) :
  rate == 0 -> 0 <= r -> Qlt_bool r rate = false.
Proof.
  intros Hrate Hr. destruct (Qlt_bool r rate) eqn:E; [| reflexivity].
  apply Qlt_bool_iff in E. rewrite Hrate in E. lra.
Qed.

(** With an error rate of 0 every candidate position becomes one item. *)
Lemma generate_order_item_kept self order product s :
  valid_source s -> error_rate self == 0 ->
  returns s (generate_order_item self order product)
    (fun rows => exists it, rows = [it] /\
                            OrderItem.order_id it = SalesOrder.order_id order).
Proof.
  intros V Hrate. unfold generate_order_item.
  eapply returns_bind; [apply returns_random; exact V |].
  intros r [Hr _]. rewrite (never_below_zero_rate _ _ _ Hrate Hr).
  eapply returns_bind; [apply returns_randint; [exact V | lia] |].
  intros quantity _.
  eapply returns_bind; [apply returns_choice |].
  intros discount _.
  eapply returns_bind; [apply returns_random; exact V |].
  intros r' [Hr' _]. rewrite (never_below_zero _ _ Hrate Hr').
  eapply returns_bind with (Q := fun _ => True); [apply returns_ret; exact I |].
  intros price _. apply returns_ret. eexists. split; reflexivity.
Qed.

Lemma generate_items_of_order_kept self lo hi order s :
  valid_source s -> error_rate self == 0 ->
  (0 <= lo <= hi)%Z -> (hi <= Z.of_nat (List.length (products self)))%Z ->
  returns s (generate_items_of_order self (lo, hi) order)
    (fun rows =>
       (lo <= Z.of_nat (List.length rows) <= hi)%Z /\
       Forall (fun it => OrderItem.order_id it = SalesOrder.order_id order) rows).
Proof.
  intros V Hrate Hlohi Hhi. unfold generate_items_of_order.
  eapply returns_bind; [apply returns_random; exact V |].
  intros r [Hr _]. rewrite (never_below_zero_rate _ _ _ Hrate Hr).
  cbn [fst snd].
  eapply returns_bind; [apply returns_randint; [exact V | lia] |].
  intros num Hnum. cbv beta in Hnum.
  destruct (num <? 0)%Z eqn:Eneg; [apply Z.ltb_lt in Eneg; lia |].
  eapply returns_bind; [apply returns_sample; [exact V | lia] |].
  intros selected [Hlen _].
  intros i.
  destruct (returns_for_each_singletons s (generate_order_item self order)
              (fun it => OrderItem.order_id it = SalesOrder.order_id order) selected
              (fun product _ => generate_order_item_kept self order product s V Hrate) i)
    as (rows & j & Hrows & Hrlen & Hall).
  exists rows, j. split; [exact Hrows |]. split; [lia | exact Hall].
Qed.

(** X9.  With an error rate of 0, valid draws and at least as many
    products as an order may hold, [generate_order_items] returns; no order
    and no position is skipped, so the number of items lies between the
    smallest and the largest number of items per order times the number of
    orders (1 to 5 per order by default). *)
Theorem order_items_counted self sales_orders lo hi s i :
  valid_source s ->
  error_rate self == 0 ->
  (0 <= lo <= hi)%Z ->
  (hi <= Z.of_nat (List.length (products self)))%Z ->
  exists items j,
    generate_order_items self sales_orders (lo, hi) s i = Ok (items, j) /\
    (lo * Z.of_nat (List.length sales_orders) <= Z.of_nat (List.length items)
     <= hi * Z.of_nat (List.length sales_orders))%Z.
Proof.
  intros V Hrate Hlohi Hhi. unfold generate_order_items. revert i.
  induction sales_orders as [| order orders IH]; intros i.
  - exists [], i. split; [reflexivity | simpl; lia].
  - destruct (generate_items_of_order_kept self lo hi order s V Hrate Hlohi Hhi i)
      as (rows & i1 & Hrows & Hlen & _).
    destruct (IH i1) as (rest & i2 & Hrest & Hrestlen).
    exists (rows ++ rest), i2. cbn [for_each]. unfold bind at 1. rewrite Hrows.
    unfold bind at 1. rewrite Hrest. split; [reflexivity |].
    rewrite length_app. cbn [List.length]. lia.
Qed.

Lemma order_items_counted_witness :
  exists items j,
    generate_order_items faultless_generator [example_order; immediate_order] (1, 1)%Z
      (tape [] 20000) 0%nat = Ok (items, j) /\
    (1 * Z.of_nat (List.length [example_order; immediate_order])
     <= Z.of_nat (List.length items)
     <= 1 * Z.of_nat (List.length [example_order; immediate_order]))%Z.
Proof.
  apply (order_items_counted faultless_generator [example_order; immediate_order]
           1 1 (tape [] 20000) 0%nat).
  - apply valid_draws. reflexivity.
  - reflexivity.
  - lia.
  - simpl. lia.
Defined.

(** ** Financial transactions: the records *)

Lemma make_transaction_fields order invoice_date due_date amount payment_date s i t j :
  make_transaction order invoice_date due_date amount payment_date s i = Ok (t, j) ->
  FinancialTransaction.order_id t = SalesOrder.order_id order /\
  FinancialTransaction.customer_id t = SalesOrder.customer_id order /\
  FinancialTransaction.department t = SalesOrder.department order /\
  FinancialTransaction.currency t = "EUR"%string /\
  In (FinancialTransaction.payment_method t) payment_methods /\
  FinancialTransaction.status t
  = (if (FinancialTransaction.payment_date t <=? clock_today s)%Z
     then "Bezahlt" else "Ausstehend")%string /\
  String.length (FinancialTransaction.transaction_id t) = 10%nat /\
  FinancialTransaction.amount t = nan_round2 amount /\
  FinancialTransaction.payment_date t = payment_date /\
  FinancialTransaction.invoice_date t = invoice_date /\
  FinancialTransaction.due_date t = due_date.
Proof.
  unfold make_transaction. intros H.
  apply bind_ok in H as (tid & i1 & Htid & H).
  apply uuid4_8_length in Htid.
  apply bind_ok in H as (method & i2 & Hmethod & H).
  apply random_choice_in in Hmethod.
  apply bind_ok in H as (now & i3 & Hnow & H).
  injection Hnow as <- <-.
  apply ret_ok in H as [-> _]. simpl.
  repeat split; try assumption. rewrite Htid. reflexivity.
Qed.

(** What [book_transactions] writes: one record of the whole amount, or,
    for an amount above 1000, two records of a 30% to 70% share and the
    rest, the second paid 1 to 10 days later. *)
Lemma book_transactions_rows order invoice_date due_date payment_date amount s i rows j :
  valid_source s ->
  book_transactions order invoice_date due_date payment_date amount s i = Ok (rows, j) ->
  (exists t i1 j1,
      rows = [t] /\
      make_transaction order invoice_date due_date amount payment_date s i1 = Ok (t, j1)) \/
  (exists t1 t2 a ratio later i1 j1 i2 j2,
      rows = [t1; t2] /\ amount = Some a /\ 1000 < a /\
      3 # 10 <= ratio /\ ratio <= 7 # 10 /\ (1 <= later <= 10)%Z /\
      make_transaction order invoice_date due_date (Some (a * ratio)) payment_date s i1
      = Ok (t1, j1) /\
      make_transaction order invoice_date due_date (Some (a * (1 - ratio)))
        (payment_date + later) s i2 = Ok (t2, j2)).
Proof.
  intros V H. unfold book_transactions in H.
  apply bind_ok in H as (r & i1 & _ & H).
  destruct (Qlt_bool r (1 # 10) && nan_gt amount 1000) eqn:Hsplit.
  - apply andb_true_iff in Hsplit as [_ Hgt].
    destruct amount as [a |]; [| discriminate].
    simpl in Hgt. apply Qlt_bool_iff in Hgt.
    apply bind_ok in H as (ratio & i2 & Hratio & H).
    apply (random_uniform_range _ _ _ _ _ _ V) in Hratio; [| lra].
    apply bind_ok in H as (later & i3 & Hlater & H).
    apply (random_randint_range _ _ _ _ _ _ V) in Hlater.
    simpl in H.
    apply bind_ok in H as (rows1 & i4 & H1 & H).
    apply bind_ok in H1 as (t1 & i5 & Ht1 & H1). apply ret_ok in H1 as [-> _].
    apply bind_ok in H as (rest & i6 & H2 & H).
    apply ret_ok in H as [-> _].
    apply bind_ok in H2 as (rows2 & i7 & H2 & H3).
    apply bind_ok in H2 as (t2 & i8 & Ht2 & H2). apply ret_ok in H2 as [-> _].
    apply bind_ok in H3 as (nil & i9 & H3 & H4).
    apply ret_ok in H3 as [-> _]. apply ret_ok in H4 as [-> _].
    right. exists t1, t2, a, ratio, later, i3, i5, i4, i8.
    destruct Hratio. repeat split; try assumption; lia.
  - apply bind_ok in H as (t & i2 & Ht & H). apply ret_ok in H as [-> _].
    left. exists t, i1, i2. split; [reflexivity | exact Ht].
Qed.

(** X10.  [book_transactions] writes one record, paid on the given date
    with the rounded amount, or two records; it writes two only for an amount
    above 1000, and then both carry the same invoice and due date and the
    second is paid 1 to 10 days after the first. *)
Theorem transactions_booked order invoice_date due_date payment_date amount s i rows j :
  valid_source s ->
  book_transactions order invoice_date due_date payment_date amount s i = Ok (rows, j) ->
  booked invoice_date due_date payment_date amount rows.
Proof.
  intros V H.
  destruct (book_transactions_rows _ _ _ _ _ _ _ _ _ V H)
    as [(t & i1 & j1 & -> & Ht)
       | (t1 & t2 & a & ratio & later & i1 & j1 & i2 & j2 & -> & -> & Ha & _ & _ & Hl & Ht1 & Ht2)].
  - apply make_transaction_fields in Ht as (_ & _ & _ & _ & _ & _ & _ & Ea & Ep & _).
    left. exists t. repeat split; assumption.
  - apply make_transaction_fields in Ht1 as (_ & _ & _ & _ & _ & _ & _ & _ & P1 & I1 & D1).
    apply make_transaction_fields in Ht2 as (_ & _ & _ & _ & _ & _ & _ & _ & P2 & I2 & D2).
    right. exists t1, t2, a. repeat split; try assumption; try lia; congruence.
Qed.

Lemma transactions_booked_witness :
  booked 19400 19430 19430 (Some (123457 # 100)) [split_first; split_second].
Proof.
  apply (transactions_booked example_order 19400 19430 19430 (Some (123457 # 100))
           (tape split_draws 20000) 0%nat [split_first; split_second] 7%nat).
  - apply valid_draws. reflexivity.
  - vm_compute. reflexivity.
Defined.

(** One iteration of the transaction loop: nothing, or the records booked
    for the order's total, perturbed by at most 5%. *)
Lemma generate_transactions_of_order_rows self order_items order s i rows j :
  valid_source s ->
  generate_transactions_of_order self order_items order s i = Ok (rows, j) ->
  rows = [] \/
  exists invoice_date due_date payment_date amount factor i1,
    95 # 100 <= factor /\ factor <= 105 # 100 /\
    (amount = order_total order_items (SalesOrder.order_id order) \/
     amount = nan_mul (order_total order_items (SalesOrder.order_id order)) factor) /\
    book_transactions order invoice_date due_date payment_date amount s i1
    = Ok (rows, j).
Proof.
  intros V H. unfold generate_transactions_of_order in H.
  apply bind_ok in H as (r & i1 & _ & H).
  destruct (Qlt_bool r (error_rate self * (2 # 10))).
  { apply ret_ok in H as [-> _]. left. reflexivity. }
  apply bind_ok in H as (term & i2 & _ & H).
  apply bind_ok in H as (r_shift & i3 & _ & H).
  apply bind_ok in H as (invoice_date & i4 & _ & H).
  apply bind_ok in H as (delay & i5 & _ & H).
  apply bind_ok in H as (r_amount & i6 & _ & H).
  apply bind_ok in H as (amount & i7 & Hamount & H).
  right.
  destruct (Qlt_bool r_amount (error_rate self)).
  - apply bind_ok in Hamount as (u & i8 & Hu & Hamount).
    apply ret_ok in Hamount as [-> _].
    apply (random_uniform_range _ _ _ _ _ _ V) in Hu; [| lra].
    eexists _, _, _, _, (1 + u), i7.
    split; [lra |]. split; [lra |]. split; [right; reflexivity | exact H].
  - apply ret_ok in Hamount as [-> _].
    eexists _, _, _, _, 1, i7.
    split; [lra |]. split; [lra |]. split; [left; reflexivity | exact H].
Qed.

Lemma generate_transactions_of_order_well_formed self order_items sales_orders order
    s i rows j :
  valid_source s ->
  In order sales_orders ->
  generate_transactions_of_order self order_items order s i = Ok (rows, j) ->
  Forall (transaction_well_formed (clock_today s) sales_orders) rows.
Proof.
  intros V Hin H.
  destruct (generate_transactions_of_order_rows _ _ _ _ _ _ _ V H)
    as [-> | (inv & due & pd & amount & factor & i1 & _ & _ & _ & Hbook)];
    [constructor |].
  assert (Hone : forall a p t k k',
             make_transaction order inv due a p s k = Ok (t, k') ->
             transaction_well_formed (clock_today s) sales_orders t).
  { intros a p t k k' Ht.
    apply make_transaction_fields in Ht
      as (E1 & E2 & E3 & E4 & E5 & E6 & E7 & E8 & _).
    unfold transaction_well_formed.
    split; [exists order; repeat split; assumption |].
    repeat (split; [assumption |]).
    intros x Hx. rewrite E8 in Hx. destruct a as [a |]; [| discriminate].
    injection Hx as <-. apply round2_idem. }
  destruct (book_transactions_rows _ _ _ _ _ _ _ _ _ V Hbook)
    as [(t & k & k' & -> & Ht)
       | (t1 & t2 & a & ratio & later & k1 & k1' & k2 & k2' & -> & _ & _ & _ & _ & _ & Ht1 & Ht2)].
  - constructor; [eapply Hone; exact Ht | constructor].
  - constructor; [eapply Hone; exact Ht1 |].
    constructor; [eapply Hone; exact Ht2 | constructor].
Qed.

(** X11.  Every record written by [generate_financial_transactions]
    copies order id, customer id and department from one of the given orders,
    is in EUR, has one of the three payment methods, has status [Bezahlt] if
    its payment date is not after today and [Ausstehend] otherwise, has an id
    of ten characters and, when it has an amount, an amount with two
    decimals. *)
Theorem transactions_well_formed self sales_orders order_items s i rows j :
  valid_source s ->
  generate_financial_transactions self sales_orders order_items s i = Ok (rows, j) ->
  Forall (transaction_well_formed (clock_today s) sales_orders) rows.
Proof.
  intros V H. unfold generate_financial_transactions in H.
  destruct order_items as [| it items]; [discriminate |].
  destruct sales_orders as [| o orders]; [discriminate |].
  eapply for_each_Forall; [| exact H].
  intros order i' rows' j' Hin Hbody.
  eapply generate_transactions_of_order_well_formed; eassumption.
Qed.

Lemma transactions_well_formed_witness :
  Forall (transaction_well_formed 20000 [example_order]) [late_booked_transaction].
Proof.
  apply (transactions_well_formed example_generator [example_order] [noisy_item]
           (tape shifted_invoice_draws 20000) 0%nat [late_booked_transaction] 8%nat).
  - apply valid_draws. reflexivity.
  - vm_compute. reflexivity.
Defined.





(** ** [generate_all_data] *)

(** X13.  A dataset returned by [generate_all_data] is referentially
    consistent: products and customers are the generator's master data; every
    order item names an order of the dataset and a product of the dataset;
    every financial record names an order of the dataset and carries that
    order's customer id; every order and every inventory row has its customer
    or product id either missing or naming a row of the master data.  It holds
    exactly the requested number of orders and of inventory rows, and at least
    one order and one order item. *)
Theorem generated_dataset_consistent self num_orders num_transactions s i d j :
  valid_source s ->
  generate_all_data self num_orders num_transactions s i = Ok (d, j) ->
  dataset_consistent self d /\
  List.length (data_sales_orders d) = num_orders /\
  List.length (data_inventory_transactions d) = num_transactions /\
  data_sales_orders d <> [] /\ data_order_items d <> [].
Proof.
  intros V H. unfold generate_all_data in H.
  apply bind_ok in H as (orders & i1 & Horders & H).
  apply bind_ok in H as (items & i2 & Hitems & H).
  apply bind_ok in H as (inventory & i3 & Hinv & H).
  apply bind_ok in H as (financial & i4 & Hfin & H).
  apply ret_ok in H as [-> _]. cbn [data_sales_orders data_order_items
    data_inventory_transactions].
  assert (Ho : Forall (order_well_formed self) orders).
  { unfold generate_sales_orders in Horders.
    eapply repeat_gen_Forall; [| exact Horders].
    intros. eapply generate_sales_order_well_formed; eassumption. }
  assert (Hi : Forall (item_well_formed self orders) items).
  { unfold generate_order_items in Hitems.
    eapply for_each_Forall; [| exact Hitems].
    intros. eapply generate_items_of_order_well_formed; eassumption. }
  assert (Hv : Forall (inventory_row_ok self) inventory).
  { unfold generate_inventory_transactions in Hinv.
    eapply repeat_gen_Forall; [| exact Hinv].
    intros. eapply generate_inventory_transaction_ok; eassumption. }
  assert (Hne : orders <> [] /\ items <> []).
  { unfold generate_financial_transactions in Hfin.
    destruct items; [discriminate |]. destruct orders; [discriminate |].
    split; discriminate. }
  assert (Hf : Forall (transaction_well_formed (clock_today s) orders) financial).
  { unfold generate_financial_transactions in Hfin.
    destruct items as [| it items]; [discriminate |].
    destruct orders as [| o orders]; [discriminate |].
    eapply for_each_Forall; [| exact Hfin].
    intros. eapply generate_transactions_of_order_well_formed; eassumption. }
  rewrite Forall_forall in Ho, Hi, Hv, Hf.
  split; [| split; [| split; [| exact Hne]]].
  - unfold dataset_consistent. cbn.
    split; [reflexivity |]. split; [reflexivity |].
    split; [| split; [| split]].
    + intros it Hin. destruct (Hi it Hin) as (Ha & Hb & _). split; assumption.
    + intros t Hin. destruct (Hf t Hin) as ((o & Hoin & E1 & E2 & _) & _).
      exists o. repeat split; assumption.
    + intros o Hin.
      destruct (Ho o Hin) as (_ & _ & _ & _ & c & Hc & _ & _ & [(E & _) | (E & _)]).
      * left. exact E.
      * right. exists c. split; assumption.
    + intros t Hin. destruct (Hv t Hin) as (_ & [(E & _) | (p & Hp & E & _)] & _).
      * left. exact E.
      * right. exists p. split; assumption.
  - unfold generate_sales_orders in Horders. eapply repeat_gen_length. exact Horders.
  - unfold generate_inventory_transactions in Hinv. eapply repeat_gen_length.
    exact Hinv.
Qed.

Lemma generated_dataset_consistent_witness :
  dataset_consistent faultless_generator example_dataset /\
  List.length (data_sales_orders example_dataset) = 1%nat /\
  List.length (data_inventory_transactions example_dataset) = 1%nat /\
  data_sales_orders example_dataset <> [] /\ data_order_items example_dataset <> [].
Proof.
  apply (generated_dataset_consistent faultless_generator 1 1
           (tape one_item_draws 20000) 0%nat example_dataset 30%nat).
  - apply valid_draws. reflexivity.
  - vm_compute. reflexivity.
Defined.

(** X14.  With zero orders the generator chain stops at the financial
    stage: [generate_sales_orders] and [generate_order_items] return frames
    without rows, which have no [order_id] column, and
    [generate_financial_transactions] raises [KeyError] on them, whatever the
    generator, the range of items per order and the random draws. *)
Theorem no_transactions_without_orders self items_per_order s i :
  (sales_orders <- generate_sales_orders self 0 ;;
   order_items <- generate_order_items self sales_orders items_per_order ;;
   generate_financial_transactions self sales_orders order_items) s i
  = Err (KeyError "order_id").
Proof.
  assert (H1 : generate_sales_orders self 0 s i = Ok ([], i)) by reflexivity.
  assert (H2 : generate_order_items self [] items_per_order s i = Ok ([], i))
    by reflexivity.
  unfold bind at 1. rewrite H1. unfold bind at 1. rewrite H2. reflexivity.
Qed.

(** * The pipeline stages *)

(** ** String order *)

Lemma string_compare_refl s : String.compare s s = Eq.
Proof.
  pose proof (String.compare_antisym s s) as H.
  destruct (String.compare s s); simpl in H; congruence.
Qed.

Lemma ascii_compare_lt_trans a b c :
  Ascii.compare a b = Lt -> Ascii.compare b c = Lt -> Ascii.compare a c = Lt.
Proof.
  unfold Ascii.compare. rewrite !N.compare_lt_iff. apply N.lt_trans.
Qed.

Lemma string_compare_lt_trans s1 :
  forall s2 s3,
    String.compare s1 s2 = Lt -> String.compare s2 s3 = Lt -> String.compare s1 s3 = Lt.
Proof.
  induction s1 as [| a s1 IH]; intros [| b s2] [| c s3] H1 H2; simpl in *;
    try discriminate; try reflexivity.
  destruct (Ascii.compare a b) eqn:Eab; try discriminate.
  - apply Ascii.compare_eq_iff in Eab as ->.
    destruct (Ascii.compare b c) eqn:Ebc; try discriminate.
    + eapply IH; eassumption.
    + reflexivity.
  - destruct (Ascii.compare b c) eqn:Ebc; try discriminate.
    + apply Ascii.compare_eq_iff in Ebc as <-. rewrite Eab. reflexivity.
    + rewrite (ascii_compare_lt_trans _ _ _ Eab Ebc). reflexivity.
Qed.

Lemma string_compare_gt k x : String.compare k x = Gt -> String.compare x k = Lt.
Proof.
  intros H. rewrite String.compare_antisym, H. reflexivity.
Qed.

Lemma ascending_not_in k l :
  Forall (fun k' => String.compare k k' = Lt) l -> ~ In k l.
Proof.
  intros H Hin. rewrite Forall_forall in H. specialize (H k Hin).
  rewrite string_compare_refl in H. discriminate.
Qed.

Lemma ascending_NoDup l : ascending l -> NoDup l.
Proof.
  induction l as [| k l IH]; intros H; [constructor |].
  destruct H as [Hk Hl]. constructor; [apply ascending_not_in; exact Hk | auto].
Qed.

Lemma In_insert_key k l x : In x (insert_key k l) <-> x = k \/ In x l.
Proof.
  induction l as [| y l IH]; simpl.
  - intuition.
  - destruct (String.compare k y) eqn:E; simpl.
    + apply String.compare_eq_iff in E as ->. intuition.
    + intuition.
    + rewrite IH. intuition.
Qed.

Lemma ascending_insert_key k l : ascending l -> ascending (insert_key k l).
Proof.
  induction l as [| y l IH]; intros H; simpl.
  - split; [constructor | exact I].
  - destruct H as [Hy Hl]. destruct (String.compare k y) eqn:E.
    + split; assumption.
    + split; [| split; assumption].
      constructor; [exact E |].
      eapply Forall_impl; [| exact Hy].
      intros z Hz. simpl in Hz. eapply string_compare_lt_trans; eassumption.
    + split; [| apply IH; exact Hl].
      rewrite Forall_forall. intros z Hz. apply In_insert_key in Hz as [-> | Hz].
      * apply string_compare_gt. exact E.
      * rewrite Forall_forall in Hy. apply Hy. exact Hz.
Qed.

(** ** The sales view, department by department *)

Lemma add_to_group_keys d v groups :
  map SalesMetricsRow.department (add_to_group d v groups)
  = insert_key d (map SalesMetricsRow.department groups).
Proof.
  induction groups as [| g groups IH]; simpl; [reflexivity |].
  destruct (String.compare d (SalesMetricsRow.department g)) eqn:E; simpl.
  - apply String.compare_eq_iff in E. rewrite E. reflexivity.
  - reflexivity.
  - rewrite IH. reflexivity.
Qed.

Lemma find_department_absent d groups :
  ~ In d (map SalesMetricsRow.department groups) -> find_department d groups = None.
Proof.
  unfold find_department. induction groups as [| g groups IH]; intros H; simpl.
  - reflexivity.
  - destruct (String.eqb_spec (SalesMetricsRow.department g) d) as [E | N].
    + exfalso. apply H. left. exact E.
    + apply IH. intros Hin. apply H. right. exact Hin.
Qed.

Lemma add_to_group_find d v groups d' :
  ascending (map SalesMetricsRow.department groups) ->
  find_department d' (add_to_group d v groups)
  = if (d =? d')%string
    then Some match find_department d groups with
              | Some g =>
                  {| SalesMetricsRow.department := d;
                     SalesMetricsRow.order_count := S (SalesMetricsRow.order_count g);
                     SalesMetricsRow.total_sales :=
                       SalesMetricsRow.total_sales g + nan_to_zero v |}
              | None =>
                  {| SalesMetricsRow.department := d;
                     SalesMetricsRow.order_count := 1;
                     SalesMetricsRow.total_sales := nan_to_zero v |}
              end
    else find_department d' groups.
Proof.
  unfold find_department.
  induction groups as [| g groups IH]; intros Hasc; simpl.
  - destruct (String.eqb_spec d d') as [-> | N]; reflexivity.
  - destruct Hasc as [Hg Hrest].
    destruct (String.compare d (SalesMetricsRow.department g)) eqn:E; simpl.
    + apply String.compare_eq_iff in E. rewrite <- E. rewrite String.eqb_refl.
      destruct (String.eqb_spec d d') as [-> | N]; reflexivity.
    + assert (Hne : (SalesMetricsRow.department g =? d)%string = false).
      { apply String.eqb_neq. intros Eq'. rewrite Eq', string_compare_refl in E.
        discriminate. }
      rewrite Hne.
      assert (Habsent : find_department d groups = None).
      { apply find_department_absent. apply ascending_not_in.
        eapply Forall_impl; [| exact Hg].
        intros z Hz. simpl in Hz. eapply string_compare_lt_trans; eassumption. }
      unfold find_department in Habsent. rewrite Habsent.
      destruct (String.eqb_spec d d') as [-> | N]; [reflexivity |].
      reflexivity.
    + assert (Hne : (SalesMetricsRow.department g =? d)%string = false).
      { apply String.eqb_neq. intros Eq'. rewrite Eq', string_compare_refl in E.
        discriminate. }
      rewrite Hne. rewrite (IH Hrest).
      destruct (String.eqb_spec d d') as [Heq | N]; [| reflexivity].
      rewrite <- Heq, Hne. reflexivity.
Qed.

Lemma group_step_keys groups row :
  ascending (map SalesMetricsRow.department groups) ->
  ascending (map SalesMetricsRow.department (group_step groups row)).
Proof.
  intros H. unfold group_step.
  destruct (SalesOrdersRow.department (fst row)); [| exact H].
  rewrite add_to_group_keys. apply ascending_insert_key. exact H.
Qed.

Lemma group_step_find d groups row :
  ascending (map SalesMetricsRow.department groups) ->
  find_department d (group_step groups row)
  = department_state d (find_department d groups) row.
Proof.
  intros H. unfold group_step, department_state, row_in, in_department.
  destruct (SalesOrdersRow.department (fst row)) as [d0 |]; [| reflexivity].
  rewrite add_to_group_find by exact H.
  destruct (String.eqb_spec d0 d) as [-> | N]; reflexivity.
Qed.

Lemma group_by_department_find d rows :
  forall groups,
    ascending (map SalesMetricsRow.department groups) ->
    ascending (map SalesMetricsRow.department (fold_left group_step rows groups)) /\
    find_department d (fold_left group_step rows groups)
    = fold_left (department_state d) rows (find_department d groups).
Proof.
  induction rows as [| row rows IH]; intros groups H; simpl.
  - split; [exact H | reflexivity].
  - destruct (IH (group_step groups row) (group_step_keys _ _ H)) as [Ha Hf].
    split; [exact Ha |]. rewrite Hf, group_step_find by exact H. reflexivity.
Qed.

Lemma department_state_summarises d rows :
  forall n q st,
    summarises d n q st ->
    summarises d (n + List.length (filter (row_in d) rows))
      (q + sumQ (map joined_value (filter (row_in d) rows)))
      (fold_left (department_state d) rows st).
Proof.
  induction rows as [| row rows IH]; intros n q st H; simpl.
  - rewrite Nat.add_0_r.
    destruct st as [g |]; simpl in *.
    + destruct H as (H1 & H2 & H3 & H4). repeat split; try assumption.
      rewrite H4. ring.
    + destruct H as [H1 H2]. split; [exact H1 | rewrite H2; ring].
  - unfold department_state at 2. destruct (row_in d row) eqn:E; simpl.
    + specialize (IH (S n) (q + joined_value row)).
      match goal with
      | |- summarises _ _ _ (fold_left _ _ (Some ?g)) => specialize (IH (Some g))
      end.
      assert (Hs : summarises d (n + S (List.length (filter (row_in d) rows)))
                     (q + (joined_value row
                           + sumQ (map joined_value (filter (row_in d) rows))))
                     (fold_left (department_state d) rows
                        (Some match st with
                              | Some g =>
                                  {| SalesMetricsRow.department := d;
                                     SalesMetricsRow.order_count :=
                                       S (SalesMetricsRow.order_count g);
                                     SalesMetricsRow.total_sales :=
                                       SalesMetricsRow.total_sales g + joined_value row |}
                              | None =>
                                  {| SalesMetricsRow.department := d;
                                     SalesMetricsRow.order_count := 1;
                                     SalesMetricsRow.total_sales := joined_value row |}
                              end))).
      { destruct (fold_left (department_state d) rows _) as [g' |]; simpl in *.
        - destruct IH as (I1 & I2 & I3 & I4).
          + destruct st as [g |]; simpl in *.
            * destruct H as (H1 & H2 & H3 & H4). repeat split; try lia.
              simpl. rewrite H4. reflexivity.
            * destruct H as [H1 H2]. repeat split; try lia.
              simpl. rewrite H2. ring.
          + repeat split; try assumption; try lia. rewrite I4. ring.
        - destruct IH as [I1 I2].
          + destruct st as [g |]; simpl in *.
            * destruct H as (H1 & H2 & H3 & H4). repeat split; try lia.
              simpl. rewrite H4. reflexivity.
            * destruct H as [H1 H2]. repeat split; try lia.
              simpl. rewrite H2. ring.
          + lia. }
      exact Hs.
    + apply IH. exact H.
Qed.

Lemma filter_all_false {A} (p : A -> bool) (l : list A) :
  (forall x, In x l -> p x = false) -> filter p l = [].
Proof.
  induction l as [| x l IH]; intros H; simpl; [reflexivity |].
  rewrite (H x (or_introl eq_refl)). apply IH.
  intros y Hy. apply H. right. exact Hy.
Qed.

Lemma merge_order_items_filter d sales_orders order_items :
  filter (row_in d) (merge_order_items sales_orders order_items)
  = merge_order_items (filter (in_department d) sales_orders) order_items.
Proof.
  unfold merge_order_items.
  induction sales_orders as [| o orders IH]; [reflexivity |].
  cbn [flat_map filter]. rewrite filter_app, IH.
  assert (Hrows : forall row,
             In row match items_of order_items o with
                    | [] => [(o, None)]
                    | m :: ms => map (fun it => (o, Some it)) (m :: ms)
                    end ->
             row_in d row = in_department d o).
  { intros row Hrow. unfold row_in.
    destruct (items_of order_items o) as [| m ms].
    - destruct Hrow as [<- | []]. reflexivity.
    - apply in_map_iff in Hrow as (it & <- & _). reflexivity. }
  unfold items_of in Hrows.
  destruct (in_department d o) eqn:E.
  - cbn [flat_map]. f_equal. apply filter_all. exact Hrows.
  - rewrite filter_all_false by exact Hrows. reflexivity.
Qed.

Lemma merge_order_items_length sales_orders order_items :
  List.length (merge_order_items sales_orders order_items)
  = fold_right
      (fun o n => (Nat.max 1 (List.length (items_of order_items o)) + n)%nat) O
      sales_orders.
Proof.
  unfold merge_order_items, items_of.
  induction sales_orders as [| o orders IH]; [reflexivity |].
  cbn [flat_map fold_right]. rewrite length_app, IH. f_equal.
  destruct (filter _ order_items) as [| m ms]; [reflexivity |].
  rewrite length_map. simpl. reflexivity.
Qed.

Lemma merge_order_items_sales sales_orders order_items :
  sumQ (map joined_value (merge_order_items sales_orders order_items))
  == sumQ (map (fun o => sumQ (map item_value (items_of order_items o))) sales_orders).
Proof.
  unfold merge_order_items, items_of.
  induction sales_orders as [| o orders IH]; [reflexivity |].
  cbn [flat_map map]. rewrite map_app, sumQ_app, IH, joined_rows_value.
  reflexivity.
Qed.

Lemma find_department_unique g groups :
  NoDup (map SalesMetricsRow.department groups) ->
  In g groups ->
  find_department (SalesMetricsRow.department g) groups = Some g.
Proof.
  unfold find_department.
  induction groups as [| g0 groups IH]; intros Hnd Hin; [destruct Hin |].
  inversion Hnd as [| k ks Hnotin Hnd']; subst. simpl.
  destruct Hin as [-> | Hin].
  - rewrite String.eqb_refl. reflexivity.
  - destruct (String.eqb_spec (SalesMetricsRow.department g0)
                (SalesMetricsRow.department g)) as [E | N].
    + exfalso. apply Hnotin. rewrite E. apply in_map. exact Hin.
    + apply IH; assumption.
Qed.

Lemma find_department_In d groups g :
  find_department d groups = Some g -> In g groups /\ SalesMetricsRow.department g = d.
Proof.
  unfold find_department. intros H. apply find_some in H as [H1 H2].
  split; [exact H1 | apply String.eqb_eq; exact H2].
Qed.

Lemma department_count_positive d sales_orders order_items :
  (0 < department_count d sales_orders order_items)%nat <->
  exists o, In o sales_orders /\ SalesOrdersRow.department o = Some d.
Proof.
  unfold department_count. split.
  - intros H.
    destruct (filter (in_department d) sales_orders) as [| o l] eqn:E;
      [simpl in H; lia |].
    assert (Hin : In o (filter (in_department d) sales_orders))
      by (rewrite E; left; reflexivity).
    apply filter_In in Hin as [Hin Hd]. exists o. split; [exact Hin |].
    unfold in_department in Hd.
    destruct (SalesOrdersRow.department o) as [d' |]; [| discriminate].
    apply String.eqb_eq in Hd as ->. reflexivity.
  - intros (o & Hin & Hd).
    assert (Hf : In o (filter (in_department d) sales_orders)).
    { apply filter_In. split; [exact Hin |].
      unfold in_department. rewrite Hd. apply String.eqb_refl. }
    destruct (filter (in_department d) sales_orders) as [| o' l];
      [destruct Hf |]. cbn [fold_right]. lia.
Qed.

Lemma sales_metrics_view_summarises d sales_orders order_items :
  summarises d (department_count d sales_orders order_items)
    (department_sales d sales_orders order_items)
    (find_department d (sales_metrics_view sales_orders order_items)).
Proof.
  unfold sales_metrics_view, group_by_department.
  destruct (group_by_department_find d (merge_order_items sales_orders order_items)
              [] I) as [_ ->].
  pose proof (department_state_summarises d
                (merge_order_items sales_orders order_items) O 0 None
                (conj eq_refl (Qeq_refl 0))) as H.
  rewrite merge_order_items_filter, merge_order_items_length in H.
  unfold department_count, department_sales.
  destruct (fold_left _ _ _) as [g |]; simpl in *.
  - destruct H as (H1 & H2 & H3 & H4). repeat split; try assumption.
    rewrite H4, merge_order_items_sales. ring.
  - destruct H as [H1 H2]. split; [exact H1 |].
    rewrite merge_order_items_sales in H2. rewrite <- H2. ring.
Qed.

(** X15.  The [sales_metrics] view has one row for each department that
    occurs among the sales orders and for no other, in ascending order of the
    department names.  The [order_count] of a department is the number of
    rows the left join with the order items gives its orders: an order counts
    once for each of its items, and once if it has none.  Its [total_sales]
    is the sum of the line totals of the items of its orders. *)
Theorem sales_metrics_by_department sales_orders order_items :
  ascending (map SalesMetricsRow.department
               (sales_metrics_view sales_orders order_items)) /\
  (forall d,
      In d (map SalesMetricsRow.department
              (sales_metrics_view sales_orders order_items)) <->
      exists o, In o sales_orders /\ SalesOrdersRow.department o = Some d) /\
  (forall g,
      In g (sales_metrics_view sales_orders order_items) ->
      SalesMetricsRow.order_count g
      = department_count (SalesMetricsRow.department g) sales_orders order_items /\
      SalesMetricsRow.total_sales g
      == department_sales (SalesMetricsRow.department g) sales_orders order_items).
Proof.
  assert (Hasc : ascending (map SalesMetricsRow.department
                              (sales_metrics_view sales_orders order_items))).
  { unfold sales_metrics_view, group_by_department.
    apply (group_by_department_find ""
             (merge_order_items sales_orders order_items) [] I). }
  split; [exact Hasc |]. split.
  - intros d. rewrite <- department_count_positive.
    pose proof (sales_metrics_view_summarises d sales_orders order_items) as H.
    split.
    + intros Hin. apply in_map_iff in Hin as (g & <- & Hg).
      rewrite (find_department_unique g) in H
        by (try apply ascending_NoDup; assumption).
      simpl in H. destruct H as (_ & _ & H & _). exact H.
    + intros Hpos.
      destruct (find_department d (sales_metrics_view sales_orders order_items))
        as [g |] eqn:E; simpl in H.
      * apply find_department_In in E as [Hg <-]. apply in_map. exact Hg.
      * destruct H as [H _]. lia.
  - intros g Hg.
    pose proof (sales_metrics_view_summarises (SalesMetricsRow.department g)
                  sales_orders order_items) as H.
    rewrite (find_department_unique g) in H
      by (try apply ascending_NoDup; assumption).
    simpl in H. destruct H as (_ & H2 & _ & H4). split; assumption.
Qed.

(** ** The inventory view, product by product *)














(** ** The bronze stage *)

Lemma dict_set_fresh {V} (d : dict V) k v :
  dict_in k d = false -> dict_set d k v = d ++ [(k, v)].
Proof.
  unfold dict_in. induction d as [| [k0 v0] d IH]; intros H; simpl in *.
  - reflexivity.
  - destruct (String.eqb_spec k0 k) as [E | N].
    + discriminate.
    + rewrite IH by exact H. reflexivity.
Qed.

Lemma ingest_ok self source df clock i :
  exists self',
    ingest self (source, df) clock i = Ok (self', S (S (S i))) /\
    bronze_layer self'
    = dict_set (bronze_layer self) source
        {| Bronze.data := df;
           Bronze.metadata :=
             {| Bronze.Metadata.ingestion_time := clock (S i);
                Bronze.Metadata.record_count := len df;
                Bronze.Metadata.columns := columns df;
                Bronze.Metadata.source_system := source |} |} /\
    silver_layer self' = silver_layer self /\
    gold_layer self' = gold_layer self /\
    processing_steps self'
    = processing_steps self ++ [BronzeStep source (len df) (clock (S (S i)) - clock i)].
Proof.
  unfold ingest. cbv [bind clock_now ret].
  eexists. split; [reflexivity |]. repeat split.
Qed.

Lemma bronze_loop clock (data : dict DataFrame) :
  NoDup (keys data) ->
  forall self i,
  exists self' steps,
    for_state data ingest self clock i = Ok (self', (i + 3 * List.length data)%nat) /\
    silver_layer self' = silver_layer self /\
    gold_layer self' = gold_layer self /\
    (forall source df,
        In (source, df) data ->
        exists e, dict_get (bronze_layer self') source = Some e /\
                  bronze_entry_of source df e) /\
    (forall source,
        ~ In source (keys data) ->
        dict_get (bronze_layer self') source = dict_get (bronze_layer self) source) /\
    processing_steps self' = processing_steps self ++ steps /\
    Forall2 bronze_step_of data steps /\
    ((forall source, In source (keys data) ->
                     dict_in source (bronze_layer self) = false) ->
     bronze_frames self' = bronze_frames self ++ data).
Proof.
  induction data as [| [k df] data IH]; intros Hnd self i.
  - exists self, []. cbn [for_state List.length]. rewrite Nat.mul_0_r, Nat.add_0_r.
    split; [reflexivity |]. split; [reflexivity |]. split; [reflexivity |].
    split; [intros ? ? [] |]. split; [reflexivity |].
    split; [rewrite app_nil_r; reflexivity |]. split; [constructor |].
    intros _. rewrite app_nil_r. reflexivity.
  - inversion Hnd as [| k' ks Hnotin Hnd']; subst.
    destruct (ingest_ok self k df clock i)
      as (self1 & Hstep & Hbronze & Hsilver & Hgold & Hsteps).
    destruct (IH Hnd' self1 (S (S (S i))))
      as (self' & steps & Hloop & Hs & Hg & Hin & Hout & Hlog & Hshape & Hfresh).
    exists self', (BronzeStep k (len df) (clock (S (S i)) - clock i) :: steps).
    cbn [for_state]. unfold bind at 1. rewrite Hstep.
    split.
    { rewrite Hloop. do 2 f_equal. cbn [List.length]. lia. }
    split; [congruence |]. split; [congruence |]. split.
    { intros source df' [E | H0].
      - injection E as <- <-. rewrite (Hout k Hnotin), Hbronze, dict_get_set_same.
        eexists. split; [reflexivity |]. repeat split.
      - apply Hin. exact H0. }
    split.
    { intros source Hs'. simpl in Hs'.
      rewrite (Hout source) by tauto. rewrite Hbronze.
      apply dict_get_set_other. intros ->. apply Hs'. left. reflexivity. }
    split.
    { rewrite Hlog, Hsteps, <- app_assoc. reflexivity. }
    split.
    { constructor; [| exact Hshape]. eexists. reflexivity. }
    intros Hnew. rewrite Hfresh.
    + unfold bronze_frames. rewrite Hbronze.
      rewrite dict_set_fresh by (apply Hnew; left; reflexivity).
      unfold map_values. rewrite map_app, <- app_assoc. reflexivity.
    + intros source Hsrc. rewrite Hbronze, dict_in_set_other.
      * apply Hnew. right. exact Hsrc.
      * intros ->. apply Hnotin. exact Hsrc.
Qed.


(** ** The silver stage *)

Lemma silver_entry_of_validate source bronze_data clock i df invalid j :
  validate source (Bronze.data bronze_data) clock i = Ok ((df, invalid), j) ->
  (0 < len (Bronze.data bronze_data))%nat ->
  (len df <= len (Bronze.data bronze_data))%nat ->
  exists rate,
    silver_entry source bronze_data clock i
    = Ok ({| Silver.data := df;
             Silver.invalid_records := invalid;
             Silver.metadata :=
               {| Silver.Metadata.processing_time := clock j;
                  Silver.Metadata.valid_records := len df;
                  Silver.Metadata.invalid_records := len_invalid invalid;
                  Silver.Metadata.validation_rate := rate |} |}, S j) /\
    rate == 100 * inject_Z (Z.of_nat (len df))
            / inject_Z (Z.of_nat (len (Bronze.data bronze_data))) /\
    0 <= rate /\ rate <= 100.
Proof.
  intros Hv Hpos Hle.
  destruct (validation_rate_bounds _ _ Hpos Hle) as (rate & Hr & Heq & H0 & H100).
  exists rate. split; [| split; [exact Heq | split; assumption]].
  unfold silver_entry. unfold bind at 1. rewrite Hv.
  cbv [bind clock_now lift ret]. rewrite Hr. reflexivity.
Qed.

Lemma whole_is_all n : (0 < n)%nat ->
  100 * inject_Z (Z.of_nat n) / inject_Z (Z.of_nat n) == 100.
Proof.
  intros H.
  assert (T : 0 < inject_Z (Z.of_nat n)).
  { change 0 with (inject_Z 0). rewrite <- Zlt_Qlt. lia. }
  field. lra.
Qed.

Lemma silver_entry_accounted source bronze_data clock i :
  schema_ok source (Bronze.data bronze_data) = true ->
  (0 < len (Bronze.data bronze_data))%nat ->
  exists entry j,
    silver_entry source bronze_data clock i = Ok (entry, j) /\
    entry_accounted source bronze_data entry.
Proof.
  intros Hschema Hlen.
  destruct (String.eqb_spec source "sales_orders") as [-> | N1].
  - destruct (Bronze.data bronze_data) as [rows | | | | |] eqn:D; try discriminate.
    pose proof (proj2 (filter_partition (sales_orders_invalid_mask (clock i)) rows))
      as Hpart.
    destruct (silver_entry_of_validate "sales_orders" bronze_data clock i
                (SalesOrders (filter (complement (sales_orders_invalid_mask (clock i)))
                                rows))
                (Rows (SalesOrders (filter (sales_orders_invalid_mask (clock i)) rows)))
                (S i))
      as (rate & Hrun & Hrate & H0 & H100).
    { rewrite D. reflexivity. }
    { rewrite D. exact Hlen. }
    { rewrite D. simpl. lia. }
    eexists _, _. split; [exact Hrun |].
    unfold entry_accounted. cbn [Silver.metadata Silver.data Silver.invalid_records
      Silver.Metadata.valid_records Silver.Metadata.invalid_records
      Silver.Metadata.validation_rate].
    rewrite D in *.
    split; [reflexivity |]. split; [reflexivity |].
    split; [exact Hpart |]. split; [exact Hrate |].
    split; [exact H0 |]. split; [exact H100 |]. split; [reflexivity |].
    intros Hv. discriminate.
  - destruct (String.eqb_spec source "financial_transactions") as [-> | N2].
    + destruct (Bronze.data bronze_data) as [| | rows | | |] eqn:D; try discriminate.
      pose proof (proj2 (filter_partition financial_invalid_mask rows)) as Hpart.
      destruct (silver_entry_of_validate "financial_transactions" bronze_data clock i
                  (FinancialTransactions
                     (filter (complement financial_invalid_mask) rows))
                  (Rows (FinancialTransactions (filter financial_invalid_mask rows)))
                  i)
        as (rate & Hrun & Hrate & H0 & H100).
      { rewrite D. reflexivity. }
      { rewrite D. exact Hlen. }
      { rewrite D. simpl. lia. }
      eexists _, _. split; [exact Hrun |].
      unfold entry_accounted. cbn [Silver.metadata Silver.data Silver.invalid_records
        Silver.Metadata.valid_records Silver.Metadata.invalid_records
        Silver.Metadata.validation_rate].
      rewrite D in *.
      split; [reflexivity |]. split; [reflexivity |].
      split; [exact Hpart |]. split; [exact Hrate |].
      split; [exact H0 |]. split; [exact H100 |]. split; [reflexivity |].
      intros Hv. discriminate.
    + destruct (silver_entry_of_validate source bronze_data clock i
                  (Bronze.data bronze_data) EmptyList i)
        as (rate & Hrun & Hrate & H0 & H100).
      { unfold validate.
        destruct (String.eqb_spec source "sales_orders"); [contradiction |].
        destruct (String.eqb_spec source "financial_transactions"); [contradiction |].
        reflexivity. }
      { exact Hlen. }
      { lia. }
      eexists _, _. split; [exact Hrun |].
      unfold entry_accounted. cbn [Silver.metadata Silver.data Silver.invalid_records
        Silver.Metadata.valid_records Silver.Metadata.invalid_records
        Silver.Metadata.validation_rate len_invalid].
      split; [reflexivity |]. split; [reflexivity |].
      split; [lia |]. split; [exact Hrate |].
      split; [exact H0 |]. split; [exact H100 |]. split; [exact Hschema |].
      intros _. split; [reflexivity |]. split; [reflexivity |].
      rewrite Hrate. apply whole_is_all. exact Hlen.
Qed.

Lemma refine_step self source bronze_data clock i entry j :
  silver_entry source bronze_data clock (S i) = Ok (entry, j) ->
  exists self',
    refine self (source, bronze_data) clock i = Ok (self', S j) /\
    bronze_layer self' = bronze_layer self /\
    silver_layer self' = dict_set (silver_layer self) source entry /\
    gold_layer self' = gold_layer self /\
    processing_steps self'
    = processing_steps self
      ++ [SilverStep source (len (Silver.data entry))
            (len_invalid (Silver.invalid_records entry)) (clock j - clock i)].
Proof.
  intros H. unfold refine. cbv [bind clock_now ret]. rewrite H.
  eexists. split; [reflexivity |]. repeat split; reflexivity.
Qed.

Lemma silver_loop clock (l : list (string * Bronze.t)) :
  NoDup (map fst l) ->
  (forall k e, In (k, e) l ->
               schema_ok k (Bronze.data e) = true /\ (0 < len (Bronze.data e))%nat) ->
  forall self i,
  exists self' i' entries,
    for_state l refine self clock i = Ok (self', i') /\
    bronze_layer self' = bronze_layer self /\
    gold_layer self' = gold_layer self /\
    Forall2 (fun item entry => entry_accounted (fst item) (snd item) entry) l entries /\
    (forall k e, In (k, e) l ->
                 exists entry, dict_get (silver_layer self') k = Some entry /\
                               entry_accounted k e entry) /\
    (forall k, ~ In k (map fst l) ->
               dict_get (silver_layer self') k = dict_get (silver_layer self) k) /\
    List.length (processing_steps self')
    = (List.length (processing_steps self) + List.length l)%nat /\
    ((forall k, In k (map fst l) -> dict_in k (silver_layer self) = false) ->
     silver_layer self' = silver_layer self ++ combine (map fst l) entries).
Proof.
  induction l as [| [k e] l IH]; intros Hnd Hready self i.
  - exists self, i, []. cbn [for_state List.length].
    split; [reflexivity |]. split; [reflexivity |]. split; [reflexivity |].
    split; [constructor |]. split; [intros ? ? [] |].
    split; [reflexivity |]. split; [lia |].
    intros _. simpl. rewrite app_nil_r. reflexivity.
  - inversion Hnd as [| k' ks Hnotin Hnd']; subst.
    destruct (Hready k e (or_introl eq_refl)) as [Hschema Hlen].
    destruct (silver_entry_accounted k e clock (S i) Hschema Hlen)
      as (entry & j & Hentry & Hacc).
    destruct (refine_step self k e clock i entry j Hentry)
      as (self1 & Hstep & Hbronze & Hsilver & Hgold & Hsteps).
    destruct (IH Hnd' (fun k0 e0 H0 => Hready k0 e0 (or_intror H0)) self1 (S j))
      as (self' & i' & entries & Hloop & Hb & Hg & Hall & Hin & Hout & Hlog & Hfresh).
    exists self', i', (entry :: entries). cbn [for_state]. unfold bind at 1.
    rewrite Hstep.
    split; [exact Hloop |]. split; [congruence |]. split; [congruence |].
    split; [constructor; [exact Hacc | exact Hall] |].
    split.
    { intros k0 e0 [E | H0].
      - injection E as <- <-. exists entry. split; [| exact Hacc].
        rewrite (Hout k Hnotin), Hsilver. apply dict_get_set_same.
      - apply Hin. exact H0. }
    split.
    { intros k0 Hk0. simpl in Hk0.
      rewrite (Hout k0) by tauto. rewrite Hsilver.
      apply dict_get_set_other. intros ->. apply Hk0. left. reflexivity. }
    split.
    { rewrite Hlog, Hsteps, length_app. simpl. lia. }
    intros Hnew. rewrite Hfresh.
    + rewrite Hsilver, dict_set_fresh by (apply Hnew; left; reflexivity).
      rewrite <- app_assoc. reflexivity.
    + intros k0 Hk0. rewrite Hsilver, dict_in_set_other.
      * apply Hnew. right. exact Hk0.
      * intros ->. apply Hnotin. exact Hk0.
Qed.

(** X18.  On a bronze layer of non-empty, well-typed frames
    [process_to_silver] returns, leaves the bronze and the gold layer as they
    were and logs one step per source.  For every source the metadata counts
    are the sizes of the valid frame and of the invalid records, the two
    together are the rows of the bronze frame, and the validation rate is
    100 times the valid share, between 0 and 100.  A source other than
    [sales_orders] and [financial_transactions] passes through: its frame is
    unchanged, its invalid records are the empty list and its rate is 100. *)
Theorem silver_stage_accounts self clock i :
  bronze_ready self ->
  exists self' i',
    process_to_silver self clock i = Ok (self', i') /\
    bronze_layer self' = bronze_layer self /\
    gold_layer self' = gold_layer self /\
    (forall source e,
        In (source, e) (bronze_layer self) ->
        exists entry, dict_get (silver_layer self') source = Some entry /\
                      entry_accounted source e entry) /\
    List.length (processing_steps self')
    = (List.length (processing_steps self) + List.length (bronze_layer self))%nat.
Proof.
  intros [Hnd Hready]. unfold process_to_silver.
  destruct (silver_loop clock (bronze_layer self) Hnd Hready self i)
    as (self' & i' & entries & H1 & H2 & H3 & _ & H5 & _ & H7 & _).
  exists self', i'. repeat split; assumption.
Qed.

(** ** The gold stage *)

Lemma sales_analysis_cases self gold :
  well_formed_silver self ->
  (all_in ["sales_orders"; "order_items"; "financial_transactions"]%string
     (silver_layer self) = true /\
   exists sales_orders order_items,
     silver_data self "sales_orders" = Some (SalesOrders sales_orders) /\
     silver_data self "order_items" = Some (OrderItems order_items) /\
     sales_analysis self gold
     = Ok (dict_set gold "sales_metrics"
             (SalesMetrics (sales_metrics_view sales_orders order_items)))) \/
  (all_in ["sales_orders"; "order_items"; "financial_transactions"]%string
     (silver_layer self) = false /\
   sales_analysis self gold = Ok gold).
Proof.
  intros Hwf. unfold sales_analysis.
  destruct (all_in _ (silver_layer self)) eqn:E; [left | right; split; reflexivity].
  split; [reflexivity |].
  simpl in E. apply andb_true_iff in E as [E1 E2].
  apply andb_true_iff in E2 as [E2 _].
  destruct (silver_frame_sales_orders _ Hwf E1) as (orders & Ho).
  destruct (silver_frame_order_items _ Hwf E2) as (items & Hi).
  exists orders, items. rewrite Ho, Hi. repeat split; reflexivity.
Qed.

Lemma inventory_analysis_cases self gold :
  well_formed_silver self ->
  (all_in ["inventory_transactions"; "products"]%string (silver_layer self) = true /\
   exists inventory products,
     silver_data self "inventory_transactions"
     = Some (InventoryTransactions inventory) /\
     silver_data self "products" = Some (Products products) /\
     inventory_analysis self gold
     = Ok (dict_set gold "inventory_status"
             (InventoryStatus (inventory_status_view inventory products)))) \/
  (all_in ["inventory_transactions"; "products"]%string (silver_layer self) = false /\
   inventory_analysis self gold = Ok gold).
Proof.
  intros Hwf. unfold inventory_analysis.
  destruct (all_in _ (silver_layer self)) eqn:E; [left | right; split; reflexivity].
  split; [reflexivity |].
  simpl in E. apply andb_true_iff in E as [E1 E2].
  apply andb_true_iff in E2 as [E2 _].
  apply dict_in_get in E1 as (e1 & G1). apply dict_in_get in E2 as (e2 & G2).
  pose proof (silver_schema _ _ _ Hwf G1) as S1.
  pose proof (silver_schema _ _ _ Hwf G2) as S2.
  unfold silver_data. rewrite G1, G2. simpl in S1, S2 |- *.
  destruct (Silver.data e1) as [| | | inventory | |]; try discriminate.
  destruct (Silver.data e2) as [| | | | products |]; try discriminate.
  exists inventory, products. repeat split; reflexivity.
Qed.

(** What the gold layer holds after a run on a fresh one. *)
Lemma process_to_gold_fresh self clock i :
  well_formed_silver self ->
  gold_layer self = [] ->
  exists self',
    process_to_gold self clock i = Ok (self', S (S i)) /\
    bronze_layer self' = bronze_layer self /\
    silver_layer self' = silver_layer self /\
    processing_steps self'
    = processing_steps self ++ [GoldStep (keys (gold_layer self')) (clock (S i) - clock i)] /\
    (dict_in "sales_metrics" (gold_layer self') = true <->
     all_in ["sales_orders"; "order_items"; "financial_transactions"]%string
       (silver_layer self) = true) /\
    (dict_in "inventory_status" (gold_layer self') = true <->
     all_in ["inventory_transactions"; "products"]%string (silver_layer self) = true) /\
    (forall view,
        dict_get (gold_layer self') "sales_metrics" = Some view ->
        exists sales_orders order_items,
          silver_data self "sales_orders" = Some (SalesOrders sales_orders) /\
          silver_data self "order_items" = Some (OrderItems order_items) /\
          view = SalesMetrics (sales_metrics_view sales_orders order_items)) /\
    (forall view,
        dict_get (gold_layer self') "inventory_status" = Some view ->
        exists inventory products,
          silver_data self "inventory_transactions"
          = Some (InventoryTransactions inventory) /\
          silver_data self "products" = Some (Products products) /\
          view = InventoryStatus (inventory_status_view inventory products)).
Proof.
  intros Hwf Hfresh. unfold process_to_gold. cbv [bind clock_now lift ret].
  rewrite Hfresh.
  destruct (sales_analysis_cases self [] Hwf)
    as [(E1 & so & oi & Hso & Hoi & ->) | (E1 & ->)];
    match goal with
    | |- context [inventory_analysis self ?g] =>
        destruct (inventory_analysis_cases self g Hwf)
          as [(E2 & inv & pr & Hinv & Hpr & ->) | (E2 & ->)]
    end;
    rewrite E1, E2; (eexists; split; [reflexivity |]);
    cbn [bronze_layer silver_layer gold_layer processing_steps dict_set];
    (split; [reflexivity |]); (split; [reflexivity |]); (split; [reflexivity |]);
    (split; [vm_compute; intuition congruence |]);
    (split; [vm_compute; intuition congruence |]);
    split; intros view Hview; vm_compute in Hview; try discriminate;
    injection Hview as <-; eauto 6.
Qed.

(** ** A whole run *)

Lemma for_state_ext {E S A} (f g : S -> A -> Eff E S) (l : list A) :
  (forall st x s i, f st x s i = g st x s i) ->
  forall st s i, for_state l f st s i = for_state l g st s i.
Proof.
  intros H. induction l as [| x l IH]; intros st s i; [reflexivity |].
  cbn [for_state]. unfold bind. rewrite H.
  destruct (g st x s i) as [[st' j] | e]; [apply IH | reflexivity].
Qed.

Lemma process_to_bronze_single self item clock i :
  process_to_bronze self [item] clock i = ingest self item clock i.
Proof.
  unfold process_to_bronze. cbn [for_state]. unfold bind, ret.
  destruct (ingest self item clock i) as [[p j] | e]; reflexivity.
Qed.

Lemma keys_map_values {V W} (f : V -> W) (d : dict V) : keys (map_values f d) = keys d.
Proof.
  unfold keys, map_values. rewrite map_map. apply map_ext. intros [k v]. reflexivity.
Qed.

Lemma dict_in_keys {V} (d : dict V) k : dict_in k d = true <-> In k (keys d).
Proof.
  unfold dict_in, keys. induction d as [| [k0 v0] d IH]; simpl.
  - split; [discriminate | intros []].
  - destruct (String.eqb_spec k0 k) as [E | N].
    + split; [intros _; left; exact E | reflexivity].
    + rewrite IH. split; [intros H; right; exact H | intros [H | H]; [contradiction | exact H]].
Qed.

Lemma dict_get_NoDup {V} (d : dict V) k v :
  NoDup (keys d) -> In (k, v) d -> dict_get d k = Some v.
Proof.
  unfold keys. induction d as [| [k0 v0] d IH]; intros Hnd Hin; [destruct Hin |].
  inversion Hnd as [| x xs Hnotin Hnd']; subst. simpl.
  destruct Hin as [E | Hin].
  - injection E as -> ->. rewrite String.eqb_refl. reflexivity.
  - destruct (String.eqb_spec k0 k) as [E | N].
    + exfalso. apply Hnotin. rewrite E.
      change k with (fst (k, v)). apply in_map. exact Hin.
    + apply IH; assumption.
Qed.

Lemma keys_combine {V} (ks : list string) (vs : list V) :
  List.length ks = List.length vs -> keys (combine ks vs) = ks.
Proof.
  unfold keys. revert vs. induction ks as [| k ks IH]; intros [| v vs] H;
    simpl in *; try discriminate; [reflexivity |].
  f_equal. apply IH. lia.
Qed.

Lemma Forall2_length_eq {A B} (R : A -> B -> Prop) l1 l2 :
  Forall2 R l1 l2 -> List.length l1 = List.length l2.
Proof. induction 1; simpl; congruence. Qed.

Lemma accounted_well_formed (l : list (string * Bronze.t)) entries :
  Forall2 (fun item entry => entry_accounted (fst item) (snd item) entry) l entries ->
  forallb (fun item => schema_ok (fst item) (Silver.data (snd item)))
    (combine (map fst l) entries) = true.
Proof.
  induction 1 as [| [k e] entry l entries Hacc _ IH]; simpl; [reflexivity |].
  rewrite IH, andb_true_r.
  destruct Hacc as (_ & _ & _ & _ & _ & _ & Hschema & _). exact Hschema.
Qed.

Lemma accounted_totals (l : list (string * Bronze.t)) entries :
  Forall2 (fun item entry => entry_accounted (fst item) (snd item) entry) l entries ->
  (fold_right (fun item n => (len (Silver.data (snd item)) + n)%nat) O
     (combine (map fst l) entries)
   + fold_right (fun item n => (len_invalid (Silver.invalid_records (snd item)) + n)%nat)
       O (combine (map fst l) entries)
   = fold_right (fun item n => (len (Bronze.data (snd item)) + n)%nat) O l)%nat.
Proof.
  induction 1 as [| [k e] entry l entries Hacc _ IH]; simpl; [reflexivity |].
  destruct Hacc as (_ & _ & Hsum & _). simpl in Hsum. lia.
Qed.

Lemma total_bronze_frames (l : dict Bronze.t) :
  fold_right (fun item n => (len (Bronze.data (snd item)) + n)%nat) O l
  = fold_right (fun item n => (len (snd item) + n)%nat) O (map_values Bronze.data l).
Proof.
  induction l as [| [k e] l IH]; simpl; [reflexivity |]. rewrite IH. reflexivity.
Qed.

Lemma run_pipeline_ready data clock i :
  data_ready data ->
  exists p i' entries,
    run_pipeline data clock i = Ok (p, i') /\
    bronze_frames p = data /\
    NoDup (keys (bronze_layer p)) /\
    silver_layer p = combine (keys data) entries /\
    Forall2 (fun item entry => entry_accounted (fst item) (snd item) entry)
      (bronze_layer p) entries /\
    (forall source e,
        In (source, e) (bronze_layer p) ->
        exists entry, dict_get (silver_layer p) source = Some entry /\
                      entry_accounted source e entry) /\
    List.length (processing_steps p) = (2 * List.length data + 1)%nat /\
    (dict_in "sales_metrics" (gold_layer p) = true <->
     all_in ["sales_orders"; "order_items"; "financial_transactions"]%string data
     = true) /\
    (dict_in "inventory_status" (gold_layer p) = true <->
     all_in ["inventory_transactions"; "products"]%string data = true) /\
    (forall view,
        dict_get (gold_layer p) "sales_metrics" = Some view ->
        exists sales_orders order_items,
          silver_data p "sales_orders" = Some (SalesOrders sales_orders) /\
          silver_data p "order_items" = Some (OrderItems order_items) /\
          view = SalesMetrics (sales_metrics_view sales_orders order_items)) /\
    (forall view,
        dict_get (gold_layer p) "inventory_status" = Some view ->
        exists inventory products,
          silver_data p "inventory_transactions"
          = Some (InventoryTransactions inventory) /\
          silver_data p "products" = Some (Products products) /\
          view = InventoryStatus (inventory_status_view inventory products)).
Proof.
  intros [Hnd Hready]. unfold run_pipeline.
  destruct (bronze_loop clock data Hnd new_pipeline i)
    as (p1 & steps & Hb & Hs1 & Hg1 & _ & _ & Hlog1 & Hshape & Hframes).
  specialize (Hframes (fun _ _ => eq_refl)). simpl in Hframes, Hlog1.
  assert (Hkeys : keys (bronze_layer p1) = keys data).
  { rewrite <- Hframes. unfold bronze_frames. rewrite keys_map_values. reflexivity. }
  assert (Hnd1 : NoDup (map fst (bronze_layer p1))).
  { change (map fst (bronze_layer p1)) with (keys (bronze_layer p1)).
    rewrite Hkeys. exact Hnd. }
  assert (Hready1 : forall k e, In (k, e) (bronze_layer p1) ->
                                schema_ok k (Bronze.data e) = true /\
                                (0 < len (Bronze.data e))%nat).
  { intros k e Hin. apply Hready. rewrite <- Hframes.
    unfold bronze_frames, map_values.
    change (k, Bronze.data e)
      with ((fun item : string * Bronze.t => (fst item, Bronze.data (snd item))) (k, e)).
    apply in_map. exact Hin. }
  destruct (silver_loop clock (bronze_layer p1) Hnd1 Hready1 p1 (i + 3 * List.length data))
    as (p2 & i2 & entries & Hs & Hb2 & Hg2 & Hall & Hin & _ & Hlog2 & Hfresh).
  rewrite Hs1 in Hfresh. specialize (Hfresh (fun _ _ => eq_refl)). simpl in Hfresh.
  change (map fst (bronze_layer p1)) with (keys (bronze_layer p1)) in Hfresh.
  rewrite Hkeys in Hfresh.
  assert (Hlen : List.length (keys data) = List.length entries).
  { rewrite <- Hkeys. unfold keys. rewrite length_map.
    eapply Forall2_length_eq. exact Hall. }
  assert (Hwf : well_formed_silver p2).
  { unfold well_formed_silver. rewrite Hfresh, <- Hkeys.
    apply accounted_well_formed. exact Hall. }
  assert (Hfresh_gold : gold_layer p2 = []) by (rewrite Hg2, Hg1; reflexivity).
  destruct (process_to_gold_fresh p2 clock i2 Hwf Hfresh_gold)
    as (p3 & Hgold & Hb3 & Hs3 & Hlog3 & Hsales & Hinv & Hsview & Hiview).
  assert (Hpresent : forall names, all_in names (silver_layer p2) = all_in names data).
  { intros names. unfold all_in. induction names as [| x names IH]; [reflexivity |].
    simpl. rewrite IH. f_equal.
    destruct (dict_in x data) eqn:E.
    - apply dict_in_keys. rewrite Hfresh, keys_combine by exact Hlen.
      apply dict_in_keys. exact E.
    - destruct (dict_in x (silver_layer p2)) eqn:E'; [| reflexivity].
      apply dict_in_keys in E'. rewrite Hfresh, keys_combine in E' by exact Hlen.
      apply dict_in_keys in E'. congruence. }
  exists p3, (S (S i2)), entries.
  split.
  { unfold bind at 1.
    rewrite (for_state_ext (fun p item => process_to_bronze p [item]) ingest data
               (fun st x s j => process_to_bronze_single st x s j)).
    rewrite Hb. unfold bind at 1. unfold process_to_silver. rewrite Hs. exact Hgold. }
  split; [unfold bronze_frames; rewrite Hb3, Hb2; exact Hframes |].
  split; [rewrite Hb3, Hb2; exact Hnd1 |].
  split; [rewrite Hs3; exact Hfresh |].
  split; [rewrite Hb3, Hb2; exact Hall |].
  split.
  { intros source e Hin'. rewrite Hb3, Hb2 in Hin'. rewrite Hs3. apply Hin. exact Hin'. }
  split.
  { rewrite Hlog3, length_app, Hlog2, Hlog1.
    apply Forall2_length_eq in Hshape.
    assert (Hl : List.length (bronze_layer p1) = List.length data).
    { rewrite <- Hframes. unfold bronze_frames, map_values. rewrite length_map.
      reflexivity. }
    rewrite Hl, <- Hshape. simpl. lia. }
  split; [rewrite <- Hpresent; exact Hsales |].
  split; [rewrite <- Hpresent; exact Hinv |].
  split.
  { intros view Hview. destruct (Hsview view Hview) as (so & oi & H1 & H2 & H3).
    exists so, oi. unfold silver_data in *. rewrite Hs3. repeat split; assumption. }
  { intros view Hview. destruct (Hiview view Hview) as (inv & pr & H1 & H2 & H3).
    exists inv, pr. unfold silver_data in *. rewrite Hs3. repeat split; assumption. }
Qed.

(** X19.  On a dictionary of non-empty frames, each of the schema of its
    source, [run_pipeline] returns.  The bronze layer holds the given frames
    unchanged and the silver layer has an entry, with consistent books, for
    every source, in the order of the input.  The gold layer holds
    [sales_metrics] if and only if the input has [sales_orders],
    [order_items] and [financial_transactions], and [inventory_status] if and
    only if it has [inventory_transactions] and [products]; each view is
    computed from the valid frames of the silver layer only.  The run logs
    one Bronze and one Silver step per source and one Gold step. *)
Theorem run_pipeline_completes data clock i :
  data_ready data ->
  exists p i',
    run_pipeline data clock i = Ok (p, i') /\
    bronze_frames p = data /\
    keys (silver_layer p) = keys data /\
    (forall source df,
        In (source, df) data ->
        exists e entry,
          dict_get (bronze_layer p) source = Some e /\ Bronze.data e = df /\
          dict_get (silver_layer p) source = Some entry /\
          entry_accounted source e entry) /\
    (dict_in "sales_metrics" (gold_layer p) = true <->
     all_in ["sales_orders"; "order_items"; "financial_transactions"]%string data
     = true) /\
    (dict_in "inventory_status" (gold_layer p) = true <->
     all_in ["inventory_transactions"; "products"]%string data = true) /\
    (forall view,
        dict_get (gold_layer p) "sales_metrics" = Some view ->
        exists sales_orders order_items,
          silver_data p "sales_orders" = Some (SalesOrders sales_orders) /\
          silver_data p "order_items" = Some (OrderItems order_items) /\
          view = SalesMetrics (sales_metrics_view sales_orders order_items)) /\
    (forall view,
        dict_get (gold_layer p) "inventory_status" = Some view ->
        exists inventory products,
          silver_data p "inventory_transactions"
          = Some (InventoryTransactions inventory) /\
          silver_data p "products" = Some (Products products) /\
          view = InventoryStatus (inventory_status_view inventory products)) /\
    List.length (processing_steps p) = (2 * List.length data + 1)%nat.
Proof.
  intros Hready.
  destruct (run_pipeline_ready data clock i Hready)
    as (p & i' & entries & Hrun & Hframes & Hnd & Hsilver & Hall & Hin & Hlog
        & Hsales & Hinv & Hsview & Hiview).
  exists p, i'.
  split; [exact Hrun |]. split; [exact Hframes |].
  split.
  { rewrite Hsilver. apply keys_combine.
    apply Forall2_length_eq in Hall. rewrite <- Hall.
    rewrite <- Hframes at 1. unfold keys, bronze_frames, map_values.
    rewrite !length_map. reflexivity. }
  split.
  { intros source df Hdf. rewrite <- Hframes in Hdf.
    unfold bronze_frames, map_values in Hdf.
    apply in_map_iff in Hdf as ([k e] & E & He). injection E as -> <-.
    destruct (Hin _ _ He) as (entry & Hentry & Hacc).
    exists e, entry. split; [apply dict_get_NoDup; assumption |].
    split; [reflexivity |]. split; assumption. }
  split; [exact Hsales |]. split; [exact Hinv |].
  split; [exact Hsview |]. split; [exact Hiview | exact Hlog].
Qed.

(** X20.  After a run of [run_pipeline] the three totals of
    [display_pipeline_metrics] add up: the valid records and the invalid
    records of the silver layer are together the records of the bronze layer,
    which are the rows of the input frames. *)
Theorem metrics_totals_add_up data clock i :
  data_ready data ->
  exists p i',
    run_pipeline data clock i = Ok (p, i') /\
    (total_silver p + total_invalid p = total_bronze p)%nat /\
    total_bronze p = fold_right (fun item n => (len (snd item) + n)%nat) O data.
Proof.
  intros Hready.
  destruct (run_pipeline_ready data clock i Hready)
    as (p & i' & entries & Hrun & Hframes & Hnd & Hsilver & Hall & _).
  exists p, i'. split; [exact Hrun |].
  unfold total_silver, total_invalid, total_bronze. split.
  - rewrite Hsilver, <- Hframes.
    unfold bronze_frames. rewrite keys_map_values.
    apply accounted_totals. exact Hall.
  - rewrite total_bronze_frames. unfold bronze_frames in Hframes.
    rewrite Hframes. reflexivity.
Qed.

(** ** Examples *)

Lemma data_all_sources_ready : data_ready data_all_sources.
Proof.
  split.
  - vm_compute. repeat constructor; simpl; intuition discriminate.
  - intros source df H. vm_compute in H.
    destruct H as [H | [H | [H | [H | [H | []]]]]]; injection H as <- <-;
      split; vm_compute; reflexivity || lia.
Defined.

Lemma bronze_all_sources_ready :
  bronze_ready (bronze_after data_all_sources standing_clock).
Proof.
  split.
  - vm_compute. repeat constructor; simpl; intuition discriminate.
  - intros source e H. vm_compute in H.
    destruct H as [H | [H | [H | [H | [H | []]]]]]; injection H as <- <-;
      split; vm_compute; reflexivity || lia.
Defined.



Lemma silver_stage_accounts_witness :
  exists self' i',
    process_to_silver (bronze_after data_all_sources standing_clock) standing_clock
      0%nat = Ok (self', i') /\
    bronze_layer self' = bronze_layer (bronze_after data_all_sources standing_clock) /\
    gold_layer self' = gold_layer (bronze_after data_all_sources standing_clock) /\
    (forall source e,
        In (source, e) (bronze_layer (bronze_after data_all_sources standing_clock)) ->
        exists entry, dict_get (silver_layer self') source = Some entry /\
                      entry_accounted source e entry) /\
    List.length (processing_steps self')
    = (List.length (processing_steps (bronze_after data_all_sources standing_clock))
       + List.length (bronze_layer (bronze_after data_all_sources standing_clock)))%nat.
Proof.
  apply (silver_stage_accounts (bronze_after data_all_sources standing_clock)
           standing_clock 0%nat).
  apply bronze_all_sources_ready.
Defined.

Lemma run_pipeline_completes_witness :
  exists p i',
    run_pipeline data_all_sources standing_clock 0%nat = Ok (p, i') /\
    bronze_frames p = data_all_sources /\
    keys (silver_layer p) = keys data_all_sources /\
    (forall source df,
        In (source, df) data_all_sources ->
        exists e entry,
          dict_get (bronze_layer p) source = Some e /\ Bronze.data e = df /\
          dict_get (silver_layer p) source = Some entry /\
          entry_accounted source e entry) /\
    (dict_in "sales_metrics" (gold_layer p) = true <->
     all_in ["sales_orders"; "order_items"; "financial_transactions"]%string
       data_all_sources = true) /\
    (dict_in "inventory_status" (gold_layer p) = true <->
     all_in ["inventory_transactions"; "products"]%string data_all_sources = true) /\
    (forall view,
        dict_get (gold_layer p) "sales_metrics" = Some view ->
        exists sales_orders order_items,
          silver_data p "sales_orders" = Some (SalesOrders sales_orders) /\
          silver_data p "order_items" = Some (OrderItems order_items) /\
          view = SalesMetrics (sales_metrics_view sales_orders order_items)) /\
    (forall view,
        dict_get (gold_layer p) "inventory_status" = Some view ->
        exists inventory products,
          silver_data p "inventory_transactions"
          = Some (InventoryTransactions inventory) /\
          silver_data p "products" = Some (Products products) /\
          view = InventoryStatus (inventory_status_view inventory products)) /\
    List.length (processing_steps p) = (2 * List.length data_all_sources + 1)%nat.
Proof.
  apply (run_pipeline_completes data_all_sources standing_clock 0%nat).
  apply data_all_sources_ready.
Defined.

Lemma metrics_totals_add_up_witness :
  exists p i',
    run_pipeline data_all_sources standing_clock 0%nat = Ok (p, i') /\
    (total_silver p + total_invalid p = total_bronze p)%nat /\
    total_bronze p
    = fold_right (fun item n => (len (snd item) + n)%nat) O data_all_sources.
Proof.
  apply (metrics_totals_add_up data_all_sources standing_clock 0%nat).
  apply data_all_sources_ready.
Defined.
